(** * Deep-compression autoencoder (VAE/models/dcae.py): model and properties

    The development follows the layout of [dcae.py]:

    - [Py]: Python exceptions as an error monad;
    - [Layers]: the selectors ([ACTIVATION_FUNCTIONS], [get_activation],
      [get_normalization]) and the constructor ([__init__]) of every block
      and of [Encoder];
    - [Shape]: the forward pass of every block on tensor shapes;
    - [Value]: the numeric parts (RMSNorm, the two attention formulas, the
      down-sampling shortcut, the attention processor) on tensors of reals;
    - [Autoencoder]: the flags and the batch slicing of [AutoencoderDC];
    - the properties, module by module.

    Floating-point tensors are idealised as real numbers ([R]); dtype casts
    ([.to(torch.float32)] and back) are therefore the identity.  Python
    integers are [Z]; [//] and [%] are [Z.div] and [Z.modulo], which agree
    with Python on every non-zero divisor (both round towards minus
    infinity), and a zero divisor is checked explicitly and raises
    [ZeroDivisionError]. *)

From Stdlib Require Import String Ascii.
From Stdlib Require Import ZArith QArith List Bool Lia Arith.
From Stdlib Require Import Reals Lra.
Import ListNotations.

(* ================================================================== *)
(** * Python exceptions *)

Module Py.

Inductive exn : Type :=
| ValueError
| AssertionError
| AttributeError
| IndexError
| ZeroDivisionError
| NotImplementedError
| RuntimeError.          (* what the tensor backend raises on a shape error *)

Inductive result (A : Type) : Type :=
| Ok (a : A)
| Raise (e : exn).

Arguments Ok {A} a.
Arguments Raise {A} e.

Definition bind {A B} (m : result A) (k : A -> result B) : result B :=
  match m with
  | Ok a => k a
  | Raise e => Raise e
  end.

(** A list comprehension [[f(x) for x in xs]]: elements are evaluated
    left to right and the first exception aborts the comprehension. *)
Fixpoint comprehension {A B} (f : A -> result B) (xs : list A)
  : result (list B) :=
  match xs with
  | [] => Ok []
  | x :: xs' =>
      bind (f x) (fun y => bind (comprehension f xs') (fun ys => Ok (y :: ys)))
  end.

(** [xs[i]] for a non-negative index [i]. *)
Definition getitem {A} (xs : list A) (i : nat) : result A :=
  match nth_error xs i with
  | Some a => Ok a
  | None => Raise IndexError
  end.

(** [xs[-1]]. *)
Definition getitem_last {A} (xs : list A) : result A :=
  match rev xs with
  | a :: _ => Ok a
  | [] => Raise IndexError
  end.

(** [a // b] on Python integers. *)
Definition floordiv (a b : Z) : result Z :=
  if (b =? 0)%Z then Raise ZeroDivisionError else Ok (a / b)%Z.

Definition is_ok {A} (m : result A) : bool :=
  match m with Ok _ => true | Raise _ => false end.

End Py.

Import Py.

Declare Scope py_scope.
Delimit Scope py_scope with py.
Notation "x <- m ;; k" := (Py.bind m (fun x => k))
  (at level 61, m at next level, right associativity) : py_scope.
Notation "' pat <- m ;; k" := (Py.bind m (fun x => match x with pat => k end))
  (at level 61, pat pattern, m at next level, right associativity) : py_scope.
Open Scope py_scope.


(* ================================================================== *)
(** * Constructors: the [__init__] of every module class *)

Module Layers.

Local Open Scope Z_scope.

(** ** Activation and normalization selectors *)

(** [str.lower()] on the ASCII range.  The only non-ASCII characters that
    Python lowers to an ASCII letter are U+212A (to [k]) and U+0130 (to
    [i] followed by a combining mark); neither yields a key of the table
    below, so membership is decided by the ASCII letters alone. *)
Definition lower_ascii (c : ascii) : ascii :=
  let n := nat_of_ascii c in
  if ((65 <=? n) && (n <=? 90))%nat then ascii_of_nat (n + 32) else c.

Fixpoint lower (s : string) : string :=
  match s with
  | EmptyString => EmptyString
  | String c s' => String (lower_ascii c) (lower s')
  end.

(** The operator instances the table holds; [Identity] is what [ResBlock]
    installs when it is given no activation name. *)
Inductive Activation : Type :=
| SiLU | Mish | GELU | ReLU | Identity.

(** The module-level dictionary, in source order. *)
Definition ACTIVATION_FUNCTIONS : list (string * Activation) :=
  [ ("swish", SiLU); ("silu", SiLU); ("mish", Mish);
    ("gelu", GELU); ("relu", ReLU) ]%string.

Fixpoint dict_get {V} (d : list (string * V)) (k : string) : option V :=
  match d with
  | [] => None
  | (k', v) :: d' => if String.eqb k k' then Some v else dict_get d' k
  end.

Definition dict_keys {V} (d : list (string * V)) : list string :=
  map fst d.

Definition get_activation (act_fn : string) : result Activation :=
  let act_fn := lower act_fn in
  match dict_get ACTIVATION_FUNCTIONS act_fn with
  | Some op => Ok op
  | None => Raise ValueError
  end.

Record RMSNorm : Type := mkRMSNorm {
  rms_dim : Z;
  rms_eps : R;
  rms_elementwise_affine : bool;
  rms_weight : option (list R);
  rms_bias : option (list R)
}.

(** [RMSNorm.__init__]: the weight is [torch.ones(dim)], the bias
    [torch.zeros(dim)]; creating a tensor of negative size raises. *)
Definition RMSNorm_init (dim : Z) (eps : R) (elementwise_affine bias : bool)
  : result RMSNorm :=
  if elementwise_affine then
    if dim <? 0 then Raise RuntimeError
    else
      Ok (mkRMSNorm dim eps elementwise_affine
            (Some (repeat 1%R (Z.to_nat dim)))
            (if bias then Some (repeat 0%R (Z.to_nat dim)) else None))
  else Ok (mkRMSNorm dim eps elementwise_affine None None).

Inductive Normalization : Type :=
| NRMSNorm (n : RMSNorm)
| NLayerNorm (normalized_shape : Z) (eps : R) (elementwise_affine bias : bool)
| NBatchNorm2d (num_features : Z) (eps : R) (affine : bool).

(** [nn.LayerNorm] allocates its parameters only when affine. *)
Definition LayerNorm_init (n : Z) (eps : R) (affine bias : bool)
  : result Normalization :=
  if affine && (n <? 0) then Raise RuntimeError
  else Ok (NLayerNorm n eps affine bias).

(** [nn.BatchNorm2d] allocates its running statistics in every case. *)
Definition BatchNorm2d_init (n : Z) (eps : R) (affine : bool)
  : result Normalization :=
  if n <? 0 then Raise RuntimeError
  else Ok (NBatchNorm2d n eps affine).

Definition default_norm_eps : R := (1 / 100000)%R.   (* 1e-5 *)

(** The names [get_normalization] tests for, in source order. *)
Definition normalization_names : list string :=
  [ "rms_norm"; "layer_norm"; "batch_norm" ]%string.

Definition get_normalization (norm_type : string) (num_features : Z)
    (eps : R) (elementwise_affine bias : bool) : result Normalization :=
  if String.eqb norm_type "rms_norm" then
    n <- RMSNorm_init num_features eps elementwise_affine bias ;;
    Ok (NRMSNorm n)
  else if String.eqb norm_type "layer_norm" then
    LayerNorm_init num_features eps elementwise_affine bias
  else if String.eqb norm_type "batch_norm" then
    BatchNorm2d_init num_features eps elementwise_affine
  else Raise ValueError.

(** ** Library layers *)

Record Conv2d : Type := mkConv2d {
  conv_in_channels : Z;
  conv_out_channels : Z;
  conv_kernel_size : Z;
  conv_stride : Z;
  conv_padding : Z;
  conv_groups : Z;
  conv_bias : bool
}.

(** [nn.Conv2d(...)]: the checks of the library constructor, then the
    allocation of the weight [(out, in // groups, k, k)]. *)
Definition Conv2d_init (cin cout k stride padding groups : Z) (bias : bool)
  : result Conv2d :=
  if groups <=? 0 then Raise ValueError
  else if negb (cin mod groups =? 0) then Raise ValueError
  else if negb (cout mod groups =? 0) then Raise ValueError
  else if (cout <? 0) || (cin / groups <? 0) || (k <? 0)
    then Raise RuntimeError
  else Ok (mkConv2d cin cout k stride padding groups bias).

Record Linear : Type := mkLinear {
  lin_in_features : Z;
  lin_out_features : Z
}.

(** [nn.Linear(i, o, bias=False)] allocates a weight [(o, i)]. *)
Definition Linear_init (i o : Z) : result Linear :=
  if (i <? 0) || (o <? 0) then Raise RuntimeError else Ok (mkLinear i o).

(** ** [SanaMultiscaleAttentionProjection] *)

Record SanaMultiscaleAttentionProjection : Type := mkProjection {
  proj_in : Conv2d;
  proj_out : Conv2d
}.

Definition SanaMultiscaleAttentionProjection_init
    (in_channels num_attention_heads kernel_size : Z)
  : result SanaMultiscaleAttentionProjection :=
  let channels := 3 * in_channels in
  pin <- Conv2d_init channels channels kernel_size 1 (kernel_size / 2)
           channels false ;;
  pout <- Conv2d_init channels channels 1 1 0 (3 * num_attention_heads)
            false ;;
  Ok (mkProjection pin pout).

(** ** [SanaMultiscaleLinearAttention] *)

Record SanaMultiscaleLinearAttention : Type := mkAttention {
  eps : R;
  attention_head_dim : Z;
  norm_type : string;
  residual_connection : bool;
  to_q : Linear;
  to_k : Linear;
  to_v : Linear;
  to_qkv_multiscale : list SanaMultiscaleAttentionProjection;
  nonlinearity : Activation;
  to_out : Linear;
  norm_out : Normalization
}.

Definition default_attention_eps : R := (/ 10 ^ 15)%R.   (* 1e-15 *)

(** [int(q)] for a rational [q]: truncation towards zero. *)
Definition int_of_Q (q : Q) : Z := Z.quot (Qnum q) (Zpos (Qden q)).

Definition SanaMultiscaleLinearAttention_init
    (in_channels out_channels : Z) (num_attention_heads : option Z)
    (attention_head_dim : Z) (mult : Q) (norm_type : string)
    (kernel_sizes : list Z) (eps : R) (residual_connection : bool)
  : result SanaMultiscaleLinearAttention :=
  num_attention_heads <-
    match num_attention_heads with
    | None =>
        q <- floordiv in_channels attention_head_dim ;;
        Ok (int_of_Q (Qmult (inject_Z q) mult))
    | Some n => Ok n
    end ;;
  let inner_dim := num_attention_heads * attention_head_dim in
  q <- Linear_init in_channels inner_dim ;;
  k <- Linear_init in_channels inner_dim ;;
  v <- Linear_init in_channels inner_dim ;;
  multiscale <-
    comprehension
      (fun kernel_size =>
         SanaMultiscaleAttentionProjection_init
           inner_dim num_attention_heads kernel_size)
      kernel_sizes ;;
  out <- Linear_init (inner_dim * (1 + Z.of_nat (length kernel_sizes)))
           out_channels ;;
  norm <- get_normalization norm_type out_channels default_norm_eps
            true true ;;
  Ok (mkAttention eps attention_head_dim norm_type residual_connection
        q k v multiscale ReLU out norm).

(** ** [GLUMBConv] *)

Record GLUMBConv : Type := mkGLUMBConv {
  glu_nonlinearity : Activation;
  conv_inverted : Conv2d;
  conv_depth : Conv2d;
  conv_point : Conv2d;
  glu_norm : RMSNorm
}.

Definition GLUMBConv_init (in_channels out_channels : Z) : result GLUMBConv :=
  let hidden_channels := 4 * in_channels in
  ci <- Conv2d_init in_channels (hidden_channels * 2) 1 1 0 1 true ;;
  cd <- Conv2d_init (hidden_channels * 2) (hidden_channels * 2) 3 1 1
          (hidden_channels * 2) true ;;
  cp <- Conv2d_init hidden_channels out_channels 1 1 0 1 false ;;
  norm <- RMSNorm_init out_channels default_norm_eps true true ;;
  Ok (mkGLUMBConv SiLU ci cd cp norm).

(** ** [ResBlock] *)

Record ResBlock : Type := mkResBlock {
  res_norm_type : string;
  res_nonlinearity : Activation;
  res_conv1 : Conv2d;
  res_conv2 : Conv2d;
  res_norm : Normalization
}.

Definition default_act_fn : string := "relu6".
Definition default_norm_type : string := "batch_norm".

(** [act_fn] is [None] or a name. *)
Definition ResBlock_init (in_channels out_channels : Z)
    (norm_type : string) (act_fn : option string) : result ResBlock :=
  nonlinearity <- match act_fn with
                  | Some name => get_activation name
                  | None => Ok Identity
                  end ;;
  conv1 <- Conv2d_init in_channels in_channels 3 1 1 1 true ;;
  conv2 <- Conv2d_init in_channels out_channels 3 1 1 1 false ;;
  norm <- get_normalization norm_type out_channels default_norm_eps
            true true ;;
  Ok (mkResBlock norm_type nonlinearity conv1 conv2 norm).

(** ** [EfficientViTBlock] *)

Record EfficientViTBlock : Type := mkEfficientViTBlock {
  vit_attn : SanaMultiscaleLinearAttention;
  vit_conv_out : GLUMBConv
}.

Definition EfficientViTBlock_init (in_channels : Z) (mult : Q)
    (attention_head_dim : Z) (qkv_multiscales : list Z) (norm_type : string)
  : result EfficientViTBlock :=
  attn <- SanaMultiscaleLinearAttention_init in_channels in_channels None
            attention_head_dim mult norm_type qkv_multiscales
            default_attention_eps true ;;
  conv_out <- GLUMBConv_init in_channels in_channels ;;
  Ok (mkEfficientViTBlock attn conv_out).

(** ** [DCDownBlock2d] and [DCUpBlock2d] *)

Record DCDownBlock2d : Type := mkDCDownBlock2d {
  down_downsample : bool;
  down_factor : Z;
  down_stride : Z;
  down_group_size : Z;
  down_shortcut : bool;
  down_conv : Conv2d
}.

Definition DCDownBlock2d_init (in_channels out_channels : Z)
    (downsample shortcut : bool) : result DCDownBlock2d :=
  let factor := 2 in
  let stride := if downsample then 1 else 2 in
  group_size <- floordiv (in_channels * factor ^ 2) out_channels ;;
  let out_ratio := factor ^ 2 in
  out_channels <-
    (if downsample then
       if out_channels mod out_ratio =? 0
       then Ok (out_channels / out_ratio)
       else Raise AssertionError
     else Ok out_channels) ;;
  conv <- Conv2d_init in_channels out_channels 3 stride 1 1 true ;;
  Ok (mkDCDownBlock2d downsample factor stride group_size shortcut conv).

Record DCUpBlock2d : Type := mkDCUpBlock2d {
  up_interpolate : bool;
  up_interpolation_mode : string;
  up_shortcut : bool;
  up_factor : Z;
  up_repeats : Z;
  up_conv : Conv2d
}.

Definition DCUpBlock2d_init (in_channels out_channels : Z)
    (interpolate shortcut : bool) (interpolation_mode : string)
  : result DCUpBlock2d :=
  let factor := 2 in
  repeats <- floordiv (out_channels * factor ^ 2) in_channels ;;
  let out_ratio := factor ^ 2 in
  let out_channels :=
    if negb interpolate then out_channels * out_ratio else out_channels in
  conv <- Conv2d_init in_channels out_channels 3 1 1 1 true ;;
  Ok (mkDCUpBlock2d interpolate interpolation_mode shortcut factor repeats
        conv).

(** ** [get_block] and [Encoder] *)

Inductive Layer : Type :=
| LConv2d (c : Conv2d)
| LResBlock (r : ResBlock)
| LEfficientViTBlock (e : EfficientViTBlock)
| LDCDownBlock2d (d : DCDownBlock2d).

Definition get_block (block_type : string) (in_channels out_channels : Z)
    (attention_head_dim : Z) (norm_type act_fn : string)
    (qkv_mutliscales : list Z) : result Layer :=
  if String.eqb block_type "ResBlock" then
    r <- ResBlock_init in_channels out_channels norm_type (Some act_fn) ;;
    Ok (LResBlock r)
  else if String.eqb block_type "EfficientViTBlock" then
    e <- EfficientViTBlock_init in_channels 1%Q attention_head_dim
           qkv_mutliscales norm_type ;;
    Ok (LEfficientViTBlock e)
  else Raise ValueError.

(** [Union[str, Tuple[str]]]. *)
Inductive str_or_tuple : Type :=
| Str (s : string)
| Tuple (ss : list string).

Record EncoderConfig : Type := mkEncoderConfig {
  in_channels : Z;
  latent_channels : Z;
  cfg_attention_head_dim : Z;
  block_type : str_or_tuple;
  block_out_channels : list Z;
  layers_per_block : list Z;
  qkv_multiscales : list (list Z);
  downsample_block_type : string;
  out_shortcut : bool
}.

Record Encoder : Type := mkEncoder {
  enc_conv_in : Layer;
  enc_down_blocks : list (list Layer);      (* one [nn.Sequential] per stage *)
  enc_conv_out : Conv2d;
  enc_out_shortcut : bool;
  enc_out_shortcut_average_group_size : Z   (* read only when the flag is set *)
}.

Fixpoint enumerate_from {A} (i : nat) (xs : list A) : list (nat * A) :=
  match xs with
  | [] => []
  | x :: xs' => (i, x) :: enumerate_from (S i) xs'
  end.

Definition enumerate {A} (xs : list A) : list (nat * A) :=
  enumerate_from 0 xs.

(** [range(n)]. *)
Definition range (n : Z) : list nat := seq 0 (Z.to_nat n).

Definition is_pixel_unshuffle (cfg : EncoderConfig) : bool :=
  String.eqb (downsample_block_type cfg) "pixel_unshuffle".

(** The block type of every stage: a single name stands for
    [(block_type,) * num_blocks]. *)
Definition block_types_of (cfg : EncoderConfig) : list string :=
  match block_type cfg with
  | Str s => repeat s (length (block_out_channels cfg))
  | Tuple ss => ss
  end.

(** The body of the loop over the stages: one [nn.Sequential]. *)
Definition Encoder_stage (cfg : EncoderConfig) (block_types : list string)
    (num_blocks : Z) (stage : nat * (Z * Z)) : result (list Layer) :=
  let '(i, (out_channel, num_layers)) := stage in
  down_block_list <-
    comprehension
      (fun _ =>
         bt <- getitem block_types i ;;
         ms <- getitem (qkv_multiscales cfg) i ;;
         get_block bt out_channel out_channel (cfg_attention_head_dim cfg)
           "rms_norm" "silu" ms)
      (range num_layers) ;;
  if (Z.of_nat i <? num_blocks - 1) && (num_layers >? 0) then
    next <- getitem (block_out_channels cfg) (i + 1) ;;
    downsample_block <-
      DCDownBlock2d_init out_channel next (is_pixel_unshuffle cfg) true ;;
    Ok (down_block_list ++ [LDCDownBlock2d downsample_block])
  else Ok down_block_list.

Definition Encoder_init (cfg : EncoderConfig) : result Encoder :=
  let num_blocks := Z.of_nat (length (block_out_channels cfg)) in
  let block_types := block_types_of cfg in
  first_layers <- getitem (layers_per_block cfg) 0 ;;
  conv_in <-
    (if first_layers >? 0 then
       c0 <- getitem (block_out_channels cfg) 0 ;;
       c <- Conv2d_init (in_channels cfg) c0 3 1 1 1 true ;;
       Ok (LConv2d c)
     else
       c1 <- getitem (block_out_channels cfg) 1 ;;
       d <- DCDownBlock2d_init (in_channels cfg) c1
              (is_pixel_unshuffle cfg) false ;;
       Ok (LDCDownBlock2d d)) ;;
  down_blocks <-
    comprehension (Encoder_stage cfg block_types num_blocks)
      (enumerate (combine (block_out_channels cfg) (layers_per_block cfg))) ;;
  last_channels <- getitem_last (block_out_channels cfg) ;;
  conv_out <- Conv2d_init last_channels (latent_channels cfg) 3 1 1 1 true ;;
  group_size <-
    (if out_shortcut cfg
     then floordiv last_channels (latent_channels cfg)
     else Ok 0) ;;
  Ok (mkEncoder conv_in down_blocks conv_out (out_shortcut cfg) group_size).

End Layers.

(* ================================================================== *)
(** * The forward pass on tensor shapes

    The learned weights decide the values of a feature map, never its
    shape: every operation of the tensor backend is modelled here by its
    shape rule.  A value of type [shape] is the [torch.Size] of a tensor;
    a shape error of the backend is [Raise RuntimeError]. *)

Module Shape.

Import Layers.
Local Open Scope Z_scope.

Definition shape : Type := list Z.

Definition numel (s : shape) : Z := fold_right Z.mul 1 s.

(** *** Elementwise operations and broadcasting *)

Fixpoint broadcast_rev (a b : list Z) : result (list Z) :=
  match a, b with
  | [], _ => Ok b
  | _, [] => Ok a
  | x :: a', y :: b' =>
      r <- broadcast_rev a' b' ;;
      if x =? y then Ok (x :: r)
      else if x =? 1 then Ok (y :: r)
      else if y =? 1 then Ok (x :: r)
      else Raise RuntimeError
  end.

(** The shape of [a + b], [a * b], [a / b]. *)
Definition broadcast (a b : shape) : result shape :=
  r <- broadcast_rev (rev a) (rev b) ;;
  Ok (rev r).

(** *** Rearrangements *)

(** [t.movedim(1, -1)]. *)
Definition movedim_1_last (s : shape) : result shape :=
  match s with
  | x0 :: x1 :: rest => Ok (x0 :: rest ++ [x1])
  | _ => Raise IndexError
  end.

(** [t.movedim(-1, 1)]. *)
Definition movedim_last_1 (s : shape) : result shape :=
  match s with
  | x0 :: x1 :: rest =>
      Ok (x0 :: last (x1 :: rest) 0 :: removelast (x1 :: rest))
  | _ => Raise IndexError
  end.

(** [t.transpose(-1, -2)]. *)
Definition transpose_last2 (s : shape) : result shape :=
  match rev s with
  | n :: m :: batch => Ok (rev batch ++ [n; m])
  | _ => Raise IndexError
  end.

Fixpoint set_nth (i : nat) (v : Z) (s : shape) : shape :=
  match s, i with
  | [], _ => []
  | _ :: s', O => v :: s'
  | x :: s', S i' => x :: set_nth i' v s'
  end.

Definition same_except (dim : nat) (a b : shape) : bool :=
  (length a =? length b)%nat
  && forallb (fun '(i, (x, y)) => (i =? dim)%nat || (x =? y))
       (enumerate (combine a b)).

(** [torch.cat(ts, dim)]. *)
Definition cat (ts : list shape) (dim : nat) : result shape :=
  match ts with
  | [] => Raise RuntimeError
  | t :: rest =>
      if (dim <? length t)%nat && forallb (same_except dim t) rest
      then Ok (set_nth dim
                 (fold_right Z.add 0 (map (fun u => nth dim u 0) ts)) t)
      else Raise RuntimeError
  end.

(** [t.reshape(target)], where [target] may hold one [-1]. *)
Definition reshape (s target : shape) : result shape :=
  let known := filter (fun d => negb (d =? -1)) target in
  let p := numel known in
  if existsb (fun d => d <? -1) target then Raise RuntimeError
  else
    match length (filter (fun d => d =? -1) target) with
    | O => if numel s =? p then Ok target else Raise RuntimeError
    | S O =>
        if (p =? 0) || negb (numel s mod p =? 0) then Raise RuntimeError
        else Ok (map (fun d => if d =? -1 then numel s / p else d) target)
    | _ => Raise RuntimeError
    end.

(** [t.chunk(chunks, dim)]: pieces of [ceil(n / chunks)] entries, the
    last one shorter when [n] is not a multiple. *)
Definition chunk (s : shape) (chunks : Z) (dim : nat) : result (list shape) :=
  match nth_error s dim with
  | None => Raise IndexError
  | Some n =>
      if chunks <=? 0 then Raise RuntimeError
      else
        let size := (n + chunks - 1) / chunks in
        if size =? 0 then Ok (repeat (set_nth dim 0 s) (Z.to_nat chunks))
        else
          let count := (n + size - 1) / size in
          Ok (map (fun i =>
                     set_nth dim (Z.min size (n - Z.of_nat i * size)) s)
                (range count))
  end.

(** [t.unflatten(1, (-1, g))]. *)
Definition unflatten_1 (s : shape) (g : Z) : result shape :=
  match s with
  | x0 :: c :: rest =>
      if (g <=? 0) || negb (c mod g =? 0) then Raise RuntimeError
      else Ok (x0 :: c / g :: g :: rest)
  | _ => Raise IndexError
  end.

(** [t.mean(dim=2)]. *)
Definition mean_2 (s : shape) : result shape :=
  match s with
  | x0 :: x1 :: _ :: rest => Ok (x0 :: x1 :: rest)
  | _ => Raise IndexError
  end.

(** [torch.sum(t, dim=2, keepdim=True)]. *)
Definition sum_2_keepdim (s : shape) : result shape :=
  match s with
  | x0 :: x1 :: _ :: rest => Ok (x0 :: x1 :: 1 :: rest)
  | _ => Raise IndexError
  end.

(** [t.repeat_interleave(repeats, dim=1)]. *)
Definition repeat_interleave_1 (s : shape) (repeats : Z) : result shape :=
  match s with
  | x0 :: c :: rest =>
      if repeats <? 0 then Raise RuntimeError
      else Ok (x0 :: c * repeats :: rest)
  | _ => Raise IndexError
  end.

(** [F.pixel_unshuffle(t, r)]: the sizes are checked first; a tensor
    without elements is then returned as it is. *)
Definition pixel_unshuffle (s : shape) (r : Z) : result shape :=
  match s with
  | [b; c; h; w] =>
      if (r <=? 0) || negb (h mod r =? 0) || negb (w mod r =? 0)
      then Raise RuntimeError
      else if numel s =? 0 then Ok s
      else Ok [b; c * (r * r); h / r; w / r]
  | _ => Raise RuntimeError
  end.

Definition pixel_shuffle (s : shape) (r : Z) : result shape :=
  match s with
  | [b; c; h; w] =>
      if (r <=? 0) || negb (c mod (r * r) =? 0) then Raise RuntimeError
      else Ok [b; c / (r * r); h * r; w * r]
  | _ => Raise RuntimeError
  end.

(** The interpolation modes [F.interpolate] has for a feature map. *)
Definition interpolate_modes : list string :=
  [ "nearest"; "bilinear"; "bicubic"; "area"; "nearest-exact" ]%string.

(** [F.interpolate(t, scale_factor=r, mode=mode)] on a feature map: a mode
    made for another rank, or an unknown one, raises
    [NotImplementedError]. *)
Definition interpolate (s : shape) (r : Z) (mode : string) : result shape :=
  match s with
  | [b; c; h; w] =>
      if existsb (String.eqb mode) interpolate_modes
      then Ok [b; c; h * r; w * r]
      else Raise NotImplementedError
  | _ => Raise RuntimeError
  end.

(** [F.pad(t, (0, 0, 0, 1))]: one more row in the last but one axis. *)
Definition pad_rows_1 (s : shape) : result shape :=
  match rev s with
  | n :: m :: batch => Ok (rev batch ++ [m + 1; n])
  | _ => Raise RuntimeError
  end.

(** [torch.matmul(a, b)] for operands of rank two or more. *)
Definition matmul (a b : shape) : result shape :=
  match rev a, rev b with
  | n :: m :: ba, p :: n' :: bb =>
      if n =? n' then
        batch <- broadcast_rev ba bb ;;
        Ok (rev batch ++ [m; p])
      else Raise RuntimeError
  | _, _ => Raise RuntimeError
  end.

(** [t[:, :, :-1]] and [t[:, :, -1:]]. *)
Definition slice_2_init (s : shape) : result shape :=
  match s with
  | x0 :: x1 :: n :: rest => Ok (x0 :: x1 :: Z.max (n - 1) 0 :: rest)
  | _ => Raise IndexError
  end.

Definition slice_2_last (s : shape) : result shape :=
  match s with
  | x0 :: x1 :: n :: rest => Ok (x0 :: x1 :: Z.min n 1 :: rest)
  | _ => Raise IndexError
  end.

(** *** Library layers *)

Definition Conv2d_forward (c : Conv2d) (s : shape) : result shape :=
  match s with
  | [b; ch; h; w] =>
      let k := conv_kernel_size c in
      let p := conv_padding c in
      if negb (ch =? conv_in_channels c) then Raise RuntimeError
      else if (h + 2 * p <? k) || (w + 2 * p <? k) then Raise RuntimeError
      else Ok [b; conv_out_channels c;
               (h + 2 * p - k) / conv_stride c + 1;
               (w + 2 * p - k) / conv_stride c + 1]
  | _ => Raise RuntimeError
  end.

Definition Linear_forward (l : Linear) (s : shape) : result shape :=
  match rev s with
  | n :: batch =>
      if n =? lin_in_features l
      then Ok (rev batch ++ [lin_out_features l])
      else Raise RuntimeError
  | [] => Raise RuntimeError
  end.

(** [RMSNorm.forward]: the variance keeps the rank, the product with it
    keeps the shape; weight and bias, of shape [(dim,)], are broadcast. *)
Definition RMSNorm_forward (n : RMSNorm) (s : shape) : result shape :=
  match s with
  | [] => Raise IndexError
  | _ =>
      match rms_weight n with
      | Some w =>
          s <- broadcast s [Z.of_nat (length w)] ;;
          match rms_bias n with
          | Some b => broadcast s [Z.of_nat (length b)]
          | None => Ok s
          end
      | None => Ok s
      end
  end.

(** The three normalizations, as their constructors leave them.  A
    [BatchNorm2d] is then in training mode: it checks the rank, refuses a
    batch with a single value per channel, and the backend checks the
    channel count. *)
Definition Normalization_forward (n : Normalization) (s : shape)
  : result shape :=
  match n with
  | NRMSNorm r => RMSNorm_forward r s
  | NLayerNorm d _ _ _ =>
      match rev s with
      | x :: _ => if x =? d then Ok s else Raise RuntimeError
      | [] => Raise RuntimeError
      end
  | NBatchNorm2d d _ _ =>
      match s with
      | [b; c; h; w] =>
          if b * h * w =? 1 then Raise ValueError
          else if c =? d then Ok s else Raise RuntimeError
      | _ => Raise ValueError
      end
  end.

(** *** The blocks *)

Definition SanaMultiscaleAttentionProjection_forward
    (p : SanaMultiscaleAttentionProjection) (hidden_states : shape)
  : result shape :=
  hidden_states <- Conv2d_forward (proj_in p) hidden_states ;;
  Conv2d_forward (proj_out p) hidden_states.

Definition apply_linear_attention (query key value : shape) : result shape :=
  value <- pad_rows_1 value ;;
  key_t <- transpose_last2 key ;;
  scores <- matmul value key_t ;;
  hidden_states <- matmul scores query ;;
  num <- slice_2_init hidden_states ;;
  den <- slice_2_last hidden_states ;;
  broadcast num den.

Definition apply_quadratic_attention (query key value : shape)
  : result shape :=
  key_t <- transpose_last2 key ;;
  scores <- matmul key_t query ;;
  total <- sum_2_keepdim scores ;;
  scores <- broadcast scores total ;;
  matmul value scores.

(** The rule selecting the attention formula. *)
Definition use_linear_attention (attn : SanaMultiscaleLinearAttention)
    (height width : Z) : bool :=
  height * width >? attention_head_dim attn.

(** [SanaMultiscaleAttnProcessor2_0.__call__]. *)
Definition processor_call (attn : SanaMultiscaleLinearAttention)
    (hidden_states : shape) : result shape :=
  match hidden_states with
  | [batch_size; _; height; width] =>
      let linear := use_linear_attention attn height width in
      let residual := hidden_states in
      hidden_states <- movedim_1_last hidden_states ;;
      query <- Linear_forward (to_q attn) hidden_states ;;
      key <- Linear_forward (to_k attn) hidden_states ;;
      value <- Linear_forward (to_v attn) hidden_states ;;
      hidden_states <- cat [query; key; value] 3 ;;
      hidden_states <- movedim_last_1 hidden_states ;;
      scales <-
        comprehension
          (fun block =>
             SanaMultiscaleAttentionProjection_forward block hidden_states)
          (to_qkv_multiscale attn) ;;
      hidden_states <- cat (hidden_states :: scales) 1 ;;
      hidden_states <-
        reshape hidden_states
          [batch_size; -1; 3 * attention_head_dim attn; height * width] ;;
      chunks <- chunk hidden_states 3 2 ;;
      match chunks with
      | [query; key; value] =>
          hidden_states <-
            (if linear
             then apply_linear_attention query key value
             else apply_quadratic_attention query key value) ;;
          hidden_states <-
            reshape hidden_states [batch_size; -1; height; width] ;;
          hidden_states <- movedim_1_last hidden_states ;;
          hidden_states <- Linear_forward (to_out attn) hidden_states ;;
          hidden_states <- movedim_last_1 hidden_states ;;
          hidden_states <-
            (if String.eqb (norm_type attn) "rms_norm" then
               h <- movedim_1_last hidden_states ;;
               h <- Normalization_forward (norm_out attn) h ;;
               movedim_last_1 h
             else Normalization_forward (norm_out attn) hidden_states) ;;
          if residual_connection attn
          then broadcast hidden_states residual
          else Ok hidden_states
      | _ => Raise ValueError
      end
  | _ => Raise ValueError
  end.

Definition GLUMBConv_forward (g : GLUMBConv) (hidden_states : shape)
  : result shape :=
  let residual := hidden_states in
  hidden_states <- Conv2d_forward (conv_inverted g) hidden_states ;;
  hidden_states <- Conv2d_forward (conv_depth g) hidden_states ;;
  chunks <- chunk hidden_states 2 1 ;;
  match chunks with
  | [hidden_states; gate] =>
      hidden_states <- broadcast hidden_states gate ;;
      hidden_states <- Conv2d_forward (conv_point g) hidden_states ;;
      h <- movedim_1_last hidden_states ;;
      h <- RMSNorm_forward (glu_norm g) h ;;
      hidden_states <- movedim_last_1 h ;;
      broadcast hidden_states residual
  | _ => Raise ValueError
  end.

Definition ResBlock_forward (r : ResBlock) (hidden_states : shape)
  : result shape :=
  let residual := hidden_states in
  hidden_states <- Conv2d_forward (res_conv1 r) hidden_states ;;
  hidden_states <- Conv2d_forward (res_conv2 r) hidden_states ;;
  hidden_states <-
    (if String.eqb (res_norm_type r) "rms_norm" then
       h <- movedim_1_last hidden_states ;;
       h <- Normalization_forward (res_norm r) h ;;
       movedim_last_1 h
     else Normalization_forward (res_norm r) hidden_states) ;;
  broadcast hidden_states residual.

Definition EfficientViTBlock_forward (e : EfficientViTBlock) (x : shape)
  : result shape :=
  x <- processor_call (vit_attn e) x ;;
  GLUMBConv_forward (vit_conv_out e) x.

Definition DCDownBlock2d_forward (d : DCDownBlock2d) (hidden_states : shape)
  : result shape :=
  x <- Conv2d_forward (down_conv d) hidden_states ;;
  x <- (if down_downsample d
        then pixel_unshuffle x (down_factor d)
        else Ok x) ;;
  if down_shortcut d then
    y <- pixel_unshuffle hidden_states (down_factor d) ;;
    y <- unflatten_1 y (down_group_size d) ;;
    y <- mean_2 y ;;
    broadcast x y
  else Ok x.

Definition DCUpBlock2d_forward (u : DCUpBlock2d) (hidden_states : shape)
  : result shape :=
  x <- (if up_interpolate u then
          x <- interpolate hidden_states (up_factor u)
                 (up_interpolation_mode u) ;;
          Conv2d_forward (up_conv u) x
        else
          x <- Conv2d_forward (up_conv u) hidden_states ;;
          pixel_shuffle x (up_factor u)) ;;
  if up_shortcut u then
    y <- repeat_interleave_1 hidden_states (up_repeats u) ;;
    y <- pixel_shuffle y (up_factor u) ;;
    broadcast x y
  else Ok x.

Definition Layer_forward (l : Layer) (s : shape) : result shape :=
  match l with
  | LConv2d c => Conv2d_forward c s
  | LResBlock r => ResBlock_forward r s
  | LEfficientViTBlock e => EfficientViTBlock_forward e s
  | LDCDownBlock2d d => DCDownBlock2d_forward d s
  end.

(** [nn.Sequential] applied to the layers in order. *)
Fixpoint Sequential_forward (layers : list Layer) (s : shape)
  : result shape :=
  match layers with
  | [] => Ok s
  | l :: layers' =>
      s <- Layer_forward l s ;;
      Sequential_forward layers' s
  end.

Fixpoint down_blocks_forward (blocks : list (list Layer)) (s : shape)
  : result shape :=
  match blocks with
  | [] => Ok s
  | blk :: blocks' =>
      s <- Sequential_forward blk s ;;
      down_blocks_forward blocks' s
  end.

Definition Encoder_forward (e : Encoder) (hidden_states : shape)
  : result shape :=
  hidden_states <- Layer_forward (enc_conv_in e) hidden_states ;;
  hidden_states <- down_blocks_forward (enc_down_blocks e) hidden_states ;;
  if enc_out_shortcut e then
    x <- unflatten_1 hidden_states (enc_out_shortcut_average_group_size e) ;;
    x <- mean_2 x ;;
    c <- Conv2d_forward (enc_conv_out e) hidden_states ;;
    broadcast c x
  else Conv2d_forward (enc_conv_out e) hidden_states.

(** *** Static quantities of a configuration *)

(** The number of resolution-halving blocks [Encoder.__init__] builds: the
    input projection when the first stage has no layer, and one block after
    every stage but the last that has a layer. *)
Definition stage_downsamples (num_blocks : Z) (stage : nat * (Z * Z)) : Z :=
  let '(i, (_, num_layers)) := stage in
  if (Z.of_nat i <? num_blocks - 1) && (num_layers >? 0) then 1 else 0.

Definition stages_downsamples (num_blocks : Z) (stages : list (nat * (Z * Z)))
  : Z :=
  fold_right Z.add 0 (map (stage_downsamples num_blocks) stages).

Definition num_downsamples (cfg : EncoderConfig) : Z :=
  (if nth 0 (layers_per_block cfg) 0 >? 0 then 0 else 1)
  + stages_downsamples (Z.of_nat (length (block_out_channels cfg)))
      (enumerate (combine (block_out_channels cfg) (layers_per_block cfg))).

(** *** Channel consistency of a configuration

    A static check, stage by stage, that the channel counts of a
    configuration fit together: [cur] is the channel count of the feature
    map that enters the stage. *)

(** The blocks of stage [i], on [c] channels, can be built and applied. *)
Definition stage_blocks_ok (cfg : EncoderConfig) (i : nat) (c : Z) : bool :=
  match nth_error (block_types_of cfg) i, nth_error (qkv_multiscales cfg) i with
  | Some bt, Some ms =>
      if String.eqb bt "ResBlock" then true
      else if String.eqb bt "EfficientViTBlock" then
        (0 <? cfg_attention_head_dim cfg)
        && (cfg_attention_head_dim cfg <=? c)
        && forallb (fun k => (0 <? k) && (k mod 2 =? 1)) ms
      else false
  | _, _ => false
  end.

(** A down-sampling block from [c] to [next] channels can be built, and its
    two branches have the same channel count. *)
Definition downsample_ok (cfg : EncoderConfig) (c next : Z) : bool :=
  (0 <? next)
  && ((c * 4) mod next =? 0)
  && (if is_pixel_unshuffle cfg then next mod 4 =? 0 else true).

Fixpoint stages_ok (cfg : EncoderConfig) (cur : Z)
    (stages : list (nat * (Z * Z))) : bool :=
  match stages with
  | [] => cur =? last (block_out_channels cfg) 0
  | (i, (out_channel, num_layers)) :: rest =>
      if num_layers >? 0 then
        (cur =? out_channel)
        && stage_blocks_ok cfg i out_channel
        && (if Z.of_nat i <? Z.of_nat (length (block_out_channels cfg)) - 1
            then
              match nth_error (block_out_channels cfg) (i + 1) with
              | Some next =>
                  downsample_ok cfg out_channel next
                  && stages_ok cfg next rest
              | None => false
              end
            else stages_ok cfg cur rest)
      else stages_ok cfg cur rest
  end.

Definition config_ok (cfg : EncoderConfig) : bool :=
  (0 <? in_channels cfg)
  && (0 <? latent_channels cfg)
  && match layers_per_block cfg with
     | [] => false
     | first :: _ =>
         match nth_error (block_out_channels cfg)
                 (if first >? 0 then 0 else 1) with
         | None => false
         | Some c0 =>
             (0 <? c0)
             && ((first >? 0) || negb (is_pixel_unshuffle cfg)
                 || (c0 mod 4 =? 0))
             && stages_ok cfg c0
                  (enumerate (combine (block_out_channels cfg)
                                (layers_per_block cfg)))
             && (negb (out_shortcut cfg)
                 || (last (block_out_channels cfg) 0
                       mod latent_channels cfg =? 0))
         end
     end.

End Shape.

(* ================================================================== *)
(** * The numeric parts, on tensors of reals

    A tensor is a nested list, outermost axis first.  A nested list cannot
    tell the extent of the axes below an axis of extent zero, so the
    properties below are stated for tensors whose axes are all non-empty. *)

Module Value.

Import Layers.
Local Open Scope R_scope.

Definition vector : Type := list R.
Definition matrix : Type := list vector.
Definition tensor3 : Type := list matrix.
Definition tensor4 : Type := list tensor3.
Definition tensor5 : Type := list tensor4.

Definition shape4 (x : tensor4) : nat * nat * nat * nat :=
  (length x, length (hd [] x), length (hd [] (hd [] x)),
   length (hd [] (hd [] (hd [] x)))).

(** [torch.full((b, c, h, w), k)]. *)
Definition full4 (b c h w : nat) (k : R) : tensor4 :=
  repeat (repeat (repeat (repeat k w) h) c) b.

Definition map4 (f : R -> R) (x : tensor4) : tensor4 :=
  map (map (map (map f))) x.

(** One axis of a broadcast binary operation: equal extents are paired,
    an extent of one is repeated along the other operand. *)
Definition broadcast2 {A B C} (f : A -> B -> result C)
    (a : list A) (b : list B) : result (list C) :=
  if (length a =? length b)%nat
  then comprehension (fun '(x, y) => f x y) (combine a b)
  else
    match a, b with
    | _, [y] => comprehension (fun x => f x y) a
    | [x], _ => comprehension (fun y => f x y) b
    | _, _ => Raise RuntimeError
    end.

Definition broadcast4 (f : R -> R -> R) (a b : tensor4) : result tensor4 :=
  broadcast2 (broadcast2 (broadcast2
    (broadcast2 (fun x y => Ok (f x y))))) a b.

Definition add (a b : tensor4) : result tensor4 := broadcast4 Rplus a b.
Definition div (a b : tensor4) : result tensor4 := broadcast4 Rdiv a b.
Definition add_scalar (a : tensor4) (c : R) : tensor4 :=
  map4 (fun x => x + c) a.

(** ** [RMSNorm.forward], along the last axis *)

Definition sum (v : vector) : R := fold_right Rplus 0 v.

(** [v.mean(-1)]. *)
Definition mean (v : vector) : R := sum v / INR (length v).

Definition rsqrt (x : R) : R := / sqrt x.

(** [hidden_states * torch.rsqrt(variance + eps)]. *)
Definition rms_normalize (eps : R) (hidden_states : vector) : vector :=
  let variance := mean (map (fun x => x ^ 2) hidden_states) in
  map (fun x => x * rsqrt (variance + eps)) hidden_states.

Definition broadcast1 (f : R -> R -> R) (a b : vector) : result vector :=
  broadcast2 (fun x y => Ok (f x y)) a b.

Definition RMSNorm_forward (n : RMSNorm) (hidden_states : vector)
  : result vector :=
  let hidden_states := rms_normalize (rms_eps n) hidden_states in
  match rms_weight n with
  | Some weight =>
      hidden_states <- broadcast1 Rmult hidden_states weight ;;
      match rms_bias n with
      | Some bias => broadcast1 Rplus hidden_states bias
      | None => Ok hidden_states
      end
  | None => Ok hidden_states
  end.

(** ** The two attention formulas *)

Definition ncols (m : matrix) : nat := length (hd [] m).

Definition column (j : nat) (m : matrix) : vector :=
  map (fun row => nth j row 0) m.

(** [m.transpose(-1, -2)] on one matrix. *)
Definition transpose (m : matrix) : matrix :=
  map (fun j => column j m) (seq 0 (ncols m)).

Definition transpose_last2 (t : tensor4) : tensor4 :=
  map (map transpose) t.

Definition dot (u v : vector) : R :=
  sum (map (fun '(x, y) => x * y) (combine u v)).

(** The list [[f 0; ...; f (n - 1)]]. *)
Definition tabulate {A} (n : nat) (f : nat -> A) : list A := map f (seq 0 n).

Definition tabulate2 {A} (n m : nat) (f : nat -> nat -> A) : list (list A) :=
  tabulate n (fun i => tabulate m (f i)).

(** Rows times columns. *)
Definition matrix_product (a b : matrix) : matrix :=
  map (fun row => tabulate (ncols b) (fun j => dot row (column j b))) a.

(** The product of an [m x n] by an [n x p] matrix: the inner extents must
    agree. *)
Definition matmul2 (a b : matrix) : result matrix :=
  if forallb (fun row => (length row =? length b)%nat) a
     && forallb (fun row => (length row =? ncols b)%nat) b
  then Ok (matrix_product a b)
  else Raise RuntimeError.

(** [torch.matmul] on rank-four operands: the product of the matrices of
    the two last axes, the two leading axes being broadcast. *)
Definition matmul (a b : tensor4) : result tensor4 :=
  broadcast2 (broadcast2 matmul2) a b.

(** [F.pad(value, (0, 0, 0, 1), mode="constant", value=1)]. *)
Definition pad_rows_1 (value : tensor4) : tensor4 :=
  map (map (fun m : matrix => m ++ [repeat 1 (ncols m)])) value.

(** [t[:, :, :-1]] and [t[:, :, -1:]]. *)
Definition slice_2_init (t : tensor4) : tensor4 :=
  map (map (fun m : matrix => removelast m)) t.

Definition slice_2_last (t : tensor4) : tensor4 :=
  map (map (fun m : matrix => skipn (length m - 1) m)) t.

(** [torch.sum(t, dim=2, keepdim=True)]. *)
Definition sum_2_keepdim (t : tensor4) : tensor4 :=
  map (map (fun m : matrix =>
              [map (fun j => sum (column j m)) (seq 0 (ncols m))])) t.

(** The arithmetic of the two formulas, on the reals the elements stand
    for.  The casts to [float32] keep these reals; the element types, on
    which the last product of the quadratic formula depends, are the matter
    of [Typed] below. *)
Definition apply_linear_attention (attn : SanaMultiscaleLinearAttention)
    (query key value : tensor4) : result tensor4 :=
  let value := pad_rows_1 value in
  scores <- matmul value (transpose_last2 key) ;;
  hidden_states <- matmul scores query ;;
  div (slice_2_init hidden_states)
      (add_scalar (slice_2_last hidden_states) (eps attn)).

Definition apply_quadratic_attention (attn : SanaMultiscaleLinearAttention)
    (query key value : tensor4) : result tensor4 :=
  scores <- matmul (transpose_last2 key) query ;;
  scores <- div scores (add_scalar (sum_2_keepdim scores) (eps attn)) ;;
  matmul value scores.

(** *** The linear formula in the words of its description

    [(V K^T Q)] renormalised, at every spatial position [n], by
    [(1 K^T Q)[n] + eps], where [1] is a row of ones. *)
Definition VKtQ (q k v : matrix) (i n : nat) : R :=
  dot (map (fun k_j => dot (nth i v []) k_j) k) (column n q).

Definition ones_KtQ (q k : matrix) (n : nat) : R :=
  dot (map (fun k_j => sum k_j) k) (column n q).

Definition renormalized (eps : R) (q k v : matrix) : matrix :=
  map (fun i =>
         map (fun n => VKtQ q k v i n / (ones_KtQ q k n + eps))
           (seq 0 (ncols q)))
    (seq 0 (length v)).

(** The row of [V' K^T Q] that comes from the row [row] of [V']. *)
Definition attention_row (q k : matrix) (row : vector) : vector :=
  tabulate (ncols q) (fun n => dot (map (dot row) k) (column n q)).

Definition zip3 {A B} (f : A -> A -> A -> B) (a b c : list A) : list B :=
  map (fun '(x, (y, z)) => f x y z) (combine a (combine b c)).

Definition renormalized4 (eps : R) (query key value : tensor4) : tensor4 :=
  zip3 (zip3 (renormalized eps)) query key value.

(** [m] is a [d x n] matrix. *)
Definition has_shape2 (d n : nat) (m : matrix) : Prop :=
  length m = d /\ Forall (fun row => length row = n) m.

(** [t] is a [b x h x d x n] tensor. *)
Definition has_shape4 (b h d n : nat) (t : tensor4) : Prop :=
  length t = b /\
  Forall (fun s => length s = h /\ Forall (has_shape2 d n) s) t.

(** ** The parameter-free shortcut of [DCDownBlock2d] *)

(** [F.pixel_unshuffle(x, r)]: output channel [c * r * r + i * r + j] holds
    the pixels [(h * r + i, w * r + j)] of input channel [c]. *)
Definition pixel_unshuffle (x : tensor4) (r : Z) : result tensor4 :=
  let '(_, _, h, w) := shape4 x in
  let r := Z.to_nat r in
  if (r =? 0)%nat || negb (h mod r =? 0)%nat || negb (w mod r =? 0)%nat
  then Raise RuntimeError
  else
    Ok (map (fun sample : tensor3 =>
               flat_map (fun channel : matrix =>
                 flat_map (fun i =>
                   map (fun j =>
                     map (fun hh =>
                       map (fun ww =>
                              nth (ww * r + j) (nth (hh * r + i) channel []) 0)
                         (seq 0 (w / r)))
                       (seq 0 (h / r)))
                     (seq 0 r))
                   (seq 0 r))
                 sample)
          x).

(** [count] consecutive pieces of [g] entries. *)
Fixpoint pieces {A} (g count : nat) (l : list A) : list (list A) :=
  match count with
  | O => []
  | S count' => firstn g l :: pieces g count' (skipn g l)
  end.

(** [y.unflatten(1, (-1, g))]. *)
Definition unflatten_1 (y : tensor4) (g : Z) : result tensor5 :=
  let '(_, c, _, _) := shape4 y in
  if (g <=? 0)%Z || negb (c mod Z.to_nat g =? 0)%nat
  then Raise RuntimeError
  else Ok (map (fun sample : tensor3 =>
                  pieces (Z.to_nat g) (c / Z.to_nat g) sample) y).

(** The mean of a group of channels, pixel by pixel. *)
Definition mean_channels (group : tensor3) : matrix :=
  let h := length (hd [] group) in
  let w := length (hd [] (hd [] group)) in
  map (fun hh =>
         map (fun ww =>
                mean (map (fun channel : matrix =>
                             nth ww (nth hh channel []) 0) group))
           (seq 0 w))
    (seq 0 h).

(** [y.mean(dim=2)]. *)
Definition mean_2 (y : tensor5) : tensor4 :=
  map (map mean_channels) y.

(** The branch [y] of [DCDownBlock2d.forward]. *)
Definition DCDownBlock2d_shortcut (d : DCDownBlock2d)
    (hidden_states : tensor4) : result tensor4 :=
  y <- pixel_unshuffle hidden_states (down_factor d) ;;
  y <- unflatten_1 y (down_group_size d) ;;
  Ok (mean_2 y).

(** [DCDownBlock2d.forward], given the action of the learned
    convolution. *)
Definition DCDownBlock2d_forward
    (Conv2d_forward : Conv2d -> tensor4 -> result tensor4)
    (d : DCDownBlock2d) (hidden_states : tensor4) : result tensor4 :=
  x <- Conv2d_forward (down_conv d) hidden_states ;;
  x <- (if down_downsample d
        then pixel_unshuffle x (down_factor d)
        else Ok x) ;;
  if down_shortcut d then
    y <- DCDownBlock2d_shortcut d hidden_states ;;
    add x y
  else Ok x.

(** ** The attention processor

    The rearrangements are computed on the nested lists; the learned
    layers (the linear projections, the multiscale convolutions, the
    output normalization) and the activation act through the functions
    the section takes. *)

Definition shape_of (x : tensor4) : list nat :=
  let '(b, c, h, w) := shape4 x in [b; c; h; w].

(** [x.movedim(1, -1)]: [(b, c, h, w)] to [(b, h, w, c)]. *)
Definition movedim_1_last (x : tensor4) : tensor4 :=
  let '(_, c, h, w) := shape4 x in
  map (fun sample : tensor3 =>
         map (fun hh =>
                map (fun ww =>
                       map (fun cc => nth ww (nth hh (nth cc sample []) []) 0)
                         (seq 0 c))
                  (seq 0 w))
           (seq 0 h))
    x.

(** [x.movedim(-1, 1)]: [(b, h, w, c)] to [(b, c, h, w)]. *)
Definition movedim_last_1 (x : tensor4) : tensor4 :=
  let '(_, h, w, c) := shape4 x in
  map (fun sample : tensor3 =>
         map (fun cc =>
                map (fun hh =>
                       map (fun ww => nth cc (nth ww (nth hh sample []) []) 0)
                         (seq 0 w))
                  (seq 0 h))
           (seq 0 c))
    x.

Definition same_except (dim : nat) (a b : list nat) : bool :=
  forallb (fun '(i, (x, y)) => (i =? dim)%nat || (x =? y)%nat)
    (enumerate (combine a b)).

Definition zip_app {A} (a b : list (list A)) : list (list A) :=
  map (fun '(x, y) => x ++ y) (combine a b).

(** Two tensors joined along axis [dim]. *)
Definition append_at (dim : nat) (a b : tensor4) : tensor4 :=
  match dim with
  | 0%nat => a ++ b
  | 1%nat => zip_app a b
  | 2%nat => map (fun '(x, y) => zip_app x y) (combine a b)
  | _ => map (fun '(x, y) =>
                map (fun '(x, y) => zip_app x y) (combine x y))
           (combine a b)
  end.

(** [torch.cat(ts, dim)]. *)
Definition cat (ts : list tensor4) (dim : nat) : result tensor4 :=
  match ts with
  | [] => Raise RuntimeError
  | t :: rest =>
      if (dim <? 4)%nat
         && forallb (fun u => same_except dim (shape_of t) (shape_of u)) rest
      then Ok (fold_left (append_at dim) rest t)
      else Raise RuntimeError
  end.

Definition flatten4 (x : tensor4) : list R := concat (concat (concat x)).

(** [x.reshape(d0, -1, d2, d3)]. *)
Definition reshape (x : tensor4) (d0 d2 d3 : Z) : result tensor4 :=
  let flat := flatten4 x in
  let n := length flat in
  if ((d0 <? 0) || (d2 <? 0) || (d3 <? 0))%Z then Raise RuntimeError
  else
    let p := (Z.to_nat d0 * Z.to_nat d2 * Z.to_nat d3)%nat in
    if (p =? 0)%nat || negb (n mod p =? 0)%nat then Raise RuntimeError
    else
      let d1 := (n / p)%nat in
      let rows := pieces (Z.to_nat d3) (Z.to_nat d0 * d1 * Z.to_nat d2) flat in
      let mats := pieces (Z.to_nat d2) (Z.to_nat d0 * d1) rows in
      Ok (pieces d1 (Z.to_nat d0) mats).

(** [x.chunk(chunks, dim=2)]. *)
Definition chunk_2 (x : tensor4) (chunks : nat) : list tensor4 :=
  let '(_, _, n, _) := shape4 x in
  let size := ((n + chunks - 1) / chunks)%nat in
  if (size =? 0)%nat
  then repeat (map (map (fun _ : matrix => [])) x) chunks
  else
    map (fun i =>
           map (map (fun m : matrix => firstn size (skipn (i * size) m))) x)
      (seq 0 ((n + size - 1) / size)).

(** An attention formula: a method of the attention object, applied to
    the query, the key and the value. *)
Definition attention_formula : Type :=
  SanaMultiscaleLinearAttention ->
  tensor4 -> tensor4 -> tensor4 -> result tensor4.

Section Processor.

Variable Linear_forward : Linear -> tensor4 -> result tensor4.
Variable Projection_forward :
  SanaMultiscaleAttentionProjection -> tensor4 -> result tensor4.
Variable Normalization_forward :
  Normalization -> tensor4 -> result tensor4.
Variable Activation_forward : Activation -> R -> R.

(** [SanaMultiscaleAttnProcessor2_0.__call__].  The processor is handed
    the attention object and calls the two formulas as its methods
    [attn.apply_linear_attention] and [attn.apply_quadratic_attention]: the
    object is its record of attributes [attn] together with these two
    methods. *)
Definition processor_call_on
    (apply_linear_attention apply_quadratic_attention : attention_formula)
    (attn : SanaMultiscaleLinearAttention)
    (hidden_states : tensor4) : result tensor4 :=
  let '(batch_size, _, height, width) := shape4 hidden_states in
  let use_linear_attention :=
    Shape.use_linear_attention attn (Z.of_nat height) (Z.of_nat width) in
  let residual := hidden_states in
  let hidden_states := movedim_1_last hidden_states in
  query <- Linear_forward (to_q attn) hidden_states ;;
  key <- Linear_forward (to_k attn) hidden_states ;;
  value <- Linear_forward (to_v attn) hidden_states ;;
  hidden_states <- cat [query; key; value] 3 ;;
  let hidden_states := movedim_last_1 hidden_states in
  multi_scale_qkv <-
    comprehension (fun block => Projection_forward block hidden_states)
      (to_qkv_multiscale attn) ;;
  hidden_states <- cat (hidden_states :: multi_scale_qkv) 1 ;;
  hidden_states <-
    reshape hidden_states (Z.of_nat batch_size)
      (3 * attention_head_dim attn) (Z.of_nat (height * width)) ;;
  match chunk_2 hidden_states 3 with
  | [query; key; value] =>
      let query := map4 (Activation_forward (nonlinearity attn)) query in
      let key := map4 (Activation_forward (nonlinearity attn)) key in
      hidden_states <-
        (if use_linear_attention
         then apply_linear_attention attn query key value
         else apply_quadratic_attention attn query key value) ;;
      hidden_states <-
        reshape hidden_states (Z.of_nat batch_size)
          (Z.of_nat height) (Z.of_nat width) ;;
      hidden_states <-
        Linear_forward (to_out attn) (movedim_1_last hidden_states) ;;
      let hidden_states := movedim_last_1 hidden_states in
      hidden_states <-
        (if String.eqb (norm_type attn) "rms_norm" then
           h <- Normalization_forward (norm_out attn)
                  (movedim_1_last hidden_states) ;;
           Ok (movedim_last_1 h)
         else Normalization_forward (norm_out attn) hidden_states) ;;
      if residual_connection attn
      then add hidden_states residual
      else Ok hidden_states
  | _ => Raise ValueError
  end.

(** The processor on an instance of [SanaMultiscaleLinearAttention], whose
    methods are the two formulas of the class. *)
Definition processor_call
  : SanaMultiscaleLinearAttention -> tensor4 -> result tensor4 :=
  processor_call_on apply_linear_attention apply_quadratic_attention.

(** The same pass with the attention formula fixed to [formula]: what
    "the forward pass applies [formula]" means. *)
Definition processor_applying (formula : attention_formula)
    (attn : SanaMultiscaleLinearAttention)
    (hidden_states : tensor4) : result tensor4 :=
  let '(batch_size, _, height, width) := shape4 hidden_states in
  let residual := hidden_states in
  let hidden_states := movedim_1_last hidden_states in
  query <- Linear_forward (to_q attn) hidden_states ;;
  key <- Linear_forward (to_k attn) hidden_states ;;
  value <- Linear_forward (to_v attn) hidden_states ;;
  hidden_states <- cat [query; key; value] 3 ;;
  let hidden_states := movedim_last_1 hidden_states in
  multi_scale_qkv <-
    comprehension (fun block => Projection_forward block hidden_states)
      (to_qkv_multiscale attn) ;;
  hidden_states <- cat (hidden_states :: multi_scale_qkv) 1 ;;
  hidden_states <-
    reshape hidden_states (Z.of_nat batch_size)
      (3 * attention_head_dim attn) (Z.of_nat (height * width)) ;;
  match chunk_2 hidden_states 3 with
  | [query; key; value] =>
      let query := map4 (Activation_forward (nonlinearity attn)) query in
      let key := map4 (Activation_forward (nonlinearity attn)) key in
      hidden_states <- formula attn query key value ;;
      hidden_states <-
        reshape hidden_states (Z.of_nat batch_size)
          (Z.of_nat height) (Z.of_nat width) ;;
      hidden_states <-
        Linear_forward (to_out attn) (movedim_1_last hidden_states) ;;
      let hidden_states := movedim_last_1 hidden_states in
      hidden_states <-
        (if String.eqb (norm_type attn) "rms_norm" then
           h <- Normalization_forward (norm_out attn)
                  (movedim_1_last hidden_states) ;;
           Ok (movedim_last_1 h)
         else Normalization_forward (norm_out attn) hidden_states) ;;
      if residual_connection attn
      then add hidden_states residual
      else Ok hidden_states
  | _ => Raise ValueError
  end.

End Processor.

End Value.

(* ================================================================== *)
(** * [AutoencoderDC]: flags, tiling parameters and batch slicing *)

Module Autoencoder.

Import Value.
Local Open Scope Z_scope.

Record AutoencoderDC : Type := mkAutoencoderDC {
  use_slicing : bool;
  use_tiling : bool;
  tile_sample_min_height : Z;
  tile_sample_min_width : Z;
  tile_sample_stride_height : Z;
  tile_sample_stride_width : Z
}.

(** The flags and parameters [__init__] installs. *)
Definition AutoencoderDC_init : AutoencoderDC :=
  mkAutoencoderDC false false 512 512 448 448.

(** The truth value of an optional number: [None] and zero are false. *)
Definition truthy (a : option Z) : bool :=
  match a with
  | Some n => negb (n =? 0)
  | None => false
  end.

(** [a or b], for an optional number [a] and a stored number [b]. *)
Definition py_or (a : option Z) (b : Z) : Z :=
  match a with
  | Some n => if n =? 0 then b else n
  | None => b
  end.

Definition enable_tiling (self : AutoencoderDC)
    (tile_sample_min_height tile_sample_min_width
     tile_sample_stride_height tile_sample_stride_width : option Z)
  : AutoencoderDC :=
  mkAutoencoderDC (use_slicing self) true
    (py_or tile_sample_min_height (Autoencoder.tile_sample_min_height self))
    (py_or tile_sample_min_width (Autoencoder.tile_sample_min_width self))
    (py_or tile_sample_stride_height
       (Autoencoder.tile_sample_stride_height self))
    (py_or tile_sample_stride_width
       (Autoencoder.tile_sample_stride_width self)).

(** What one parameter of [enable_tiling] does to the stored value. *)
Definition updated (arg : option Z) (old new : Z) : Prop :=
  (truthy arg = true -> arg = Some new) /\
  (arg = None \/ arg = Some 0 -> new = old) /\
  (old <> 0 -> new <> 0).

Definition disable_tiling (self : AutoencoderDC) : AutoencoderDC :=
  mkAutoencoderDC (use_slicing self) false
    (tile_sample_min_height self) (tile_sample_min_width self)
    (tile_sample_stride_height self) (tile_sample_stride_width self).

Definition enable_slicing (self : AutoencoderDC) : AutoencoderDC :=
  mkAutoencoderDC true (use_tiling self)
    (tile_sample_min_height self) (tile_sample_min_width self)
    (tile_sample_stride_height self) (tile_sample_stride_width self).

Definition disable_slicing (self : AutoencoderDC) : AutoencoderDC :=
  mkAutoencoderDC false (use_tiling self)
    (tile_sample_min_height self) (tile_sample_min_width self)
    (tile_sample_stride_height self) (tile_sample_stride_width self).

(** The arguments of one call of [enable_tiling], and a model after a
    sequence of such calls. *)
Definition tiling_args : Type :=
  (option Z * option Z * option Z * option Z)%type.

Definition enable_tiling_calls (self : AutoencoderDC)
    (calls : list tiling_args) : AutoencoderDC :=
  fold_left (fun m '(a, b, c, d) => enable_tiling m a b c d) calls self.

Definition tiling_parameters_nonzero (self : AutoencoderDC) : Prop :=
  tile_sample_min_height self <> 0 /\ tile_sample_min_width self <> 0 /\
  tile_sample_stride_height self <> 0 /\ tile_sample_stride_width self <> 0.

(** What an attribute access can be applied to: a tensor, or an output
    record with a [sample] field. *)
Inductive pyobj : Type :=
| PyTensor (t : tensor4)
| PyDecoderOutput (sample : tensor4).

(** [o.sample]: a tensor has no such attribute. *)
Definition getattr_sample (o : pyobj) : result tensor4 :=
  match o with
  | PyDecoderOutput s => Ok s
  | PyTensor _ => Raise AttributeError
  end.

(** [x.split(1)]: the single-sample slices, in order. *)
Definition split_1 (x : tensor4) : list tensor4 :=
  map (fun sample => [sample]) x.

Definition sample_shape (x : tensor4) : nat * nat * nat :=
  let '(_, c, h, w) := shape4 x in (c, h, w).

Definition sample_shape_eqb (a b : nat * nat * nat) : bool :=
  let '(c, h, w) := a in
  let '(c', h', w') := b in
  ((c =? c') && (h =? h') && (w =? w'))%nat.

(** [torch.cat(slices)], along the batch axis. *)
Definition cat_0 (slices : list tensor4) : result tensor4 :=
  match slices with
  | [] => Raise RuntimeError
  | t :: rest =>
      if forallb (fun u => sample_shape_eqb (sample_shape t) (sample_shape u))
           rest
      then Ok (concat slices)
      else Raise RuntimeError
  end.

Section Coding.

(** The two networks, and the tiling collaborator the class refers to
    without defining it ([tiled_encode], [tiled_decode] and the two
    latent tile minima). *)
Variable encoder decoder : tensor4 -> result tensor4.
Variable tiled_encode tiled_decode : tensor4 -> result tensor4.
Variable tile_latent_min_height tile_latent_min_width : Z.

Definition _encode (self : AutoencoderDC) (x : tensor4) : result tensor4 :=
  let '(batch_size, num_channels, height, width) := shape4 x in
  if use_tiling self
     && ((Z.of_nat width >? tile_sample_min_width self)
         || (Z.of_nat height >? tile_sample_min_height self))
  then tiled_encode x
  else encoder x.

Definition encode (self : AutoencoderDC) (x : tensor4) : result tensor4 :=
  if use_slicing self && (1 <? length x)%nat then
    encoded_slices <- comprehension (_encode self) (split_1 x) ;;
    cat_0 encoded_slices
  else _encode self x.

Definition _decode (self : AutoencoderDC) (z : tensor4) : result tensor4 :=
  let '(batch_size, num_channels, height, width) := shape4 z in
  if use_tiling self
     && ((Z.of_nat width >? tile_latent_min_width)
         || (Z.of_nat height >? tile_latent_min_height))
  then tiled_decode z
  else decoder z.

Definition decode (self : AutoencoderDC) (z : tensor4) : result tensor4 :=
  if use_slicing self && (1 <? length z)%nat then
    decoded_slices <-
      comprehension
        (fun z_slice =>
           d <- _decode self z_slice ;;
           getattr_sample (PyTensor d))
        (split_1 z) ;;
    cat_0 decoded_slices
  else _decode self z.

(** The per-sample path applied to every single-sample slice, the
    results joined in input order. *)
Definition encode_per_sample (self : AutoencoderDC) (x : tensor4)
  : result tensor4 :=
  ys <- comprehension (fun sample => _encode self [sample]) x ;;
  cat_0 ys.

Definition decode_per_sample (self : AutoencoderDC) (z : tensor4)
  : result tensor4 :=
  ys <- comprehension (fun sample => _decode self [sample]) z ;;
  cat_0 ys.

End Coding.

End Autoencoder.

(* ================================================================== *)
(** * Sample blocks and inputs *)

Module Samples.

Import Layers Value.
Local Open Scope Z_scope.

(** An attention block with [attention_head_dim = 4] on four channels. *)
Definition attn_d4 : SanaMultiscaleLinearAttention :=
  mkAttention default_attention_eps 4 "rms_norm" true
    (mkLinear 4 4) (mkLinear 4 4) (mkLinear 4 4) [] ReLU (mkLinear 4 4)
    (NBatchNorm2d 4 default_norm_eps true).

(** Queries, keys and values of shape [(1, 1, 2, 3)]. *)
Definition query_23 : tensor4 := [[[[1; 2; 3]; [4; 5; 6]]]]%R.
Definition key_23 : tensor4 := [[[[1; 0; 2]; [0; 3; 1]]]]%R.
Definition value_23 : tensor4 := [[[[2; 1; 0]; [1; 1; 1]]]]%R.

(** The two-stage encoder of the end-to-end scenario. *)
Definition encoder_8_16 : EncoderConfig :=
  mkEncoderConfig 3 4 32 (Str "ResBlock") [8; 16] [1; 1] [[]; []]
    "pixel_unshuffle" true.

(** Three stages, the middle one without layers. *)
Definition encoder_8_8_8 : EncoderConfig :=
  mkEncoderConfig 3 8 32 (Str "ResBlock") [8; 8; 8] [1; 0; 1] [[]; []; []]
    "pixel_unshuffle" true.

(** The six stages of the published model, attention in the last three. *)
Definition encoder_f32 : EncoderConfig :=
  mkEncoderConfig 3 32 32
    (Tuple [ "ResBlock"; "ResBlock"; "ResBlock"; "EfficientViTBlock";
             "EfficientViTBlock"; "EfficientViTBlock" ]%string)
    [128; 256; 512; 512; 1024; 1024] [2; 2; 2; 3; 3; 3]
    [[]; []; []; [5]; [5]; [5]] "pixel_unshuffle" true.

(** A two-sample batch of one-pixel feature maps. *)
Definition two_samples : tensor4 := [ [[[1%R]]]; [[[2%R]]] ].

(** Two methods that tell which of them was called. *)
Definition linear_marker : attention_formula :=
  fun _ _ _ _ => Raise AttributeError.

Definition quadratic_marker : attention_formula :=
  fun _ _ _ _ => Raise ZeroDivisionError.

End Samples.

(* ================================================================== *)
(** * [Decoder] and the construction of [AutoencoderDC] *)

Module Decoding.

Import Layers Shape.
Local Open Scope Z_scope.

(** A [Union[str, Tuple[str]]] argument read per stage: a single name
    stands for [(name,) * num_blocks]. *)
Definition as_tuple (x : str_or_tuple) (num_blocks : nat) : list string :=
  match x with
  | Str s => repeat s num_blocks
  | Tuple ss => ss
  end.

Record DecoderConfig : Type := mkDecoderConfig {
  dec_in_channels : Z;
  dec_latent_channels : Z;
  dec_attention_head_dim : Z;
  dec_block_type : str_or_tuple;
  dec_block_out_channels : list Z;
  dec_layers_per_block : list Z;
  dec_qkv_multiscales : list (list Z);
  dec_norm_type : str_or_tuple;
  dec_act_fn : str_or_tuple;
  upsample_block_type : string;
  in_shortcut : bool
}.

(** What a stage of the decoder is made of. *)
Inductive UpLayer : Type :=
| UBlock (l : Layer)
| UDCUpBlock2d (u : DCUpBlock2d).

Record Decoder : Type := mkDecoder {
  dec_conv_in : Conv2d;
  dec_in_shortcut : bool;
  dec_in_shortcut_repeats : Z;          (* read only when the flag is set *)
  dec_up_blocks : list (list UpLayer);  (* one [nn.Sequential] per stage *)
  dec_norm_out : RMSNorm;
  dec_conv_out : UpLayer
}.

Definition is_interpolate (cfg : DecoderConfig) : bool :=
  String.eqb (upsample_block_type cfg) "interpolate".

Definition default_interpolation_mode : string := "nearest".

(** The body of the loop over the stages: the up-sampling block first,
    then the layers. *)
Definition Decoder_stage (cfg : DecoderConfig) (stage : nat * (Z * Z))
  : result (list UpLayer) :=
  let '(i, (out_channel, num_layers)) := stage in
  let num_blocks := length (dec_block_out_channels cfg) in
  up_block_list <-
    (if (Z.of_nat i <? Z.of_nat num_blocks - 1) && (num_layers >? 0) then
       next <- getitem (dec_block_out_channels cfg) (i + 1) ;;
       upsample_block <-
         DCUpBlock2d_init next out_channel (is_interpolate cfg) true
           default_interpolation_mode ;;
       Ok [UDCUpBlock2d upsample_block]
     else Ok []) ;;
  blocks <-
    comprehension
      (fun _ =>
         bt <- getitem (as_tuple (dec_block_type cfg) num_blocks) i ;;
         nt <- getitem (as_tuple (dec_norm_type cfg) num_blocks) i ;;
         af <- getitem (as_tuple (dec_act_fn cfg) num_blocks) i ;;
         ms <- getitem (dec_qkv_multiscales cfg) i ;;
         get_block bt out_channel out_channel (dec_attention_head_dim cfg)
           nt af ms)
      (range num_layers) ;;
  Ok (up_block_list ++ map UBlock blocks).

(** [Decoder.__init__]: the stages are built from the last to the first,
    each one inserted at the front of [up_blocks]. *)
Definition Decoder_init (cfg : DecoderConfig) : result Decoder :=
  last_channels <- getitem_last (dec_block_out_channels cfg) ;;
  conv_in <- Conv2d_init (dec_latent_channels cfg) last_channels 3 1 1 1 true ;;
  repeats <-
    (if in_shortcut cfg
     then floordiv last_channels (dec_latent_channels cfg)
     else Ok 0) ;;
  built <-
    comprehension (Decoder_stage cfg)
      (rev (enumerate (combine (dec_block_out_channels cfg)
                         (dec_layers_per_block cfg)))) ;;
  first_layers <- getitem (dec_layers_per_block cfg) 0 ;;
  channels <-
    (if first_layers >? 0
     then getitem (dec_block_out_channels cfg) 0
     else getitem (dec_block_out_channels cfg) 1) ;;
  norm_out <- RMSNorm_init channels default_norm_eps true true ;;
  conv_out <-
    (if first_layers >? 0 then
       c <- Conv2d_init channels (dec_in_channels cfg) 3 1 1 1 true ;;
       Ok (UBlock (LConv2d c))
     else
       u <- DCUpBlock2d_init channels (dec_in_channels cfg)
              (is_interpolate cfg) false default_interpolation_mode ;;
       Ok (UDCUpBlock2d u)) ;;
  Ok (mkDecoder conv_in (in_shortcut cfg) repeats (rev built) norm_out
        conv_out).

(** ** The forward pass on shapes *)

Definition UpLayer_forward (l : UpLayer) (s : shape) : result shape :=
  match l with
  | UBlock l => Layer_forward l s
  | UDCUpBlock2d u => DCUpBlock2d_forward u s
  end.

Fixpoint UpSequential_forward (layers : list UpLayer) (s : shape)
  : result shape :=
  match layers with
  | [] => Ok s
  | l :: layers' =>
      s <- UpLayer_forward l s ;;
      UpSequential_forward layers' s
  end.

(** The stages applied in the order of the list. *)
Fixpoint up_blocks_forward (blocks : list (list UpLayer)) (s : shape)
  : result shape :=
  match blocks with
  | [] => Ok s
  | blk :: blocks' =>
      s <- UpSequential_forward blk s ;;
      up_blocks_forward blocks' s
  end.

(** [Decoder.forward]: the stages run over [reversed(self.up_blocks)];
    [conv_act], a rectifier, keeps the shape. *)
Definition Decoder_forward (d : Decoder) (hidden_states : shape)
  : result shape :=
  hidden_states <-
    (if dec_in_shortcut d then
       x <- repeat_interleave_1 hidden_states (dec_in_shortcut_repeats d) ;;
       c <- Conv2d_forward (dec_conv_in d) hidden_states ;;
       broadcast c x
     else Conv2d_forward (dec_conv_in d) hidden_states) ;;
  hidden_states <- up_blocks_forward (rev (dec_up_blocks d)) hidden_states ;;
  h <- movedim_1_last hidden_states ;;
  h <- RMSNorm_forward (dec_norm_out d) h ;;
  hidden_states <- movedim_last_1 h ;;
  UpLayer_forward (dec_conv_out d) hidden_states.

(** ** Static quantities of a decoder configuration *)

(** The stages in the order the constructor and the forward pass visit
    them: from the last to the first. *)
Definition dec_stages (cfg : DecoderConfig) : list (nat * (Z * Z)) :=
  rev (enumerate (combine (dec_block_out_channels cfg)
                    (dec_layers_per_block cfg))).

(** The number of resolution-doubling blocks [Decoder.__init__] builds. *)
Definition num_upsamples (cfg : DecoderConfig) : Z :=
  (if nth 0 (dec_layers_per_block cfg) 0 >? 0 then 0 else 1)
  + stages_downsamples (Z.of_nat (length (dec_block_out_channels cfg)))
      (dec_stages cfg).

Definition dec_stage_blocks_ok (cfg : DecoderConfig) (i : nat) (c : Z) : bool :=
  let n := length (dec_block_out_channels cfg) in
  match nth_error (as_tuple (dec_block_type cfg) n) i,
        nth_error (as_tuple (dec_norm_type cfg) n) i,
        nth_error (as_tuple (dec_act_fn cfg) n) i,
        nth_error (dec_qkv_multiscales cfg) i with
  | Some bt, Some nt, Some af, Some ms =>
      String.eqb nt "rms_norm"
      && (if String.eqb bt "ResBlock" then
            match dict_get ACTIVATION_FUNCTIONS (lower af) with
            | Some _ => true
            | None => false
            end
          else if String.eqb bt "EfficientViTBlock" then
            (0 <? dec_attention_head_dim cfg)
            && (dec_attention_head_dim cfg <=? c)
            && forallb (fun k => (0 <? k) && (k mod 2 =? 1)) ms
          else false)
  | _, _, _, _ => false
  end.

(** An up-sampling block from [c] to [next] channels can be built, and its
    two branches have the same channel count. *)
Definition upsample_ok (c next : Z) : bool :=
  (0 <? next) && ((next * 4) mod c =? 0).

(** [cur] is the channel count of the feature map that enters the stage,
    [target] the one the output normalization expects. *)
Fixpoint dec_stages_ok (cfg : DecoderConfig) (target cur : Z)
    (stages : list (nat * (Z * Z))) : bool :=
  match stages with
  | [] => cur =? target
  | (i, (out_channel, num_layers)) :: rest =>
      if num_layers >? 0 then
        (if Z.of_nat i <? Z.of_nat (length (dec_block_out_channels cfg)) - 1
         then
           match nth_error (dec_block_out_channels cfg) (i + 1) with
           | Some next => (cur =? next) && upsample_ok next out_channel
           | None => false
           end
         else cur =? out_channel)
        && dec_stage_blocks_ok cfg i out_channel
        && dec_stages_ok cfg target out_channel rest
      else dec_stages_ok cfg target cur rest
  end.

Definition decoder_config_ok (cfg : DecoderConfig) : bool :=
  (0 <? dec_in_channels cfg)
  && (0 <? dec_latent_channels cfg)
  && (0 <? last (dec_block_out_channels cfg) 0)
  && (negb (in_shortcut cfg)
      || (last (dec_block_out_channels cfg) 0 mod dec_latent_channels cfg
          =? 0))
  && match dec_layers_per_block cfg with
     | [] => false
     | first :: _ =>
         match nth_error (dec_block_out_channels cfg)
                 (if first >? 0 then 0 else 1) with
         | None => false
         | Some target =>
             (0 <? target)
             && dec_stages_ok cfg target (last (dec_block_out_channels cfg) 0)
                  (dec_stages cfg)
         end
     end.

(** ** [AutoencoderDC.__init__] *)

Record AutoencoderArgs : Type := mkAutoencoderArgs {
  arg_in_channels : Z;
  arg_latent_channels : Z;
  arg_attention_head_dim : Z;
  encoder_block_types : str_or_tuple;
  decoder_block_types : str_or_tuple;
  encoder_block_out_channels : list Z;
  decoder_block_out_channels : list Z;
  encoder_layers_per_block : list Z;
  decoder_layers_per_block : list Z;
  encoder_qkv_multiscales : list (list Z);
  decoder_qkv_multiscales : list (list Z);
  arg_upsample_block_type : string;
  arg_downsample_block_type : string;
  decoder_norm_types : str_or_tuple;
  decoder_act_fns : str_or_tuple
}.

(** The arguments [Encoder] is called with; [out_shortcut] keeps its
    default. *)
Definition encoder_config (a : AutoencoderArgs) : EncoderConfig :=
  mkEncoderConfig (arg_in_channels a) (arg_latent_channels a)
    (arg_attention_head_dim a) (encoder_block_types a)
    (encoder_block_out_channels a) (encoder_layers_per_block a)
    (encoder_qkv_multiscales a) (arg_downsample_block_type a) true.

(** The arguments [Decoder] is called with; [in_shortcut] keeps its
    default. *)
Definition decoder_config (a : AutoencoderArgs) : DecoderConfig :=
  mkDecoderConfig (arg_in_channels a) (arg_latent_channels a)
    (arg_attention_head_dim a) (decoder_block_types a)
    (decoder_block_out_channels a) (decoder_layers_per_block a)
    (decoder_qkv_multiscales a) (decoder_norm_types a) (decoder_act_fns a)
    (arg_upsample_block_type a) true.

Record AutoencoderModel : Type := mkAutoencoderModel {
  model_encoder : Encoder;
  model_decoder : Decoder;
  spatial_compression_ratio : Z;
  temporal_compression_ratio : Z;
  model_flags : Autoencoder.AutoencoderDC
}.

(** [2 ** (len(encoder_block_out_channels) - 1)] is evaluated after the
    encoder is built, hence on a non-empty tuple. *)
Definition AutoencoderDC_new (a : AutoencoderArgs) : result AutoencoderModel :=
  encoder <- Encoder_init (encoder_config a) ;;
  decoder <- Decoder_init (decoder_config a) ;;
  Ok (mkAutoencoderModel encoder decoder
        (2 ^ (Z.of_nat (length (encoder_block_out_channels a)) - 1)) 1
        Autoencoder.AutoencoderDC_init).

(** ** [encode], [decode] and [forward] on shapes

    The tiling collaborator is not part of the class; its two entry points
    and the two latent tile minima are parameters. *)

Section ShapeCoding.

Variable tiled_encode tiled_decode : shape -> result shape.
Variable tile_latent_min_height tile_latent_min_width : Z.

Definition _encode (m : AutoencoderModel) (x : shape) : result shape :=
  match x with
  | [batch_size; num_channels; height; width] =>
      if Autoencoder.use_tiling (model_flags m)
         && ((width >? Autoencoder.tile_sample_min_width (model_flags m))
             || (height >? Autoencoder.tile_sample_min_height (model_flags m)))
      then tiled_encode x
      else Encoder_forward (model_encoder m) x
  | _ => Raise ValueError
  end.

(** [x.split(1)]: one slice of batch size one per sample. *)
Definition split_1 (x : shape) : list shape :=
  match x with
  | [] => []
  | b :: rest => repeat (1 :: rest) (Z.to_nat b)
  end.

(** [x.shape[0]] is read only when slicing is on. *)
Definition encode (m : AutoencoderModel) (x : shape) : result shape :=
  sliced <-
    (if Autoencoder.use_slicing (model_flags m) then
       batch_size <- getitem x 0 ;;
       Ok (1 <? batch_size)
     else Ok false) ;;
  if sliced : bool then
    encoded_slices <- comprehension (_encode m) (split_1 x) ;;
    cat encoded_slices 0
  else _encode m x.

Definition _decode (m : AutoencoderModel) (z : shape) : result shape :=
  match z with
  | [batch_size; num_channels; height; width] =>
      if Autoencoder.use_tiling (model_flags m)
         && ((width >? tile_latent_min_width)
             || (height >? tile_latent_min_height))
      then tiled_decode z
      else Decoder_forward (model_decoder m) z
  | _ => Raise ValueError
  end.

(** On the sliced path the attribute [sample] of a tensor is read. *)
Definition decode (m : AutoencoderModel) (z : shape) : result shape :=
  sliced <-
    (if Autoencoder.use_slicing (model_flags m) then
       batch_size <- getitem z 0 ;;
       Ok (1 <? batch_size)
     else Ok false) ;;
  if sliced : bool then
    decoded_slices <-
      comprehension
        (fun z_slice =>
           _ <- _decode m z_slice ;;
           (Raise AttributeError : result shape))
        (split_1 z) ;;
    cat decoded_slices 0
  else _decode m z.

(** [forward] returns the decoded batch, a zero scalar and an empty
    dictionary; the shape of the first is what is modelled. *)
Definition forward (m : AutoencoderModel) (sample : shape) : result shape :=
  encoded <- encode m sample ;;
  decode m encoded.

End ShapeCoding.

(** ** [forward] on values, over the two networks as functions *)

Section Forward.

Import Value.

Variable encoder decoder : tensor4 -> result tensor4.
Variable tiled_encode tiled_decode : tensor4 -> result tensor4.
Variable tile_latent_min_height tile_latent_min_width : Z.

(** The first component of the triple [forward] returns; the other two are
    the constants [torch.tensor(0)] and [{}]. *)
Definition forward_sample (self : Autoencoder.AutoencoderDC) (sample : tensor4)
  : result tensor4 :=
  encoded <- Autoencoder.encode encoder tiled_encode self sample ;;
  Autoencoder.decode decoder tiled_decode tile_latent_min_height
    tile_latent_min_width self encoded.

End Forward.

End Decoding.

(* ================================================================== *)
(** * Sample decoders *)

Module DecoderSamples.

Import Layers Decoding.
Local Open Scope Z_scope.

(** The two-stage decoder mirroring [Samples.encoder_8_16]. *)
Definition decoder_8_16 : DecoderConfig :=
  mkDecoderConfig 3 4 32 (Str "ResBlock") [8; 16] [1; 1] [[]; []]
    (Str "rms_norm") (Str "silu") "pixel_shuffle" true.

(** Three stages, the first one without layers: the output projection
    up-samples. *)
Definition decoder_0_8_16 : DecoderConfig :=
  mkDecoderConfig 3 4 32 (Str "ResBlock") [4; 8; 16] [0; 1; 1] [[]; []; []]
    (Str "rms_norm") (Str "relu") "interpolate" true.

(** The six stages of the published model. *)
Definition decoder_f32 : DecoderConfig :=
  mkDecoderConfig 3 32 32
    (Tuple [ "ResBlock"; "ResBlock"; "ResBlock"; "EfficientViTBlock";
             "EfficientViTBlock"; "EfficientViTBlock" ]%string)
    [128; 256; 512; 512; 1024; 1024] [3; 3; 3; 3; 3; 3]
    [[]; []; []; [5]; [5]; [5]] (Str "rms_norm") (Str "silu")
    "pixel_shuffle" true.

Definition autoencoder_8_16 : AutoencoderArgs :=
  mkAutoencoderArgs 3 4 32 (Str "ResBlock") (Str "ResBlock")
    [8; 16] [8; 16] [1; 1] [1; 1] [[]; []] [[]; []]
    "pixel_shuffle" "pixel_unshuffle" (Str "rms_norm") (Str "silu").

(** Encoder and decoder of three stages, the middle one without layers. *)
Definition autoencoder_8_8_8 : AutoencoderArgs :=
  mkAutoencoderArgs 3 8 32 (Str "ResBlock") (Str "ResBlock")
    [8; 8; 8] [8; 8; 8] [1; 0; 1] [1; 0; 1] [[]; []; []] [[]; []; []]
    "pixel_shuffle" "pixel_unshuffle" (Str "rms_norm") (Str "silu").

(** A first stage of an unknown block type. *)
Definition encoder_unknown_block : EncoderConfig :=
  mkEncoderConfig 3 4 32 (Tuple [ "resblock"; "ResBlock" ]%string) [8; 16]
    [1; 1] [[]; []] "pixel_unshuffle" true.

End DecoderSamples.

(* ================================================================== *)
(** * Element types: the quadratic attention formula on typed tensors

    The quadratic formula casts the scores to [float32] and multiplies them
    by the value as it is: the element types of the operands matter.  A
    typed tensor is its element type together with the reals its elements
    stand for; a cast changes the type and keeps the values. *)

Module Typed.

Import Layers Value.

Inductive dtype : Type :=
| float16 | bfloat16 | float32 | float64.

Definition dtype_eqb (a b : dtype) : bool :=
  match a, b with
  | float16, float16 | bfloat16, bfloat16
  | float32, float32 | float64, float64 => true
  | _, _ => false
  end.

Record tensor : Type := mkTensor {
  dtype_of : dtype;
  values : tensor4
}.

(** [t.to(dtype=d)]. *)
Definition to (d : dtype) (t : tensor) : tensor := mkTensor d (values t).

(** [t.transpose(-1, -2)]. *)
Definition transpose_last2 (t : tensor) : tensor :=
  mkTensor (dtype_of t) (Value.transpose_last2 (values t)).

(** [torch.matmul(a, b)]: the two operands must have the same element
    type. *)
Definition matmul (a b : tensor) : result tensor :=
  if dtype_eqb (dtype_of a) (dtype_of b) then
    v <- Value.matmul (values a) (values b) ;;
    Ok (mkTensor (dtype_of a) v)
  else Raise RuntimeError.

(** [t / (torch.sum(t, dim=2, keepdim=True) + eps)]: every operand has the
    element type of [t]. *)
Definition renormalize_columns (eps : R) (t : tensor) : result tensor :=
  v <- div (values t) (add_scalar (sum_2_keepdim (values t)) eps) ;;
  Ok (mkTensor (dtype_of t) v).

(** [SanaMultiscaleLinearAttention.apply_quadratic_attention]. *)
Definition apply_quadratic_attention (attn : SanaMultiscaleLinearAttention)
    (query key value : tensor) : result tensor :=
  scores <- matmul (transpose_last2 key) query ;;
  let scores := to float32 scores in
  scores <- renormalize_columns (eps attn) scores ;;
  matmul value scores.

End Typed.

(* ================================================================== *)
(** * Properties *)

(** ** The error monad *)

Lemma bind_Ok_inv {A B} (m : result A) (k : A -> result B) (b : B) :
  Py.bind m k = Ok b -> exists a, m = Ok a /\ k a = Ok b.
Proof.
  destruct m as [a|e]; simpl; intros H; [ eauto | discriminate ].
Qed.

Lemma comprehension_Ok {A B} (f : A -> result B) (g : A -> B) (xs : list A) :
  (forall x, In x xs -> f x = Ok (g x)) ->
  comprehension f xs = Ok (map g xs).
Proof.
  induction xs as [|x xs IH]; intros Hf; simpl; [ reflexivity | ].
  rewrite (Hf x (or_introl eq_refl)); simpl.
  rewrite IH by (intros y Hy; apply Hf; right; exact Hy).
  reflexivity.
Qed.

Lemma comprehension_map {A B C} (f : B -> result C) (g : A -> B) xs :
  comprehension f (map g xs) = comprehension (fun x => f (g x)) xs.
Proof.
  induction xs as [|x xs IH]; simpl; [ reflexivity | ].
  rewrite IH; reflexivity.
Qed.

Lemma comprehension_ext {A B} (f g : A -> result B) xs :
  (forall x, In x xs -> f x = g x) ->
  comprehension f xs = comprehension g xs.
Proof.
  induction xs as [|x xs IH]; simpl; intros H; [ reflexivity | ].
  rewrite (H x (or_introl eq_refl)), IH; [ reflexivity | ].
  intros y Hy; apply H; right; exact Hy.
Qed.

(** ** Selectors *)

Module SelectorFacts.

Import Layers.

Lemma dict_get_In {V} (d : list (string * V)) (k : string) :
  In k (dict_keys d) <-> exists v, dict_get d k = Some v.
Proof.
  induction d as [|[k' v'] d IH]; simpl.
  - split; [ intros [] | intros [v Hv]; discriminate ].
  - destruct (String.eqb k k') eqn:E.
    + apply String.eqb_eq in E; subst k'.
      split; [ intros _; eauto | intros _; left; reflexivity ].
    + apply String.eqb_neq in E.
      rewrite <- IH. split; [ intros [H|H]; [ congruence | exact H ] | tauto ].
Qed.

Lemma dict_get_not_In {V} (d : list (string * V)) (k : string) :
  ~ In k (dict_keys d) <-> dict_get d k = None.
Proof.
  rewrite dict_get_In.
  destruct (dict_get d k) as [v|]; split; intros H.
  - exfalso; apply H; eauto.
  - discriminate.
  - reflexivity.
  - intros [v Hv]; discriminate.
Qed.

Lemma get_activation_known (name : string) :
  In (lower name) (dict_keys ACTIVATION_FUNCTIONS) ->
  exists op, dict_get ACTIVATION_FUNCTIONS (lower name) = Some op /\
             get_activation name = Ok op.
Proof.
  intros H. apply dict_get_In in H as [op Hop].
  exists op; split; [ exact Hop | ].
  unfold get_activation; rewrite Hop; reflexivity.
Qed.

Lemma get_activation_unknown (name : string) :
  ~ In (lower name) (dict_keys ACTIVATION_FUNCTIONS) ->
  get_activation name = Raise ValueError.
Proof.
  intros H. apply dict_get_not_In in H.
  unfold get_activation; rewrite H; reflexivity.
Qed.

Lemma get_normalization_known name num_features eps affine bias :
  (0 <= num_features)%Z ->
  In name normalization_names ->
  exists op, get_normalization name num_features eps affine bias = Ok op.
Proof.
  intros Hn Hin.
  assert (Hlt : (num_features <? 0)%Z = false) by (apply Z.ltb_ge; exact Hn).
  unfold get_normalization, RMSNorm_init, LayerNorm_init, BatchNorm2d_init.
  simpl in Hin.
  destruct Hin as [<-|[<-|[<-|[]]]]; simpl; rewrite Hlt.
  - destruct affine; simpl; eauto.
  - rewrite andb_false_r; eauto.
  - eauto.
Qed.

Lemma get_normalization_unknown name num_features eps affine bias :
  ~ In name normalization_names ->
  get_normalization name num_features eps affine bias = Raise ValueError.
Proof.
  intros Hin. unfold get_normalization.
  destruct (String.eqb name "rms_norm") eqn:E1;
    [ apply String.eqb_eq in E1; exfalso; apply Hin; subst; simpl; auto | ].
  destruct (String.eqb name "layer_norm") eqn:E2;
    [ apply String.eqb_eq in E2; exfalso; apply Hin; subst; simpl; auto | ].
  destruct (String.eqb name "batch_norm") eqn:E3;
    [ apply String.eqb_eq in E3; exfalso; apply Hin; subst; simpl; auto | ].
  reflexivity.
Qed.

(** C6.  [get_activation] returns the operator the table holds for the
    lowercased name when that name is a key of [ACTIVATION_FUNCTIONS], and
    raises [ValueError] for every other name; [get_normalization] returns
    an operator for exactly the names [rms_norm], [layer_norm] and
    [batch_norm] (for a feature count that is not negative), and raises
    [ValueError] for every other name. *)
Theorem selectors_recognize_exactly_their_names :
  forall (name : string) (num_features : Z) (eps : R)
         (elementwise_affine bias : bool),
    (0 <= num_features)%Z ->
    (In (lower name) (dict_keys ACTIVATION_FUNCTIONS) ->
     exists op, get_activation name = Ok op) /\
    (~ In (lower name) (dict_keys ACTIVATION_FUNCTIONS) ->
     get_activation name = Raise ValueError) /\
    (In name normalization_names ->
     exists op,
       get_normalization name num_features eps elementwise_affine bias
       = Ok op) /\
    (~ In name normalization_names ->
     get_normalization name num_features eps elementwise_affine bias
     = Raise ValueError).
Proof.
  intros name n eps affine bias Hn.
  split; [ | split; [ | split ] ].
  - intros H. destruct (get_activation_known name H) as (op & _ & Hop).
    exists op; exact Hop.
  - apply get_activation_unknown.
  - apply get_normalization_known; exact Hn.
  - apply get_normalization_unknown.
Qed.

Lemma selectors_recognize_exactly_their_names_witness :
  (0 <= 16)%Z /\
  (exists op, get_activation "SiLU" = Ok op) /\
  (exists op,
     get_normalization "rms_norm" 16 default_norm_eps true true = Ok op) /\
  get_activation "relu6" = Raise ValueError /\
  get_normalization "relu6" 16 default_norm_eps true true = Raise ValueError.
Proof.
  assert (H16 : (0 <= 16)%Z) by lia.
  split; [ exact H16 | ].
  destruct (selectors_recognize_exactly_their_names
              "SiLU" 16 default_norm_eps true true H16) as (Ha & _ & _ & _).
  destruct (selectors_recognize_exactly_their_names
              "rms_norm" 16 default_norm_eps true true H16)
    as (_ & _ & Hn & _).
  destruct (selectors_recognize_exactly_their_names
              "relu6" 16 default_norm_eps true true H16)
    as (_ & Hb & _ & Hm).
  split; [ apply Ha; simpl; auto | ].
  split; [ apply Hn; simpl; auto | ].
  split.
  - apply Hb. simpl. intros H.
    repeat (destruct H as [H|H]; [ discriminate H | ]). exact H.
  - apply Hm. simpl. intros H.
    repeat (destruct H as [H|H]; [ discriminate H | ]). exact H.
Defined.

(** *** [ResBlock.__init__] *)

Lemma Conv2d_init_plain cin cout k stride padding bias :
  (0 <= cin)%Z -> (0 <= cout)%Z -> (0 <= k)%Z ->
  Conv2d_init cin cout k stride padding 1 bias
  = Ok (mkConv2d cin cout k stride padding 1 bias).
Proof.
  intros Hi Ho Hk. unfold Conv2d_init. simpl.
  rewrite !Z.mod_1_r. simpl.
  rewrite Z.div_1_r.
  rewrite (proj2 (Z.ltb_ge cout 0) Ho), (proj2 (Z.ltb_ge cin 0) Hi),
    (proj2 (Z.ltb_ge k 0) Hk).
  reflexivity.
Qed.

(** C10, as the code has it.  A name whose lowercase form is not a key of
    [ACTIVATION_FUNCTIONS] makes [ResBlock.__init__] raise [ValueError],
    whatever the channel counts and the normalization; the default
    ["relu6"] is such a name, so the default is never constructible. *)
Theorem ResBlock_init_unknown_activation :
  forall (in_channels out_channels : Z) (norm_type name : string),
    ~ In (lower name) (dict_keys ACTIVATION_FUNCTIONS) ->
    ResBlock_init in_channels out_channels norm_type (Some name)
    = Raise ValueError /\
    ResBlock_init in_channels out_channels norm_type (Some default_act_fn)
    = Raise ValueError.
Proof.
  intros cin cout nt name H.
  unfold ResBlock_init.
  rewrite (get_activation_unknown name H).
  split; reflexivity.
Qed.

Lemma ResBlock_init_unknown_activation_witness :
  ResBlock_init 8 8 default_norm_type (Some "hardswish"%string) = Raise ValueError /\
  ResBlock_init 8 8 default_norm_type (Some default_act_fn)
  = Raise ValueError.
Proof.
  apply (ResBlock_init_unknown_activation 8 8 default_norm_type "hardswish"%string).
  simpl. intros H.
  repeat (destruct H as [H|H]; [ discriminate H | ]). exact H.
Defined.

(** C10, as stated, fails: ["RELU"] is not a key of the table, yet the
    lookup lowers it first and the block is built. *)
Lemma ResBlock_init_uppercase_counterexample :
  ~ In "RELU"%string (dict_keys ACTIVATION_FUNCTIONS) /\
  exists blk, ResBlock_init 8 8 "rms_norm"%string (Some "RELU"%string) = Ok blk.
Proof.
  split.
  - simpl. intros H.
    repeat (destruct H as [H|H]; [ discriminate H | ]). exact H.
  - eexists. reflexivity.
Qed.

End SelectorFacts.

(** ** [AutoencoderDC]: tiling parameters *)

Module TilingFacts.

Import Autoencoder.
Local Open Scope Z_scope.

Lemma py_or_truthy (a : option Z) (old : Z) :
  truthy a = true -> exists n, a = Some n /\ n <> 0 /\ py_or a old = n.
Proof.
  destruct a as [n|]; simpl; [ | discriminate ].
  destruct (n =? 0) eqn:E; [ discriminate | ].
  intros _. apply Z.eqb_neq in E. exists n; auto.
Qed.

Lemma py_or_falsy (a : option Z) (old : Z) :
  truthy a = false -> py_or a old = old.
Proof.
  destruct a as [n|]; simpl; [ | reflexivity ].
  destruct (n =? 0); [ reflexivity | discriminate ].
Qed.

Lemma falsy_iff (a : option Z) :
  truthy a = false <-> a = None \/ a = Some 0.
Proof.
  destruct a as [n|]; simpl.
  - destruct (n =? 0) eqn:E; simpl.
    + apply Z.eqb_eq in E; subst; split; auto.
    + apply Z.eqb_neq in E. split; [ discriminate | ].
      intros [H|H]; [ discriminate | congruence ].
  - split; auto.
Qed.

Lemma py_or_nonzero (a : option Z) (old : Z) :
  old <> 0 -> py_or a old <> 0.
Proof.
  intros Hold. destruct a as [n|]; simpl; [ | exact Hold ].
  destruct (n =? 0) eqn:E; [ exact Hold | apply Z.eqb_neq; exact E ].
Qed.

Lemma py_or_updated (arg : option Z) (old : Z) : updated arg old (py_or arg old).
Proof.
  repeat split.
  - intros H. destruct (py_or_truthy arg old H) as (n & -> & _ & ->).
    reflexivity.
  - intros H. apply py_or_falsy, falsy_iff, H.
  - apply py_or_nonzero.
Qed.

(** C9.  [enable_tiling] sets [use_tiling]; each of the four tiling
    parameters becomes the argument when the argument is truthy, keeps its
    stored value when the argument is [None] or [0], and so is never turned
    into [0]; [use_slicing] is left alone. *)
Theorem enable_tiling_updates_only_truthy :
  forall (self : AutoencoderDC) (min_h min_w stride_h stride_w : option Z),
    let self' := enable_tiling self min_h min_w stride_h stride_w in
    use_tiling self' = true /\
    use_slicing self' = use_slicing self /\
    updated min_h (tile_sample_min_height self)
      (tile_sample_min_height self') /\
    updated min_w (tile_sample_min_width self)
      (tile_sample_min_width self') /\
    updated stride_h (tile_sample_stride_height self)
      (tile_sample_stride_height self') /\
    updated stride_w (tile_sample_stride_width self)
      (tile_sample_stride_width self').
Proof.
  intros self a b c d. simpl.
  repeat split; try apply py_or_updated.
Qed.

(** Whatever is passed, and however often, the tiling parameters of a
    model never become zero. *)
Lemma tiling_parameters_never_zero (calls : list tiling_args) :
  tiling_parameters_nonzero (enable_tiling_calls AutoencoderDC_init calls).
Proof.
  assert (Hinit : tiling_parameters_nonzero AutoencoderDC_init)
    by (repeat split; discriminate).
  unfold enable_tiling_calls.
  revert Hinit. generalize AutoencoderDC_init as self.
  induction calls as [|[[[a b] c] d] calls IH]; intros self Hself.
  - exact Hself.
  - cbn [fold_left]. apply IH.
    destruct Hself as (H1 & H2 & H3 & H4).
    repeat split; cbn; apply py_or_nonzero; assumption.
Qed.

(** The parameters of a freshly built model survive a call that passes
    [0] and [None], and take a passed truthy value. *)
Example enable_tiling_default_model :
  enable_tiling AutoencoderDC_init (Some 0) None (Some 256) None
  = mkAutoencoderDC false true 512 512 256 448.
Proof. reflexivity. Qed.

End TilingFacts.

(** ** [AutoencoderDC]: batch slicing *)

Module SlicingFacts.

Import Value Autoencoder Samples.

Section Coding.

Variable encoder decoder : tensor4 -> result tensor4.
Variable tiled_encode tiled_decode : tensor4 -> result tensor4.
Variable tile_latent_min_height tile_latent_min_width : Z.

Local Abbreviation encode := (encode encoder tiled_encode).
Local Abbreviation _encode := (_encode encoder tiled_encode).
Local Abbreviation encode_per_sample := (encode_per_sample encoder tiled_encode).
Local Abbreviation decode :=
  (decode decoder tiled_decode tile_latent_min_height tile_latent_min_width).
Local Abbreviation _decode :=
  (_decode decoder tiled_decode tile_latent_min_height tile_latent_min_width).

(** The encoding half of the slicing contract: with slicing enabled and more
    than one sample, [encode] is the per-sample path on every single-sample
    slice, joined in input order. *)
Lemma encode_sliced (self : AutoencoderDC) (x : tensor4) :
  use_slicing self = true -> (1 < length x)%nat ->
  encode self x = encode_per_sample self x.
Proof.
  intros Hs Hn. unfold Autoencoder.encode, Autoencoder.encode_per_sample.
  rewrite Hs. apply Nat.ltb_lt in Hn. rewrite Hn. simpl.
  unfold split_1. rewrite comprehension_map. reflexivity.
Qed.

(** With slicing disabled, or on a single sample, [encode] and [decode] are
    the unsliced paths. *)
Lemma encode_unsliced (self : AutoencoderDC) (x : tensor4) :
  use_slicing self = false \/ (length x <= 1)%nat ->
  encode self x = _encode self x.
Proof.
  intros [Hs|Hn]; unfold Autoencoder.encode.
  - rewrite Hs; reflexivity.
  - apply Nat.ltb_ge in Hn. rewrite Hn, andb_false_r. reflexivity.
Qed.

Lemma decode_unsliced (self : AutoencoderDC) (z : tensor4) :
  use_slicing self = false \/ (length z <= 1)%nat ->
  decode self z = _decode self z.
Proof.
  intros [Hs|Hn]; unfold Autoencoder.decode.
  - rewrite Hs; reflexivity.
  - apply Nat.ltb_ge in Hn. rewrite Hn, andb_false_r. reflexivity.
Qed.

(** C1, the decoding half, on the code: with slicing enabled and more than
    one sample, [decode] reads the attribute [sample] of the tensor the
    per-sample path returns for the first slice, and raises
    [AttributeError] although the per-sample path succeeds. *)
Theorem decode_sliced_raises (self : AutoencoderDC) (z : tensor4) :
  use_slicing self = true -> (1 < length z)%nat ->
  (forall sample, In sample z -> exists y, _decode self [sample] = Ok y) ->
  decode self z = Raise AttributeError.
Proof.
  intros Hs Hn Hok. unfold Autoencoder.decode.
  rewrite Hs. apply Nat.ltb_lt in Hn. rewrite Hn. simpl.
  destruct z as [|s z']; [ simpl in Hn; apply Nat.ltb_lt in Hn; lia | ].
  simpl. destruct (Hok s (or_introl eq_refl)) as [y Hy].
  rewrite Hy. reflexivity.
Qed.

End Coding.

Lemma decode_sliced_raises_witness :
  decode (fun z => Ok z) (fun z => Ok z) 64 64
    (enable_slicing AutoencoderDC_init) two_samples
  = Raise AttributeError.
Proof.
  apply (decode_sliced_raises (fun z => Ok z) (fun z => Ok z) 64 64
           (enable_slicing AutoencoderDC_init) two_samples).
  - reflexivity.
  - simpl; lia.
  - intros sample _. eexists. reflexivity.
Defined.

(** The same batch is encoded sample by sample without error. *)
Example encode_sliced_two_samples :
  encode (fun x => Ok x) (fun x => Ok x)
    (enable_slicing AutoencoderDC_init) two_samples
  = Ok two_samples.
Proof. reflexivity. Qed.

End SlicingFacts.

(** ** The attention processor: which formula is applied *)

Module ProcessorFacts.

Import Layers Value.
Local Open Scope Z_scope.

Section Processor.

Variable Linear_forward : Linear -> tensor4 -> result tensor4.
Variable Projection_forward :
  SanaMultiscaleAttentionProjection -> tensor4 -> result tensor4.
Variable Normalization_forward : Normalization -> tensor4 -> result tensor4.
Variable Activation_forward : Activation -> R -> R.

Local Abbreviation call :=
  (processor_call Linear_forward Projection_forward Normalization_forward
     Activation_forward).
Local Abbreviation call_on :=
  (processor_call_on Linear_forward Projection_forward Normalization_forward
     Activation_forward).
Local Abbreviation applying :=
  (processor_applying Linear_forward Projection_forward Normalization_forward
     Activation_forward).

Lemma use_linear_attention_spec attn (height width : Z) :
  Shape.use_linear_attention attn height width = true
  <-> height * width > attention_head_dim attn.
Proof.
  unfold Shape.use_linear_attention. rewrite Z.gtb_ltb, Z.ltb_lt. lia.
Qed.

(** Whatever the two methods of the attention object are, the processor
    applies the one the rule selects. *)
Lemma processor_call_selected (linear quadratic : attention_formula) attn x :
  let '(_, _, h, w) := shape4 x in
  call_on linear quadratic attn x
  = applying
      (if Shape.use_linear_attention attn (Z.of_nat h) (Z.of_nat w)
       then linear
       else quadratic)
      attn x.
Proof.
  unfold processor_call_on, processor_applying.
  destruct (shape4 x) as [[[b c] h] w].
  destruct (Shape.use_linear_attention attn (Z.of_nat h) (Z.of_nat w));
    reflexivity.
Qed.


End Processor.

End ProcessorFacts.

Module ProcessorWitness.

Import Layers Value Samples ProcessorFacts.
Local Open Scope Z_scope.


(** On the two sides of the boundary [height * width = d = 4] the pass
    reaches the method the rule selects, and no other: five positions call
    the linear method, four positions the quadratic one. *)
Example formula_called_on_each_side :
  processor_call_on (fun _ t => Ok t) (fun _ t => Ok t) (fun _ t => Ok t)
    (fun _ r => r) linear_marker quadratic_marker attn_d4
    (full4 1 4 1 5 0%R)
  = Raise AttributeError /\
  processor_call_on (fun _ t => Ok t) (fun _ t => Ok t) (fun _ t => Ok t)
    (fun _ r => r) linear_marker quadratic_marker attn_d4
    (full4 1 4 2 2 0%R)
  = Raise ZeroDivisionError.
Proof. split; reflexivity. Qed.

End ProcessorWitness.

(** ** Construction of the resolution-changing blocks *)

Module BlockFacts.

Import Layers SelectorFacts.
Local Open Scope Z_scope.

Lemma DCDownBlock2d_init_cases cin cout (ds sc : bool) :
  0 < cin -> 0 < cout ->
  DCDownBlock2d_init cin cout ds sc
  = if ds && negb (cout mod 4 =? 0) then Raise AssertionError
    else Ok (mkDCDownBlock2d ds 2 (if ds then 1 else 2) (cin * 4 / cout) sc
               (mkConv2d cin (if ds then cout / 4 else cout) 3
                  (if ds then 1 else 2) 1 1 true)).
Proof.
  intros Hi Ho. unfold DCDownBlock2d_init, floordiv.
  change (2 ^ 2) with 4.
  rewrite (proj2 (Z.eqb_neq cout 0)) by lia. simpl Py.bind.
  destruct ds; simpl.
  - destruct (cout mod 4 =? 0) eqn:E; simpl; [ | reflexivity ].
    rewrite Conv2d_init_plain; try lia; [ reflexivity | ].
    apply Z.div_pos; lia.
  - rewrite Conv2d_init_plain; try lia. reflexivity.
Qed.

Lemma DCUpBlock2d_init_cases cin cout (interpolate sc : bool) mode :
  0 < cin -> 0 < cout ->
  DCUpBlock2d_init cin cout interpolate sc mode
  = Ok (mkDCUpBlock2d interpolate mode sc 2 (cout * 4 / cin)
          (mkConv2d cin (if negb interpolate then cout * 4 else cout)
             3 1 1 1 true)).
Proof.
  intros Hi Ho. unfold DCUpBlock2d_init, floordiv.
  change (2 ^ 2) with 4.
  rewrite (proj2 (Z.eqb_neq cin 0)) by lia. simpl Py.bind.
  rewrite Conv2d_init_plain; try lia; [ reflexivity | ].
  destruct interpolate; simpl; lia.
Qed.

(** C3, as the code has it.  For positive channel counts,
    [DCDownBlock2d.__init__] raises [AssertionError] exactly when it
    down-samples by pixel-unshuffle and [out_channels] is not a multiple of
    [factor^2]; otherwise it builds the block, and [DCUpBlock2d.__init__]
    always builds its block: neither constructor checks the divisibility
    its shortcut relies on. *)
Theorem construction_asserts_only_channel_reduction :
  forall (in_channels out_channels : Z) (downsample interpolate shortcut : bool)
         (interpolation_mode : string),
    0 < in_channels -> 0 < out_channels ->
    (DCDownBlock2d_init in_channels out_channels downsample shortcut
     = Raise AssertionError
     <-> downsample = true /\ out_channels mod 2 ^ 2 <> 0) /\
    (~ (downsample = true /\ out_channels mod 2 ^ 2 <> 0) ->
     exists d,
       DCDownBlock2d_init in_channels out_channels downsample shortcut = Ok d) /\
    (exists u,
       DCUpBlock2d_init in_channels out_channels interpolate shortcut
         interpolation_mode = Ok u).
Proof.
  intros cin cout ds ip sc mode Hi Ho.
  change (2 ^ 2) with 4.
  rewrite (DCDownBlock2d_init_cases cin cout ds sc Hi Ho).
  rewrite (DCUpBlock2d_init_cases cin cout ip sc mode Hi Ho).
  split; [ | split ].
  - destruct ds; simpl.
    + destruct (cout mod 4 =? 0) eqn:E; simpl.
      * apply Z.eqb_eq in E. split; [ discriminate | ].
        intros [_ H]; contradiction.
      * apply Z.eqb_neq in E. split; auto.
    + split; [ discriminate | intros [H _]; discriminate ].
  - intros Hno. destruct ds; simpl.
    + destruct (cout mod 4 =? 0) eqn:E; simpl; [ eauto | ].
      apply Z.eqb_neq in E. exfalso; apply Hno; auto.
    + eauto.
  - eauto.
Qed.

Lemma construction_asserts_only_channel_reduction_witness :
  0 < 3 /\ 0 < 6 /\
  DCDownBlock2d_init 3 6 true true = Raise AssertionError /\
  (exists d, DCDownBlock2d_init 3 6 false true = Ok d) /\
  (exists u, DCUpBlock2d_init 3 6 false true "nearest" = Ok u).
Proof.
  assert (H3 : 0 < 3) by lia. assert (H6 : 0 < 6) by lia.
  split; [ exact H3 | split; [ exact H6 | ] ].
  destruct (construction_asserts_only_channel_reduction
              3 6 true false true "nearest" H3 H6) as (Ha & _ & Hu).
  destruct (construction_asserts_only_channel_reduction
              3 6 false false true "nearest" H3 H6) as (_ & Hd & _).
  split; [ apply Ha; split; [ reflexivity | vm_compute; discriminate ] | ].
  split; [ apply Hd; intros [H _]; discriminate H | exact Hu ].
Defined.

(** C3, as stated, fails: both shortcut invariants can be violated without
    any error at construction; the error comes from the tensor backend
    during the forward pass. *)
Lemma construction_unchecked_counterexample :
  ((1 * 2 ^ 2) mod 3 <> 0 /\
   exists u,
     DCUpBlock2d_init 3 1 false true "nearest" = Ok u /\
     Shape.DCUpBlock2d_forward u [1; 3; 2; 2] = Raise RuntimeError) /\
  ((3 * 2 ^ 2) mod 8 <> 0 /\
   exists d,
     DCDownBlock2d_init 3 8 true true = Ok d /\
     Shape.DCDownBlock2d_forward d [1; 3; 2; 2] = Raise RuntimeError).
Proof.
  split; (split; [ vm_compute; discriminate | ]);
    eexists; split; reflexivity.
Qed.

End BlockFacts.

(** ** [RMSNorm]: the effect of rescaling the input *)

Module NormFacts.

Import Layers Value.
Local Open Scope R_scope.

Lemma sum_map_scale (c : R) (v : vector) :
  sum (map (fun x => (c * x) ^ 2) v) = c ^ 2 * sum (map (fun x => x ^ 2) v).
Proof.
  unfold sum.
  induction v as [|x v IH]; [ simpl; ring | ].
  cbn [map fold_right]. rewrite IH. ring.
Qed.

Lemma mean_squares_scale (c : R) (v : vector) :
  mean (map (fun x => x ^ 2) (map (Rmult c) v))
  = c ^ 2 * mean (map (fun x => x ^ 2) v).
Proof.
  unfold mean. rewrite map_map, !length_map.
  rewrite sum_map_scale. unfold Rdiv. ring.
Qed.

Lemma rsqrt_scale (c y : R) :
  0 < c -> 0 < y -> rsqrt (c ^ 2 * y) = / c * rsqrt y.
Proof.
  intros Hc Hy. unfold rsqrt.
  rewrite sqrt_mult by nra.
  rewrite sqrt_pow2 by lra.
  assert (0 < sqrt y) by (apply sqrt_lt_R0; exact Hy).
  field. split; lra.
Qed.

(** Rescaling the input by [c] divides the effective [eps] by [c^2]. *)
Lemma rms_normalize_scaled (eps c : R) (v : vector) :
  0 < c ->
  0 < mean (map (fun x => x ^ 2) v) + eps / c ^ 2 ->
  rms_normalize eps (map (Rmult c) v) = rms_normalize (eps / c ^ 2) v.
Proof.
  intros Hc Hpos. unfold rms_normalize.
  rewrite mean_squares_scale, map_map.
  set (m := mean (map (fun x => x ^ 2) v)) in *.
  replace (c ^ 2 * m + eps) with (c ^ 2 * (m + eps / c ^ 2))
    by (field; lra).
  rewrite rsqrt_scale by assumption.
  apply map_ext. intros x. field. lra.
Qed.

(** C7, as the code has it.  Scaling the input by [c > 0] is the same as
    dividing [eps] by [c^2]: the normalized value of [c * x] under [eps] is
    the normalized value of [x] under [eps / c^2], before and after the
    learned scale and bias; the value is scale-invariant when [eps = 0]. *)
Theorem RMSNorm_rescaled_input :
  forall (dim : Z) (eps : R) (affine : bool) (weight bias : option (list R))
         (c : R) (x : vector),
    0 < c ->
    0 < mean (map (fun a => a ^ 2) x) + eps / c ^ 2 ->
    rms_normalize eps (map (Rmult c) x) = rms_normalize (eps / c ^ 2) x /\
    RMSNorm_forward (mkRMSNorm dim eps affine weight bias) (map (Rmult c) x)
    = RMSNorm_forward (mkRMSNorm dim (eps / c ^ 2) affine weight bias) x /\
    (eps = 0 ->
     rms_normalize eps (map (Rmult c) x) = rms_normalize eps x).
Proof.
  intros dim eps affine weight bias c x Hc Hpos.
  pose proof (rms_normalize_scaled eps c x Hc Hpos) as H.
  split; [ exact H | split ].
  - unfold RMSNorm_forward; simpl. rewrite H. reflexivity.
  - intros He. rewrite H. subst eps. f_equal. unfold Rdiv. ring.
Qed.

Lemma RMSNorm_rescaled_input_witness :
  rms_normalize default_norm_eps (map (Rmult 2) [1; 3])
  = rms_normalize (default_norm_eps / 2 ^ 2) [1; 3].
Proof.
  apply (RMSNorm_rescaled_input 2%Z default_norm_eps true None None 2 [1; 3]).
  - lra.
  - unfold mean, sum, default_norm_eps; simpl. lra.
Defined.

(** C7, as stated, fails for the [eps = 1e-5] every block is built with:
    the one-entry vector [1] and its double are normalized to different
    values. *)
Lemma rms_normalize_scale_counterexample :
  0 < 2 /\
  rms_normalize default_norm_eps (map (Rmult 2) [1])
  <> rms_normalize default_norm_eps [1].
Proof.
  split; [ lra | ].
  unfold rms_normalize, mean, sum, rsqrt, default_norm_eps; simpl.
  intros H. injection H as H.
  set (a := sqrt ((2 * 1 * (2 * 1 * 1) + 0) / 1 + 1 / 100000)) in H.
  set (b := sqrt ((1 * (1 * 1) + 0) / 1 + 1 / 100000)) in H.
  assert (Ha : a * a = 4 + 1 / 100000).
  { unfold a. rewrite sqrt_sqrt by lra. lra. }
  assert (Hb : b * b = 1 + 1 / 100000).
  { unfold b. rewrite sqrt_sqrt by lra. lra. }
  assert (Ha0 : 0 < a) by (unfold a; apply sqrt_lt_R0; lra).
  assert (Hb0 : 0 < b) by (unfold b; apply sqrt_lt_R0; lra).
  assert (Hab : 2 * b = a).
  { apply (Rmult_eq_compat_r (a * b)) in H.
    field_simplify in H; lra. }
  nra.
Qed.

End NormFacts.

(** ** Tabulated lists *)

Module TabFacts.

Import Value.

Lemma tabulate_length {A} n (f : nat -> A) : length (tabulate n f) = n.
Proof. unfold tabulate. rewrite length_map, length_seq. reflexivity. Qed.

Lemma nth_tabulate {A} n (f : nat -> A) i d :
  (i < n)%nat -> nth i (tabulate n f) d = f i.
Proof.
  intros Hi. unfold tabulate.
  rewrite (nth_indep _ d (f 0%nat)) by (rewrite length_map, length_seq; exact Hi).
  rewrite map_nth, seq_nth by exact Hi. reflexivity.
Qed.

Lemma tabulate_ext {A} n (f g : nat -> A) :
  (forall i, (i < n)%nat -> f i = g i) -> tabulate n f = tabulate n g.
Proof.
  intros H. unfold tabulate. apply map_ext_in.
  intros i Hi. apply in_seq in Hi. apply H. lia.
Qed.

Lemma tabulate_S {A} n (f : nat -> A) :
  tabulate (S n) f = f 0%nat :: tabulate n (fun i => f (S i)).
Proof.
  unfold tabulate. simpl. rewrite <- seq_shift, map_map. reflexivity.
Qed.

Lemma tabulate_snoc {A} n (f : nat -> A) :
  tabulate (S n) f = tabulate n f ++ [f n].
Proof.
  unfold tabulate. rewrite seq_S, map_app. reflexivity.
Qed.

Lemma map_as_tabulate {A B} (g : A -> B) (l : list A) (d : A) :
  map g l = tabulate (length l) (fun i => g (nth i l d)).
Proof.
  induction l as [|a l IH]; [ reflexivity | ].
  simpl length. rewrite tabulate_S. simpl. f_equal. exact IH.
Qed.

Lemma tabulate_eta {A} (l : list A) (d : A) :
  l = tabulate (length l) (fun i => nth i l d).
Proof.
  rewrite <- (map_id l) at 1. exact (map_as_tabulate (fun x => x) l d).
Qed.

Lemma map_tabulate {A B} (g : A -> B) n (f : nat -> A) :
  map g (tabulate n f) = tabulate n (fun i => g (f i)).
Proof. unfold tabulate. apply map_map. Qed.

Lemma combine_tabulate {A B} n (f : nat -> A) (g : nat -> B) :
  combine (tabulate n f) (tabulate n g) = tabulate n (fun i => (f i, g i)).
Proof.
  revert f g. induction n as [|n IH]; intros f g; [ reflexivity | ].
  rewrite !tabulate_S. simpl. f_equal. apply IH.
Qed.

Lemma comprehension_tabulate {A B} (F : A -> result B) n (f : nat -> A)
    (r : nat -> B) :
  (forall i, (i < n)%nat -> F (f i) = Ok (r i)) ->
  comprehension F (tabulate n f) = Ok (tabulate n r).
Proof.
  intros H. unfold tabulate. rewrite comprehension_map.
  apply comprehension_Ok. intros i Hi. apply in_seq in Hi. apply H. lia.
Qed.

Lemma broadcast2_tabulate {A B C} (F : A -> B -> result C) n
    (f : nat -> A) (g : nat -> B) (r : nat -> C) :
  (forall i, (i < n)%nat -> F (f i) (g i) = Ok (r i)) ->
  broadcast2 F (tabulate n f) (tabulate n g) = Ok (tabulate n r).
Proof.
  intros H. unfold broadcast2.
  rewrite !tabulate_length, Nat.eqb_refl, combine_tabulate.
  apply comprehension_tabulate. exact H.
Qed.

(** An operand with one entry is repeated along the other operand. *)
Lemma broadcast2_singleton {A B C} (F : A -> B -> result C) n
    (f : nat -> A) (y : B) (r : nat -> C) :
  (forall i, (i < n)%nat -> F (f i) y = Ok (r i)) ->
  broadcast2 F (tabulate n f) [y] = Ok (tabulate n r).
Proof.
  intros H. unfold broadcast2. rewrite tabulate_length.
  destruct (Nat.eqb_spec n (length [y])) as [E|E].
  - simpl in E. subst n. rewrite !tabulate_S. simpl.
    rewrite (H 0%nat) by lia. reflexivity.
  - destruct (tabulate n f) as [|a [|a' l]] eqn:Et;
      rewrite <- Et; apply comprehension_tabulate; exact H.
Qed.

Lemma zip3_tabulate {A B} (F : A -> A -> A -> B) n (f g h : nat -> A) :
  zip3 F (tabulate n f) (tabulate n g) (tabulate n h)
  = tabulate n (fun i => F (f i) (g i) (h i)).
Proof.
  unfold zip3. rewrite !combine_tabulate, map_tabulate. reflexivity.
Qed.

End TabFacts.

(** ** The linear attention formula *)

Module AttentionFacts.

Import Layers Value TabFacts.
Local Open Scope R_scope.

Lemma tabulate2_map {A B} (g : A -> B) n m (f : nat -> nat -> A) :
  map (map g) (tabulate2 n m f) = tabulate2 n m (fun i j => g (f i j)).
Proof.
  unfold tabulate2. rewrite map_tabulate. apply tabulate_ext.
  intros i _. apply map_tabulate.
Qed.

Lemma tabulate2_broadcast {A B C} (F : A -> B -> result C) n m
    (f : nat -> nat -> A) (g : nat -> nat -> B) (r : nat -> nat -> C) :
  (forall i j, (i < n)%nat -> (j < m)%nat -> F (f i j) (g i j) = Ok (r i j)) ->
  broadcast2 (broadcast2 F) (tabulate2 n m f) (tabulate2 n m g)
  = Ok (tabulate2 n m r).
Proof.
  intros H. unfold tabulate2. apply broadcast2_tabulate.
  intros i Hi. apply broadcast2_tabulate. intros j Hj. apply H; assumption.
Qed.

Lemma tabulate2_zip3 {A B} (F : A -> A -> A -> B) n m
    (f g h : nat -> nat -> A) :
  zip3 (zip3 F) (tabulate2 n m f) (tabulate2 n m g) (tabulate2 n m h)
  = tabulate2 n m (fun i j => F (f i j) (g i j) (h i j)).
Proof.
  unfold tabulate2. rewrite zip3_tabulate. apply tabulate_ext.
  intros i _. apply zip3_tabulate.
Qed.

Lemma tabulate2_ext {A} n m (f g : nat -> nat -> A) :
  (forall i j, (i < n)%nat -> (j < m)%nat -> f i j = g i j) ->
  tabulate2 n m f = tabulate2 n m g.
Proof.
  intros H. unfold tabulate2. apply tabulate_ext. intros i Hi.
  apply tabulate_ext. intros j Hj. apply H; assumption.
Qed.

(** A well-shaped tensor is the table of its matrices. *)
Lemma has_shape4_tabulate {b h d n} {t : tensor4} :
  has_shape4 b h d n t ->
  exists f : nat -> nat -> matrix,
    t = tabulate2 b h f /\
    forall i j, (i < b)%nat -> (j < h)%nat -> has_shape2 d n (f i j).
Proof.
  intros [Hb Hall]. rewrite Forall_forall in Hall.
  exists (fun i j => nth j (nth i t []) []). split.
  - rewrite (tabulate_eta t []) at 1. rewrite Hb.
    apply tabulate_ext. intros i Hi.
    assert (Hin : In (nth i t []) t) by (apply nth_In; lia).
    destruct (Hall _ Hin) as [Hh _].
    rewrite (tabulate_eta (nth i t []) []) at 1. rewrite Hh. reflexivity.
  - intros i j Hi Hj.
    assert (Hin : In (nth i t []) t) by (apply nth_In; lia).
    destruct (Hall _ Hin) as [Hh Hm]. rewrite Forall_forall in Hm.
    apply Hm. apply nth_In. lia.
Qed.

Lemma has_shape2_ncols {d n} {m : matrix} :
  has_shape2 d n m -> (0 < d)%nat -> ncols m = n.
Proof.
  intros [Hl Hf] Hd. destruct m as [|row m]; simpl in *; [ lia | ].
  inversion Hf; assumption.
Qed.

Lemma has_shape2_row {d n} {m : matrix} {row} :
  has_shape2 d n m -> In row m -> length row = n.
Proof.
  intros [_ Hf] Hin. rewrite Forall_forall in Hf. apply Hf, Hin.
Qed.

Lemma has_shape2_nth {d n} {m : matrix} {i} :
  has_shape2 d n m -> (i < d)%nat -> length (nth i m []) = n.
Proof.
  intros Hs Hi. apply (has_shape2_row Hs). apply nth_In.
  destruct Hs as [-> _]. exact Hi.
Qed.

Lemma matmul2_ok {m n p} {a b : matrix} :
  has_shape2 m n a -> has_shape2 n p b -> (0 < n)%nat ->
  matmul2 a b = Ok (matrix_product a b).
Proof.
  intros Ha Hb Hn. unfold matmul2.
  rewrite (has_shape2_ncols Hb Hn).
  assert (H1 : forallb (fun row => (length row =? length b)%nat) a = true).
  { apply forallb_forall. intros row Hin. apply Nat.eqb_eq.
    rewrite (has_shape2_row Ha Hin). destruct Hb as [-> _]. reflexivity. }
  assert (H2 : forallb (fun row => (length row =? p)%nat) b = true).
  { apply forallb_forall. intros row Hin. apply Nat.eqb_eq.
    apply (has_shape2_row Hb Hin). }
  rewrite H1, H2. reflexivity.
Qed.

Lemma column_length j (m : matrix) : length (column j m) = length m.
Proof. unfold column. apply length_map. Qed.

Lemma transpose_shape {d n} {k : matrix} :
  has_shape2 d n k -> (0 < d)%nat -> has_shape2 n d (transpose k).
Proof.
  intros Hk Hd. unfold transpose. rewrite (has_shape2_ncols Hk Hd).
  split.
  - rewrite length_map, length_seq. reflexivity.
  - apply Forall_forall. intros row Hin. apply in_map_iff in Hin.
    destruct Hin as (j & <- & _). rewrite column_length.
    destruct Hk as [-> _]. reflexivity.
Qed.

Lemma column_transpose {d n} {k : matrix} {j} :
  has_shape2 d n k -> (j < d)%nat -> column j (transpose k) = nth j k [].
Proof.
  intros Hk Hj. unfold transpose, column.
  rewrite (has_shape2_ncols Hk) by lia.
  rewrite map_map.
  transitivity (tabulate n (fun c => nth c (nth j k []) 0)).
  - apply map_ext. intros c.
    assert (E : nth c (@nil R) 0 = 0) by (destruct c; reflexivity).
    rewrite <- E at 1.
    exact (map_nth (fun row : vector => nth c row 0) k [] j).
  - rewrite <- (has_shape2_nth Hk Hj). symmetry. apply tabulate_eta.
Qed.

Lemma product_transpose {d n} (a : matrix) {k : matrix} :
  has_shape2 d n k -> (0 < d)%nat -> (0 < n)%nat ->
  matrix_product a (transpose k) = map (fun row => map (dot row) k) a.
Proof.
  intros Hk Hd Hn. unfold matrix_product.
  rewrite (has_shape2_ncols (transpose_shape Hk Hd) Hn).
  apply map_ext. intros row.
  rewrite (map_as_tabulate (dot row) k []).
  destruct Hk as [Hlen Hrows]. rewrite Hlen.
  apply tabulate_ext. intros j Hj.
  rewrite (column_transpose (conj Hlen Hrows) Hj). reflexivity.
Qed.

Lemma dot_ones (u : vector) : dot (repeat 1 (length u)) u = sum u.
Proof.
  unfold dot, sum. induction u as [|x u IH]; [ reflexivity | ].
  simpl. rewrite IH. ring.
Qed.

Lemma attention_row_length (q k : matrix) row :
  length (attention_row q k row) = ncols q.
Proof. apply tabulate_length. Qed.

(** The rows of [V' K^T Q], for [V'] the value with its row of ones. *)
Lemma hidden_states_rows {d n} {q k v : matrix} :
  has_shape2 d n q -> has_shape2 d n k -> has_shape2 d n v ->
  (0 < d)%nat -> (0 < n)%nat ->
  let value := v ++ [repeat 1 (ncols v)] in
  exists scores,
    matmul2 value (transpose k) = Ok scores /\
    matmul2 scores q
    = Ok (map (attention_row q k) v ++ [attention_row q k (repeat 1 n)]).
Proof.
  intros Hq Hk Hv Hd Hn value.
  assert (Hvalue : has_shape2 (d + 1) n value).
  { unfold value. rewrite (has_shape2_ncols Hv Hd). destruct Hv as [Hl Hr].
    split; [ rewrite length_app, Hl; reflexivity | ].
    apply Forall_app. split; [ exact Hr | ].
    constructor; [ apply repeat_length | constructor ]. }
  exists (map (fun row => map (dot row) k) value). split.
  - rewrite (matmul2_ok Hvalue (transpose_shape Hk Hd) Hn).
    rewrite (product_transpose value Hk Hd Hn). reflexivity.
  - assert (Hscores :
      has_shape2 (d + 1) d (map (fun row => map (dot row) k) value)).
    { split; [ rewrite length_map; apply Hvalue | ].
      apply Forall_forall. intros s Hs. apply in_map_iff in Hs.
      destruct Hs as (row & <- & _). rewrite length_map. apply Hk. }
    rewrite (matmul2_ok Hscores Hq Hd).
    unfold matrix_product. rewrite map_map.
    unfold value. rewrite map_app. simpl.
    rewrite (has_shape2_ncols Hv Hd). reflexivity.
Qed.

Lemma skipn_last {A} (l : list A) (a : A) :
  skipn (length (l ++ [a]) - 1) (l ++ [a]) = [a].
Proof.
  rewrite length_app. simpl length.
  replace (length l + 1 - 1)%nat with (length l + 0)%nat by lia.
  rewrite skipn_app, Nat.add_0_r, skipn_all, Nat.sub_diag. reflexivity.
Qed.

(** The renormalisation of one [d x n] slice. *)
Lemma renormalize_rows eps {d n} {q k v : matrix} :
  has_shape2 d n q -> has_shape2 d n k -> has_shape2 d n v ->
  (0 < d)%nat -> (0 < n)%nat ->
  let hidden :=
    map (attention_row q k) v ++ [attention_row q k (repeat 1 n)] in
  broadcast2 (broadcast2 (fun x y => Ok (x / y)))
    (removelast hidden)
    (map (map (fun x => x + eps)) (skipn (length hidden - 1) hidden))
  = Ok (renormalized eps q k v).
Proof.
  intros Hq Hk Hv Hd Hn hidden. unfold hidden.
  rewrite removelast_last, skipn_last.
  cbn [map].
  rewrite (map_as_tabulate (attention_row q k) v []).
  change (renormalized eps q k v)
    with (tabulate (length v)
            (fun i => tabulate (ncols q)
                        (fun c => VKtQ q k v i c / (ones_KtQ q k c + eps)))).
  apply broadcast2_singleton. intros i Hi.
  unfold attention_row. rewrite map_tabulate.
  apply broadcast2_tabulate. intros c Hc.
  unfold VKtQ, ones_KtQ. do 4 f_equal.
  apply map_ext_in. intros k_j Hkj.
  rewrite <- (has_shape2_row Hk Hkj). apply dot_ones.
Qed.

(** The block [EfficientViTBlock] builds carries the default [eps]. *)
Lemma EfficientViTBlock_eps c mult d ks nt e :
  EfficientViTBlock_init c mult d ks nt = Ok e ->
  eps (vit_attn e) = default_attention_eps.
Proof.
  unfold EfficientViTBlock_init, SanaMultiscaleLinearAttention_init.
  intros H.
  repeat (apply bind_Ok_inv in H; destruct H as (? & ? & H)).
  injection H as <-. simpl.
  repeat match goal with
         | H : Py.bind _ _ = Ok _ |- _ =>
             apply bind_Ok_inv in H; destruct H as (? & ? & H)
         | H : Ok _ = Ok _ |- _ => injection H as H; subst
         end.
  reflexivity.
Qed.

(** C5.  On queries, keys and values of shape [(b, h, d, n)], the linear
    path pads the value with a row of ones, multiplies by the transposed key
    and then by the query, and divides every row but the last by the last
    row plus [eps]: the result is [V K^T Q] renormalised, at each spatial
    position, by [1 K^T Q + eps].  The [eps] of the attention block that
    [EfficientViTBlock] builds is the default, [1e-15]. *)
Theorem apply_linear_attention_renormalizes :
  forall (attn : SanaMultiscaleLinearAttention) (query key value : tensor4)
         (b h d n : nat),
    (0 < d)%nat -> (0 < n)%nat ->
    has_shape4 b h d n query ->
    has_shape4 b h d n key ->
    has_shape4 b h d n value ->
    apply_linear_attention attn query key value
    = Ok (renormalized4 (eps attn) query key value) /\
    (forall c mult head_dim kernel_sizes norm e,
       EfficientViTBlock_init c mult head_dim kernel_sizes norm = Ok e ->
       eps (vit_attn e) = / 10 ^ 15).
Proof.
  intros attn query key value b h d n Hd Hn Hq Hk Hv.
  split; [ | intros c mult hd ks nt e He;
             exact (EfficientViTBlock_eps c mult hd ks nt e He) ].
  destruct (has_shape4_tabulate Hq) as (qf & -> & Hqf).
  destruct (has_shape4_tabulate Hk) as (kf & -> & Hkf).
  destruct (has_shape4_tabulate Hv) as (vf & -> & Hvf).
  unfold apply_linear_attention, pad_rows_1, transpose_last2, matmul.
  rewrite !tabulate2_map.
  rewrite tabulate2_broadcast
    with (r := fun i j => map (fun row => map (dot row) (kf i j))
                            (vf i j ++ [repeat 1 (ncols (vf i j))])).
  2:{ intros i j Hi Hj.
      destruct (hidden_states_rows (Hqf i j Hi Hj) (Hkf i j Hi Hj)
                  (Hvf i j Hi Hj) Hd Hn) as (scores & Hs & _).
      rewrite Hs. f_equal.
      assert (Hvalue : has_shape2 (d + 1) n
                         (vf i j ++ [repeat 1 (ncols (vf i j))])).
      { rewrite (has_shape2_ncols (Hvf i j Hi Hj) Hd).
        destruct (Hvf i j Hi Hj) as [Hl Hr].
        split; [ rewrite length_app, Hl; reflexivity | ].
        apply Forall_app. split; [ exact Hr | ].
        constructor; [ apply repeat_length | constructor ]. }
      rewrite (matmul2_ok Hvalue (transpose_shape (Hkf i j Hi Hj) Hd) Hn) in Hs.
      injection Hs as <-.
      apply (product_transpose _ (Hkf i j Hi Hj) Hd Hn). }
  simpl Py.bind.
  rewrite tabulate2_broadcast
    with (r := fun i j => map (attention_row (qf i j) (kf i j)) (vf i j)
                          ++ [attention_row (qf i j) (kf i j) (repeat 1 n)]).
  2:{ intros i j Hi Hj.
      destruct (hidden_states_rows (Hqf i j Hi Hj) (Hkf i j Hi Hj)
                  (Hvf i j Hi Hj) Hd Hn) as (scores & Hs & Hh).
      assert (Hvalue : has_shape2 (d + 1) n
                         (vf i j ++ [repeat 1 (ncols (vf i j))])).
      { rewrite (has_shape2_ncols (Hvf i j Hi Hj) Hd).
        destruct (Hvf i j Hi Hj) as [Hl Hr].
        split; [ rewrite length_app, Hl; reflexivity | ].
        apply Forall_app. split; [ exact Hr | ].
        constructor; [ apply repeat_length | constructor ]. }
      rewrite (matmul2_ok Hvalue (transpose_shape (Hkf i j Hi Hj) Hd) Hn) in Hs.
      injection Hs as <-.
      rewrite (product_transpose _ (Hkf i j Hi Hj) Hd Hn) in Hh.
      exact Hh. }
  simpl Py.bind.
  unfold div, broadcast4, add_scalar, map4, slice_2_init, slice_2_last.
  rewrite !tabulate2_map.
  unfold renormalized4. rewrite tabulate2_zip3.
  apply tabulate2_broadcast. intros i j Hi Hj.
  apply (renormalize_rows (eps attn) (Hqf i j Hi Hj) (Hkf i j Hi Hj)
           (Hvf i j Hi Hj) Hd Hn).
Qed.

Lemma apply_linear_attention_renormalizes_witness :
  apply_linear_attention Samples.attn_d4
    Samples.query_23 Samples.key_23 Samples.value_23
  = Ok (renormalized4 (eps Samples.attn_d4)
          Samples.query_23 Samples.key_23 Samples.value_23).
Proof.
  apply (apply_linear_attention_renormalizes Samples.attn_d4
           Samples.query_23 Samples.key_23 Samples.value_23
           1%nat 1%nat 2%nat 3%nat).
  - lia.
  - lia.
  - repeat (split || constructor).
  - repeat (split || constructor).
  - repeat (split || constructor).
Defined.

End AttentionFacts.

(** ** The down-sampling shortcut on a constant feature map *)

Module ShortcutFacts.

Import Layers Value.
Local Open Scope nat_scope.

Lemma nth_repeat_lt {A} (a d : A) n i : i < n -> nth i (repeat a n) d = a.
Proof.
  intros Hi. rewrite (nth_indep _ d a) by (rewrite repeat_length; exact Hi).
  apply nth_repeat.
Qed.

Lemma map_constant {A B} (b : B) (l : list A) :
  map (fun _ => b) l = repeat b (length l).
Proof. induction l as [|a l IH]; simpl; [ | rewrite IH ]; reflexivity. Qed.

Lemma map_seq_constant {A} (f : nat -> A) (a : A) n :
  (forall i, i < n -> f i = a) -> map f (seq 0 n) = repeat a n.
Proof.
  intros H.
  transitivity (map (fun _ : nat => a) (seq 0 n)).
  - apply map_ext_in. intros i Hi. apply in_seq in Hi. apply H. lia.
  - rewrite map_constant, length_seq. reflexivity.
Qed.

Lemma map_repeat_eq {A B} (f : A -> B) (a : A) n :
  map f (repeat a n) = repeat (f a) n.
Proof. induction n as [|n IH]; simpl; [ | rewrite IH ]; reflexivity. Qed.

Lemma flat_map_repeat {A B} (f : A -> list B) (a : A) (b : B) m n :
  f a = repeat b m -> flat_map f (repeat a n) = repeat b (n * m).
Proof.
  intros Hf. induction n as [|n IH]; simpl; [ reflexivity | ].
  rewrite IH, Hf, repeat_app. reflexivity.
Qed.

Lemma firstn_repeat_add {A} (a : A) n m :
  firstn n (repeat a (n + m)) = repeat a n.
Proof. induction n as [|n IH]; simpl; [ | rewrite IH ]; reflexivity. Qed.

Lemma skipn_repeat_add {A} (a : A) n m :
  skipn n (repeat a (n + m)) = repeat a m.
Proof. induction n as [|n IH]; simpl; [ reflexivity | exact IH ]. Qed.

Lemma pieces_repeat {A} (a : A) g count :
  pieces g count (repeat a (g * count)) = repeat (repeat a g) count.
Proof.
  induction count as [|count IH]; simpl; [ reflexivity | ].
  replace (g * S count) with (g + g * count) by lia.
  rewrite firstn_repeat_add, skipn_repeat_add, IH. reflexivity.
Qed.

Lemma sum_repeat (k : R) n : sum (repeat k n) = (INR n * k)%R.
Proof.
  unfold sum. induction n as [|n IH]; [ simpl; ring | ].
  cbn [repeat fold_right]. rewrite IH, S_INR. ring.
Qed.

Lemma mean_repeat (k : R) n : 0 < n -> mean (repeat k n) = k.
Proof.
  intros Hn. unfold mean. rewrite sum_repeat, repeat_length.
  field. apply not_0_INR. lia.
Qed.

Lemma shape4_full4 b c h w (k : R) :
  0 < b -> 0 < c -> 0 < h -> shape4 (full4 b c h w k) = (b, c, h, w).
Proof.
  intros Hb Hc Hh. unfold shape4, full4.
  destruct b as [|b]; [ lia | ]. destruct c as [|c]; [ lia | ].
  destruct h as [|h]; [ lia | ].
  simpl. rewrite !repeat_length. reflexivity.
Qed.

(** One sub-sampled channel of a constant image. *)
Lemma subsample_constant (k : R) h w r i j :
  0 < r -> i < r -> j < r -> h mod r = 0 -> w mod r = 0 ->
  map (fun hh =>
         map (fun ww =>
                nth (ww * r + j) (nth (hh * r + i) (repeat (repeat k w) h) [])
                  0%R)
           (seq 0 (w / r)))
    (seq 0 (h / r))
  = repeat (repeat k (w / r)) (h / r).
Proof.
  intros Hr Hi Hj Hh Hw.
  assert (Eh : h = r * (h / r)) by (apply Nat.Div0.div_exact; exact Hh).
  assert (Ew : w = r * (w / r)) by (apply Nat.Div0.div_exact; exact Hw).
  apply map_seq_constant. intros hh Hhh.
  rewrite nth_repeat_lt by nia.
  apply map_seq_constant. intros ww Hww.
  apply nth_repeat_lt. nia.
Qed.

Lemma pixel_unshuffle_full4 b c h w (k : R) :
  0 < b -> 0 < c -> 0 < h ->
  h mod 2 = 0 -> w mod 2 = 0 ->
  pixel_unshuffle (full4 b c h w k) 2
  = Ok (full4 b (c * 4) (h / 2) (w / 2) k).
Proof.
  intros Hb Hc Hh Eh Ew. unfold pixel_unshuffle.
  rewrite shape4_full4 by assumption.
  change (Z.to_nat 2) with 2.
  rewrite Eh, Ew.
  change ((2 =? 0) || negb (0 =? 0) || negb (0 =? 0)) with false. cbv iota.
  apply f_equal. unfold full4. rewrite map_repeat_eq.
  apply (f_equal (fun sample => repeat sample b)).
  apply flat_map_repeat. cbn [seq flat_map map app].
  rewrite !(subsample_constant k h w) by (first [ exact Eh | exact Ew | lia ]).
  reflexivity.
Qed.

Lemma unflatten_1_full4 b c h w (k : R) (g : Z) :
  0 < b -> 0 < c -> (0 < g)%Z -> c mod Z.to_nat g = 0 ->
  unflatten_1 (full4 b c h w k) g
  = Ok (repeat (repeat (repeat (repeat (repeat k w) h) (Z.to_nat g))
                  (c / Z.to_nat g)) b).
Proof.
  intros Hb Hc Hg Ec. unfold unflatten_1.
  assert (Es : exists h' w', shape4 (full4 b c h w k) = (b, c, h', w')).
  { unfold shape4, full4. destruct b as [|b]; [ lia | ].
    destruct c as [|c]; [ lia | ]. simpl. rewrite !repeat_length.
    eauto. }
  destruct Es as (h' & w' & ->).
  rewrite (proj2 (Z.leb_gt g 0)) by exact Hg.
  rewrite Ec.
  change (false || negb (0 =? 0)) with false. cbv iota.
  apply f_equal. unfold full4. rewrite map_repeat_eq.
  apply (f_equal (fun sample => repeat sample b)).
  apply Nat.Div0.div_exact in Ec.
  set (count := c / Z.to_nat g) in *.
  rewrite Ec. apply pieces_repeat.
Qed.

Lemma mean_channels_constant (k : R) h w g :
  0 < g -> 0 < h ->
  mean_channels (repeat (repeat (repeat k w) h) g) = repeat (repeat k w) h.
Proof.
  intros Hg Hh. unfold mean_channels.
  destruct g as [|g]; [ lia | ]. destruct h as [|h]; [ lia | ].
  change (length (hd [] (hd [] (repeat (repeat (repeat k w) (S h)) (S g)))))
    with (length (repeat k w)).
  change (length (hd [] (repeat (repeat (repeat k w) (S h)) (S g))))
    with (length (repeat (repeat k w) (S h))).
  rewrite !repeat_length.
  apply map_seq_constant. intros hh Hhh.
  apply map_seq_constant. intros ww Hww.
  rewrite map_repeat_eq.
  rewrite !nth_repeat_lt by lia.
  apply mean_repeat. lia.
Qed.

(** The shortcut branch of any block with factor 2 whose group size
    divides the rearranged channel count. *)
Lemma shortcut_of_constant (d : DCDownBlock2d) b c h w (k : R) :
  down_factor d = 2%Z ->
  (0 < down_group_size d)%Z ->
  (c * 4) mod Z.to_nat (down_group_size d) = 0 ->
  0 < b -> 0 < c -> 0 < h -> 0 < w ->
  h mod 2 = 0 -> w mod 2 = 0 ->
  DCDownBlock2d_shortcut d (full4 b c h w k)
  = Ok (full4 b (c * 4 / Z.to_nat (down_group_size d)) (h / 2) (w / 2) k).
Proof.
  intros Hf Hg Ec Hb Hc Hh Hw Eh Ew.
  unfold DCDownBlock2d_shortcut. rewrite Hf.
  rewrite pixel_unshuffle_full4 by assumption. cbn [Py.bind].
  rewrite unflatten_1_full4 by (first [ assumption | lia ]). cbn [Py.bind].
  apply f_equal. unfold mean_2, full4.
  rewrite !map_repeat_eq.
  rewrite mean_channels_constant; [ reflexivity | lia | ].
  assert (h = 2 * (h / 2)) by (apply Nat.Div0.div_exact; exact Eh). lia.
Qed.

(** C8.  For a block built with the shortcut and channel counts such that
    [out_channels] divides [in_channels * factor^2], the shortcut branch
    maps the feature map that is [k] everywhere, of shape
    [(b, in_channels, h, w)] with [h] and [w] even, to the feature map that
    is [k] everywhere, of shape [(b, out_channels, h / 2, w / 2)]. *)
Theorem shortcut_preserves_constant :
  forall (in_channels out_channels : Z) (downsample : bool)
         (d : DCDownBlock2d) (b h w : nat) (k : R),
    (0 < in_channels)%Z -> (0 < out_channels)%Z ->
    ((in_channels * 2 ^ 2) mod out_channels = 0)%Z ->
    DCDownBlock2d_init in_channels out_channels downsample true = Ok d ->
    0 < b -> 0 < h -> 0 < w -> h mod 2 = 0 -> w mod 2 = 0 ->
    DCDownBlock2d_shortcut d (full4 b (Z.to_nat in_channels) h w k)
    = Ok (full4 b (Z.to_nat out_channels) (h / 2) (w / 2) k).
Proof.
  intros cin cout ds d b h w k Hi Ho Hdiv Hinit Hb Hh Hw Eh Ew.
  change (2 ^ 2)%Z with 4%Z in Hdiv.
  rewrite (BlockFacts.DCDownBlock2d_init_cases cin cout ds true Hi Ho) in Hinit.
  destruct (ds && negb (cout mod 4 =? 0)%Z); [ discriminate | ].
  injection Hinit as <-.
  assert (Hq : (cin * 4 = cout * (cin * 4 / cout))%Z).
  { apply Z.div_exact; lia. }
  assert (Hgpos : (0 < cin * 4 / cout)%Z).
  { apply Z.div_str_pos. split; [ lia | ].
    apply Z.divide_pos_le; [ lia | ].
    apply Z.mod_divide; [ lia | exact Hdiv ]. }
  assert (Hnat : Z.to_nat cin * 4
                 = Z.to_nat (cin * 4 / cout) * Z.to_nat cout).
  { apply Nat2Z.inj. rewrite Nat2Z.inj_mul, Nat2Z.inj_mul, !Z2Nat.id by lia.
    change (Z.of_nat 4) with 4%Z. lia. }
  assert (Hc : Z.to_nat cin * 4 / Z.to_nat (cin * 4 / cout) = Z.to_nat cout).
  { rewrite Hnat, Nat.mul_comm. apply Nat.div_mul. lia. }
  rewrite (shortcut_of_constant _ b (Z.to_nat cin) h w k);
    cbn [down_factor down_group_size]; try assumption; try lia.
  - rewrite Hc. reflexivity.
  - rewrite Hnat, Nat.mul_comm. apply Nat.Div0.mod_mul.
Qed.

Lemma shortcut_preserves_constant_witness :
  DCDownBlock2d_shortcut
    (mkDCDownBlock2d true 2 1 2 true (mkConv2d 2 1 3 1 1 1 true))
    (full4 1 (Z.to_nat 2) 2 2 7%R)
  = Ok (full4 1 (Z.to_nat 4) (2 / 2) (2 / 2) 7%R).
Proof.
  apply (shortcut_preserves_constant 2%Z 4%Z true
           (mkDCDownBlock2d true 2 1 2 true (mkConv2d 2 1 3 1 1 1 true))
           1 2 2 7%R).
  - lia.
  - lia.
  - reflexivity.
  - reflexivity.
  - lia.
  - lia.
  - lia.
  - reflexivity.
  - reflexivity.
Defined.

End ShortcutFacts.

(** ** The shape algebra of the layers *)

Module ShapeFacts.

Import Layers Shape SelectorFacts BlockFacts.
Local Open Scope Z_scope.

Local Arguments Z.mul : simpl never.
Local Arguments Z.add : simpl never.
Local Arguments Z.sub : simpl never.
Local Arguments Z.div : simpl never.
Local Arguments Z.modulo : simpl never.
Local Arguments Z.pow : simpl never.
Local Arguments Z.max : simpl never.
Local Arguments Z.min : simpl never.
Local Arguments Z.eqb : simpl never.
Local Arguments Z.ltb : simpl never.
Local Arguments Z.leb : simpl never.
Local Arguments Z.gtb : simpl never.
Local Arguments Z.of_nat : simpl never.
Local Arguments Z.to_nat : simpl never.

(** Decide the integer tests of a goal by linear arithmetic. *)
Ltac ztest :=
  repeat match goal with
    | |- context [ (?a =? ?b) ] =>
        first [ rewrite (proj2 (Z.eqb_eq a b)) by lia
              | rewrite (proj2 (Z.eqb_neq a b)) by lia ]
    | |- context [ (?a <? ?b) ] =>
        first [ rewrite (proj2 (Z.ltb_lt a b)) by lia
              | rewrite (proj2 (Z.ltb_ge a b)) by lia ]
    | |- context [ (?a <=? ?b) ] =>
        first [ rewrite (proj2 (Z.leb_le a b)) by lia
              | rewrite (proj2 (Z.leb_gt a b)) by lia ]
    | |- context [ (?a >? ?b) ] => rewrite (Z.gtb_ltb a b)
    end.

Lemma broadcast_rev_same (s : list Z) : broadcast_rev s s = Ok s.
Proof.
  induction s as [|x s IH]; [ reflexivity | ].
  simpl. rewrite IH. simpl. rewrite Z.eqb_refl. reflexivity.
Qed.

Lemma broadcast_same (s : shape) : broadcast s s = Ok s.
Proof.
  unfold broadcast. rewrite broadcast_rev_same. simpl.
  rewrite rev_involutive. reflexivity.
Qed.

(** A convolution that keeps the resolution: kernel [2 p + 1], padding [p],
    stride 1. *)
Lemma Conv2d_forward_same cin cout k p groups bias b h w :
  k = 2 * p + 1 -> 0 <= p -> 0 < h -> 0 < w ->
  Conv2d_forward (mkConv2d cin cout k 1 p groups bias) [b; cin; h; w]
  = Ok [b; cout; h; w].
Proof.
  intros -> Hp Hh Hw. unfold Conv2d_forward. simpl.
  ztest. simpl. rewrite !Z.div_1_r.
  replace (h + 2 * p - (2 * p + 1) + 1) with h by lia.
  replace (w + 2 * p - (2 * p + 1) + 1) with w by lia.
  reflexivity.
Qed.

(** The strided convolution of a down-sampling block. *)
Lemma Conv2d_forward_stride2 cin cout groups bias b h w :
  0 < h -> 0 < w -> h mod 2 = 0 -> w mod 2 = 0 ->
  Conv2d_forward (mkConv2d cin cout 3 2 1 groups bias) [b; cin; h; w]
  = Ok [b; cout; h / 2; w / 2].
Proof.
  intros Hh Hw Eh Ew. unfold Conv2d_forward. simpl.
  ztest. simpl.
  replace ((h + 2 * 1 - 3) / 2 + 1) with (h / 2)
    by (Z.to_euclidean_division_equations; lia).
  replace ((w + 2 * 1 - 3) / 2 + 1) with (w / 2)
    by (Z.to_euclidean_division_equations; lia).
  reflexivity.
Qed.

Lemma RMSNorm_forward_channels_last c eps b h w :
  0 <= c ->
  RMSNorm_forward
    (mkRMSNorm c eps true (Some (repeat 1%R (Z.to_nat c)))
       (Some (repeat 0%R (Z.to_nat c))))
    [b; h; w; c]
  = Ok [b; h; w; c].
Proof.
  intros Hc. unfold RMSNorm_forward. simpl.
  rewrite !repeat_length, !Z2Nat.id by exact Hc.
  unfold broadcast. simpl. rewrite Z.eqb_refl. simpl.
  rewrite Z.eqb_refl. reflexivity.
Qed.

Lemma RMSNorm_init_affine c eps :
  0 <= c ->
  RMSNorm_init c eps true true
  = Ok (mkRMSNorm c eps true (Some (repeat 1%R (Z.to_nat c)))
          (Some (repeat 0%R (Z.to_nat c)))).
Proof.
  intros Hc. unfold RMSNorm_init. ztest. reflexivity.
Qed.

(** *** [ResBlock] *)

Lemma ResBlock_init_silu c :
  0 <= c ->
  ResBlock_init c c "rms_norm" (Some "silu"%string)
  = Ok (mkResBlock "rms_norm" SiLU
          (mkConv2d c c 3 1 1 1 true) (mkConv2d c c 3 1 1 1 false)
          (NRMSNorm
             (mkRMSNorm c default_norm_eps true
                (Some (repeat 1%R (Z.to_nat c)))
                (Some (repeat 0%R (Z.to_nat c)))))).
Proof.
  intros Hc. unfold ResBlock_init.
  change (get_activation "silu") with (Ok SiLU). cbn [Py.bind].
  rewrite !Conv2d_init_plain by lia. cbn [Py.bind].
  unfold get_normalization. simpl String.eqb. cbv iota.
  rewrite RMSNorm_init_affine by exact Hc. reflexivity.
Qed.

Lemma ResBlock_forward_same c b h w :
  0 <= c -> 0 < h -> 0 < w ->
  ResBlock_forward
    (mkResBlock "rms_norm" SiLU
       (mkConv2d c c 3 1 1 1 true) (mkConv2d c c 3 1 1 1 false)
       (NRMSNorm
          (mkRMSNorm c default_norm_eps true
             (Some (repeat 1%R (Z.to_nat c)))
             (Some (repeat 0%R (Z.to_nat c))))))
    [b; c; h; w]
  = Ok [b; c; h; w].
Proof.
  intros Hc Hh Hw. unfold ResBlock_forward.
  cbn [res_conv1 res_conv2 res_norm res_norm_type].
  rewrite (Conv2d_forward_same c c 3 1) by lia. cbn [Py.bind].
  rewrite (Conv2d_forward_same c c 3 1) by lia. cbn [Py.bind].
  simpl String.eqb. cbv iota.
  cbn [movedim_1_last app Py.bind Normalization_forward].
  rewrite RMSNorm_forward_channels_last by exact Hc.
  cbn [Py.bind movedim_last_1 last removelast].
  apply broadcast_same.
Qed.

(** *** [DCDownBlock2d] *)

(** A feature map with positive sizes has elements. *)
Lemma numel_positive b c h w :
  0 < b -> 0 < c -> 0 < h -> 0 < w -> (numel [b; c; h; w] =? 0) = false.
Proof.
  intros Hb Hc Hh Hw. apply Z.eqb_neq. unfold numel. cbn [fold_right].
  assert (0 < b * (c * (h * (w * 1))))
    by (repeat apply Z.mul_pos_pos; lia).
  lia.
Qed.

Lemma DCDownBlock2d_forward_halves c next (ds sc : bool) b h w :
  0 < c -> 0 < next ->
  (sc = true -> (c * 4) mod next = 0) ->
  (ds = true -> next mod 4 = 0) ->
  0 < b -> 0 < h -> 0 < w -> h mod 2 = 0 -> w mod 2 = 0 ->
  DCDownBlock2d_forward
    (mkDCDownBlock2d ds 2 (if ds then 1 else 2) (c * 4 / next) sc
       (mkConv2d c (if ds then next / 4 else next) 3
          (if ds then 1 else 2) 1 1 true))
    [b; c; h; w]
  = Ok [b; next; h / 2; w / 2].
Proof.
  intros Hc Hn Hsc Hds Hb Hh Hw Eh Ew. unfold DCDownBlock2d_forward.
  cbn [down_conv down_downsample down_factor down_shortcut down_group_size].
  assert (Hx :
    (x <- Conv2d_forward
            (mkConv2d c (if ds then next / 4 else next) 3
               (if ds then 1 else 2) 1 1 true) [b; c; h; w] ;;
     (if ds then pixel_unshuffle x 2 else Ok x))
    = Ok [b; next; h / 2; w / 2]).
  { destruct ds.
    - rewrite (Conv2d_forward_same c (next / 4) 3 1) by lia. cbn [Py.bind].
      specialize (Hds eq_refl).
      assert (Hq4 : 0 < next / 4)
        by (Z.to_euclidean_division_equations; lia).
      unfold pixel_unshuffle.
      rewrite Eh, Ew, (numel_positive b (next / 4) h w) by assumption.
      ztest. simpl.
      replace (next / 4 * (2 * 2)) with next; [ reflexivity | ].
      Z.to_euclidean_division_equations. lia.
    - rewrite Conv2d_forward_stride2 by assumption. reflexivity. }
  destruct (Conv2d_forward _ [b; c; h; w]) as [x|e]; [ | discriminate Hx ].
  cbn [Py.bind] in Hx |- *. rewrite Hx. cbn [Py.bind].
  destruct sc; [ | reflexivity ].
  specialize (Hsc eq_refl).
  unfold pixel_unshuffle.
  rewrite Eh, Ew, (numel_positive b c h w) by assumption. ztest. simpl.
  assert (Hq : c * 4 = next * (c * 4 / next))
    by (apply Z.div_exact; lia).
  assert (Hqpos : 0 < c * 4 / next).
  { apply Z.div_str_pos. split; [ lia | ].
    apply Z.divide_pos_le; [ lia | ].
    apply Z.mod_divide; [ lia | exact Hsc ]. }
  unfold unflatten_1.
  replace (c * (2 * 2)) with (next * (c * 4 / next)) by lia.
  rewrite Z_mod_mult, Z_div_mult by lia.
  ztest. simpl. apply broadcast_same.
Qed.

(** *** Rearrangements on feature maps *)

Lemma cat_3_last b h w x y z :
  cat [[b; h; w; x]; [b; h; w; y]; [b; h; w; z]] 3
  = Ok [b; h; w; x + (y + (z + 0))].
Proof.
  unfold cat, same_except. simpl. rewrite !Z.eqb_refl. reflexivity.
Qed.

Lemma cat_1_copies {A} b c h w (l : list A) :
  cat ([b; c; h; w] :: map (fun _ => [b; c; h; w]) l) 1
  = Ok [b; c * (1 + Z.of_nat (length l)); h; w].
Proof.
  unfold cat.
  assert (Hall : forallb (same_except 1 [b; c; h; w])
                   (map (fun _ => [b; c; h; w]) l) = true).
  { apply forallb_forall. intros u Hu. apply in_map_iff in Hu.
    destruct Hu as (_ & <- & _).
    unfold same_except. simpl. rewrite !Z.eqb_refl. reflexivity. }
  rewrite Hall. cbn [length Nat.ltb Nat.leb andb].
  cbn [map fold_right nth set_nth].
  assert (Hsum :
    fold_right Z.add 0
      (map (fun u : list Z => nth 1 u 0) (map (fun _ : A => [b; c; h; w]) l))
    = c * Z.of_nat (length l)).
  { clear Hall. induction l as [|k l IH].
    - simpl. lia.
    - cbn [map fold_right length nth]. rewrite IH. lia. }
  rewrite Hsum. do 3 f_equal. lia.
Qed.

(** The reshape that gathers the heads: [(b, q * m, h, w)] to
    [(b, -1, m, h * w)]. *)
Lemma reshape_heads b q m h w :
  0 < b -> 0 < m -> 0 < h -> 0 < w ->
  reshape [b; q * m; h; w] [b; -1; m; h * w] = Ok [b; q; m; h * w].
Proof.
  intros Hb Hm Hh Hw.
  assert (Hhw : 0 < h * w) by (apply Z.mul_pos_pos; assumption).
  assert (Hp : 0 < b * (m * (h * w * 1))).
  { repeat apply Z.mul_pos_pos; lia. }
  unfold reshape. simpl. ztest. simpl. ztest. simpl.
  replace (b * (q * m * (h * (w * 1)))) with (q * (b * (m * (h * w * 1))))
    by ring.
  rewrite Z_mod_mult, Z_div_mult by lia.
  ztest. reflexivity.
Qed.

(** The reshape back to a feature map: [(b, q, m, h * w)] to
    [(b, -1, h, w)]. *)
Lemma reshape_feature_map b q m h w :
  0 < b -> 0 < h -> 0 < w ->
  reshape [b; q; m; h * w] [b; -1; h; w] = Ok [b; q * m; h; w].
Proof.
  intros Hb Hh Hw.
  assert (Hp : 0 < b * (h * (w * 1))).
  { repeat apply Z.mul_pos_pos; lia. }
  unfold reshape. simpl. ztest. simpl. ztest. simpl.
  replace (b * (q * (m * (h * w * 1)))) with (q * m * (b * (h * (w * 1))))
    by ring.
  rewrite Z_mod_mult, Z_div_mult by lia.
  ztest. reflexivity.
Qed.

Lemma chunk_3_rows b q d n :
  0 < d ->
  chunk [b; q; 3 * d; n] 3 2
  = Ok [[b; q; d; n]; [b; q; d; n]; [b; q; d; n]].
Proof.
  intros Hd. unfold chunk. simpl. ztest.
  replace ((3 * d + 3 - 1) / 3) with d
    by (Z.to_euclidean_division_equations; lia).
  ztest.
  replace ((3 * d + d - 1) / d) with 3
    by (apply (Z.div_unique_pos _ _ 3 (d - 1)); lia).
  unfold range. change (Z.to_nat 3) with 3%nat. simpl.
  change (Z.of_nat 0) with 0. change (Z.of_nat 1) with 1.
  change (Z.of_nat 2) with 2.
  replace (Z.min d (3 * d - 0 * d)) with d by lia.
  replace (Z.min d (3 * d - 1 * d)) with d by lia.
  replace (Z.min d (3 * d - 2 * d)) with d by lia.
  reflexivity.
Qed.

Lemma chunk_2_channels b m h w :
  0 < m ->
  chunk [b; m * 2; h; w] 2 1 = Ok [[b; m; h; w]; [b; m; h; w]].
Proof.
  intros Hm. unfold chunk. simpl. ztest.
  replace ((m * 2 + 2 - 1) / 2) with m
    by (Z.to_euclidean_division_equations; lia).
  ztest.
  replace ((m * 2 + m - 1) / m) with 2
    by (apply (Z.div_unique_pos _ _ 2 (m - 1)); lia).
  unfold range. change (Z.to_nat 2) with 2%nat. simpl.
  change (Z.of_nat 0) with 0. change (Z.of_nat 1) with 1.
  replace (Z.min m (m * 2 - 0 * m)) with m by lia.
  replace (Z.min m (m * 2 - 1 * m)) with m by lia.
  reflexivity.
Qed.

(** *** The two attention formulas keep the shape of the value *)

Lemma apply_linear_attention_shape b q d n :
  0 < d ->
  apply_linear_attention [b; q; d; n] [b; q; d; n] [b; q; d; n]
  = Ok [b; q; d; n].
Proof.
  intros Hd. unfold apply_linear_attention.
  unfold pad_rows_1, transpose_last2. simpl.
  unfold matmul. simpl. rewrite !Z.eqb_refl. simpl.
  rewrite !Z.eqb_refl. simpl.
  unfold broadcast. simpl. rewrite !Z.eqb_refl. simpl.
  replace (Z.max (d + 1 - 1) 0) with d by lia.
  replace (Z.min (d + 1) 1) with 1 by lia.
  destruct (Z.eqb_spec d 1) as [->|Hne]; reflexivity.
Qed.

Lemma apply_quadratic_attention_shape b q d n :
  apply_quadratic_attention [b; q; d; n] [b; q; d; n] [b; q; d; n]
  = Ok [b; q; d; n].
Proof.
  unfold apply_quadratic_attention, transpose_last2. simpl.
  unfold matmul. simpl. rewrite !Z.eqb_refl. simpl.
  unfold broadcast. simpl. rewrite !Z.eqb_refl. simpl.
  destruct (Z.eqb_spec n 1) as [->|Hne]; simpl;
    rewrite ?Z.eqb_refl; simpl; rewrite ?Z.eqb_refl; reflexivity.
Qed.

(** *** [SanaMultiscaleLinearAttention] and [GLUMBConv] *)

Lemma int_of_Q_one (q : Z) : int_of_Q (Qmult (inject_Z q) 1%Q) = q.
Proof.
  unfold int_of_Q, Qmult, inject_Z. cbn [Qnum Qden].
  change (Z.pos (1 * 1)) with 1. rewrite Z.mul_1_r. apply Z.quot_1_r.
Qed.

Lemma Linear_init_ok i o :
  0 <= i -> 0 <= o -> Linear_init i o = Ok (mkLinear i o).
Proof. intros Hi Ho. unfold Linear_init. ztest. reflexivity. Qed.

Lemma Conv2d_init_depthwise c k padding bias :
  0 < c -> 0 <= k ->
  Conv2d_init c c k 1 padding c bias
  = Ok (mkConv2d c c k 1 padding c bias).
Proof.
  intros Hc Hk. unfold Conv2d_init.
  rewrite Z_mod_same_full, Z_div_same_full by lia.
  ztest. reflexivity.
Qed.

Lemma Conv2d_init_grouped c g q k padding bias :
  c = q * g -> 0 < g -> 0 <= q -> 0 <= k ->
  Conv2d_init c c k 1 padding g bias
  = Ok (mkConv2d c c k 1 padding g bias).
Proof.
  intros -> Hg Hq Hk. unfold Conv2d_init.
  rewrite Z_mod_mult, Z_div_mult by lia.
  assert (0 <= q * g) by (apply Z.mul_nonneg_nonneg; lia).
  ztest. reflexivity.
Qed.

Lemma SanaMultiscaleLinearAttention_init_ok {c d ks} epsilon :
  0 < d -> d <= c -> Forall (fun k => 0 < k /\ k mod 2 = 1) ks ->
  SanaMultiscaleLinearAttention_init c c None d 1%Q "rms_norm" ks epsilon true
  = Ok (mkAttention epsilon d "rms_norm" true
          (mkLinear c (c / d * d)) (mkLinear c (c / d * d))
          (mkLinear c (c / d * d))
          (map (fun k =>
                  mkProjection
                    (mkConv2d (3 * (c / d * d)) (3 * (c / d * d)) k 1 (k / 2)
                       (3 * (c / d * d)) false)
                    (mkConv2d (3 * (c / d * d)) (3 * (c / d * d)) 1 1 0
                       (3 * (c / d)) false))
             ks)
          ReLU
          (mkLinear (c / d * d * (1 + Z.of_nat (length ks))) c)
          (NRMSNorm
             (mkRMSNorm c default_norm_eps true
                (Some (repeat 1%R (Z.to_nat c)))
                (Some (repeat 0%R (Z.to_nat c)))))).
Proof.
  intros Hd Hdc Hks.
  assert (Hheads : 0 < c / d) by (apply Z.div_str_pos; lia).
  assert (Hinner : 0 < c / d * d) by (apply Z.mul_pos_pos; lia).
  unfold SanaMultiscaleLinearAttention_init, floordiv.
  ztest. cbn [Py.bind]. rewrite int_of_Q_one. cbn [Py.bind].
  rewrite !Linear_init_ok by lia. cbn [Py.bind].
  rewrite (comprehension_Ok _
             (fun k =>
                mkProjection
                  (mkConv2d (3 * (c / d * d)) (3 * (c / d * d)) k 1 (k / 2)
                     (3 * (c / d * d)) false)
                  (mkConv2d (3 * (c / d * d)) (3 * (c / d * d)) 1 1 0
                     (3 * (c / d)) false))).
  2:{ intros k Hk. rewrite Forall_forall in Hks. destruct (Hks k Hk) as [Hk0 _].
      unfold SanaMultiscaleAttentionProjection_init.
      rewrite Conv2d_init_depthwise by lia. cbn [Py.bind].
      rewrite Conv2d_init_grouped with (q := d) by lia. reflexivity. }
  cbn [Py.bind].
  unfold get_normalization. simpl String.eqb. cbv iota.
  rewrite RMSNorm_init_affine by lia. reflexivity.
Qed.

Lemma GLUMBConv_init_ok {c} :
  0 < c ->
  GLUMBConv_init c c
  = Ok (mkGLUMBConv SiLU
          (mkConv2d c (4 * c * 2) 1 1 0 1 true)
          (mkConv2d (4 * c * 2) (4 * c * 2) 3 1 1 (4 * c * 2) true)
          (mkConv2d (4 * c) c 1 1 0 1 false)
          (mkRMSNorm c default_norm_eps true
             (Some (repeat 1%R (Z.to_nat c)))
             (Some (repeat 0%R (Z.to_nat c))))).
Proof.
  intros Hc. unfold GLUMBConv_init.
  rewrite Conv2d_init_plain by lia. cbn [Py.bind].
  rewrite Conv2d_init_depthwise by lia. cbn [Py.bind].
  rewrite Conv2d_init_plain by lia. cbn [Py.bind].
  rewrite RMSNorm_init_affine by lia. reflexivity.
Qed.

Lemma GLUMBConv_forward_same {c g b h w} :
  0 < c -> 0 < h -> 0 < w ->
  GLUMBConv_init c c = Ok g ->
  GLUMBConv_forward g [b; c; h; w] = Ok [b; c; h; w].
Proof.
  intros Hc Hh Hw Hinit. rewrite GLUMBConv_init_ok in Hinit by exact Hc.
  injection Hinit as <-. unfold GLUMBConv_forward.
  cbn [conv_inverted conv_depth conv_point glu_norm].
  rewrite (Conv2d_forward_same c (4 * c * 2) 1 0) by lia. cbn [Py.bind].
  rewrite (Conv2d_forward_same (4 * c * 2) (4 * c * 2) 3 1) by lia.
  cbn [Py.bind].
  rewrite (chunk_2_channels b (4 * c) h w) by lia. cbn [Py.bind].
  rewrite broadcast_same. cbn [Py.bind].
  rewrite (Conv2d_forward_same (4 * c) c 1 0) by lia. cbn [Py.bind].
  cbn [movedim_1_last app Py.bind].
  rewrite RMSNorm_forward_channels_last by lia.
  cbn [Py.bind movedim_last_1 last removelast].
  apply broadcast_same.
Qed.

Lemma Linear_forward_channels_last i o b h w :
  Linear_forward (mkLinear i o) [b; h; w; i] = Ok [b; h; w; o].
Proof.
  unfold Linear_forward. simpl. rewrite Z.eqb_refl. reflexivity.
Qed.

Lemma processor_call_same {c d ks epsilon attn b h w} :
  0 < d -> d <= c -> Forall (fun k => 0 < k /\ k mod 2 = 1) ks ->
  0 < b -> 0 < h -> 0 < w ->
  SanaMultiscaleLinearAttention_init c c None d 1%Q "rms_norm" ks epsilon true
  = Ok attn ->
  processor_call attn [b; c; h; w] = Ok [b; c; h; w].
Proof.
  intros Hd Hdc Hks Hb Hh Hw Hinit.
  rewrite SanaMultiscaleLinearAttention_init_ok in Hinit by assumption.
  injection Hinit as <-.
  assert (Hheads : 0 < c / d) by (apply Z.div_str_pos; lia).
  set (heads := c / d) in *.
  assert (Hinner : 0 < heads * d) by (apply Z.mul_pos_pos; lia).
  unfold processor_call.
  cbn [to_q to_k to_v to_qkv_multiscale to_out norm_out norm_type
       residual_connection attention_head_dim].
  cbn [movedim_1_last app Py.bind].
  rewrite !Linear_forward_channels_last. cbn [Py.bind].
  rewrite cat_3_last. cbn [Py.bind].
  replace (heads * d + (heads * d + (heads * d + 0))) with (3 * (heads * d))
    by lia.
  cbn [movedim_last_1 last removelast Py.bind].
  rewrite comprehension_map.
  rewrite (comprehension_Ok _ (fun _ => [b; 3 * (heads * d); h; w])).
  2:{ intros k Hk. rewrite Forall_forall in Hks.
      destruct (Hks k Hk) as [Hk0 Hk1].
      unfold SanaMultiscaleAttentionProjection_forward. cbn [proj_in proj_out].
      rewrite (Conv2d_forward_same _ _ k (k / 2));
        try lia; [ | Z.to_euclidean_division_equations; lia
                   | Z.to_euclidean_division_equations; lia ].
      cbn [Py.bind].
      apply (Conv2d_forward_same _ _ 1 0); lia. }
  cbn [Py.bind].
  rewrite cat_1_copies. cbn [Py.bind].
  replace (3 * (heads * d) * (1 + Z.of_nat (length ks)))
    with (heads * (1 + Z.of_nat (length ks)) * (3 * d)) by ring.
  rewrite reshape_heads by lia. cbn [Py.bind].
  rewrite chunk_3_rows by lia. cbn [Py.bind].
  assert (Hformula :
    (if use_linear_attention
          (mkAttention epsilon d "rms_norm" true
             (mkLinear c (heads * d)) (mkLinear c (heads * d))
             (mkLinear c (heads * d))
             (map (fun k =>
                     mkProjection
                       (mkConv2d (3 * (heads * d)) (3 * (heads * d)) k 1
                          (k / 2) (3 * (heads * d)) false)
                       (mkConv2d (3 * (heads * d)) (3 * (heads * d)) 1 1 0
                          (3 * heads) false))
                ks)
             ReLU
             (mkLinear (heads * d * (1 + Z.of_nat (length ks))) c)
             (NRMSNorm
                (mkRMSNorm c default_norm_eps true
                   (Some (repeat 1%R (Z.to_nat c)))
                   (Some (repeat 0%R (Z.to_nat c))))))
          h w
     then apply_linear_attention
            [b; heads * (1 + Z.of_nat (length ks)); d; h * w]
            [b; heads * (1 + Z.of_nat (length ks)); d; h * w]
            [b; heads * (1 + Z.of_nat (length ks)); d; h * w]
     else apply_quadratic_attention
            [b; heads * (1 + Z.of_nat (length ks)); d; h * w]
            [b; heads * (1 + Z.of_nat (length ks)); d; h * w]
            [b; heads * (1 + Z.of_nat (length ks)); d; h * w])
    = Ok [b; heads * (1 + Z.of_nat (length ks)); d; h * w]).
  { destruct (use_linear_attention _ h w).
    - apply apply_linear_attention_shape; lia.
    - apply apply_quadratic_attention_shape. }
  rewrite Hformula. cbn [Py.bind].
  rewrite reshape_feature_map by lia. cbn [Py.bind].
  cbn [movedim_1_last app Py.bind].
  replace (heads * (1 + Z.of_nat (length ks)) * d)
    with (heads * d * (1 + Z.of_nat (length ks))) by ring.
  rewrite Linear_forward_channels_last. cbn [Py.bind].
  cbn [movedim_last_1 last removelast Py.bind].
  simpl String.eqb. cbv iota.
  cbn [movedim_1_last app Py.bind Normalization_forward].
  rewrite RMSNorm_forward_channels_last by lia.
  cbn [Py.bind movedim_last_1 last removelast].
  apply broadcast_same.
Qed.

Lemma EfficientViTBlock_same {c d ks} :
  0 < d -> d <= c -> Forall (fun k => 0 < k /\ k mod 2 = 1) ks ->
  exists e,
    EfficientViTBlock_init c 1%Q d ks "rms_norm" = Ok e /\
    forall b h w, 0 < b -> 0 < h -> 0 < w ->
      EfficientViTBlock_forward e [b; c; h; w] = Ok [b; c; h; w].
Proof.
  intros Hd Hdc Hks. unfold EfficientViTBlock_init.
  pose proof (SanaMultiscaleLinearAttention_init_ok
                default_attention_eps Hd Hdc Hks) as Hattn.
  destruct (SanaMultiscaleLinearAttention_init c c None d 1%Q "rms_norm" ks
              default_attention_eps true) as [attn|] eqn:Ea;
    [ | discriminate Hattn ].
  cbn [Py.bind].
  pose proof (GLUMBConv_init_ok (c := c)) as Hglu.
  destruct (GLUMBConv_init c c) as [g|] eqn:Eg;
    [ | specialize (Hglu ltac:(lia)); discriminate Hglu ].
  cbn [Py.bind]. eexists. split; [ reflexivity | ].
  intros b h w Hb Hh Hw. unfold EfficientViTBlock_forward.
  cbn [vit_attn vit_conv_out].
  rewrite (processor_call_same Hd Hdc Hks Hb Hh Hw Ea). cbn [Py.bind].
  apply (GLUMBConv_forward_same (c := c)); try lia. exact Eg.
Qed.

Lemma ResBlock_same c :
  0 <= c ->
  exists r,
    ResBlock_init c c "rms_norm" (Some "silu"%string) = Ok r /\
    forall b h w, 0 < h -> 0 < w ->
      ResBlock_forward r [b; c; h; w] = Ok [b; c; h; w].
Proof.
  intros Hc. rewrite ResBlock_init_silu by exact Hc.
  eexists. split; [ reflexivity | ].
  intros b h w Hh Hw. apply ResBlock_forward_same; assumption.
Qed.

End ShapeFacts.

(** ** The shape contract of [Encoder] *)

Module EncoderFacts.

Import Layers Shape SelectorFacts BlockFacts ShapeFacts.
Local Open Scope Z_scope.

Local Arguments Z.mul : simpl never.
Local Arguments Z.add : simpl never.
Local Arguments Z.sub : simpl never.
Local Arguments Z.div : simpl never.
Local Arguments Z.modulo : simpl never.
Local Arguments Z.pow : simpl never.
Local Arguments Z.eqb : simpl never.
Local Arguments Z.ltb : simpl never.
Local Arguments Z.gtb : simpl never.
Local Arguments Z.of_nat : simpl never.
Local Arguments Z.to_nat : simpl never.

Lemma getitem_Some {A} {xs : list A} {i a} :
  nth_error xs i = Some a -> getitem xs i = Ok a.
Proof. intros H. unfold getitem. rewrite H. reflexivity. Qed.

Lemma getitem_last_ok {A} (xs : list A) (d : A) :
  xs <> [] -> getitem_last xs = Ok (last xs d).
Proof.
  intros Hne. destruct (exists_last Hne) as (l & a & ->).
  unfold getitem_last. rewrite rev_app_distr, last_last. reflexivity.
Qed.

Lemma Sequential_forward_app l1 l2 s :
  Sequential_forward (l1 ++ l2) s
  = (s' <- Sequential_forward l1 s ;; Sequential_forward l2 s').
Proof.
  revert s. induction l1 as [|l l1 IH]; intros s; [ reflexivity | ].
  simpl. destruct (Layer_forward l s) as [s'|e]; simpl; [ apply IH | reflexivity ].
Qed.

Lemma Sequential_forward_copies {A} blk (l : list A) s :
  Layer_forward blk s = Ok s ->
  Sequential_forward (map (fun _ => blk) l) s = Ok s.
Proof.
  intros H. induction l as [|a l IH]; [ reflexivity | ].
  simpl. rewrite H. simpl. exact IH.
Qed.

(** The blocks of a stage that passes the static check can be built, and
    keep the shape of a feature map on [c] channels. *)
Lemma get_block_same cfg i {c} :
  stage_blocks_ok cfg i c = true -> 0 < c ->
  exists bt ms blk,
    nth_error (block_types_of cfg) i = Some bt /\
    nth_error (qkv_multiscales cfg) i = Some ms /\
    get_block bt c c (cfg_attention_head_dim cfg) "rms_norm" "silu" ms = Ok blk /\
    forall b h w, 0 < b -> 0 < h -> 0 < w ->
      Layer_forward blk [b; c; h; w] = Ok [b; c; h; w].
Proof.
  intros Hok Hc. unfold stage_blocks_ok in Hok.
  destruct (nth_error (block_types_of cfg) i) as [bt|]; [ | discriminate ].
  destruct (nth_error (qkv_multiscales cfg) i) as [ms|]; [ | discriminate ].
  exists bt, ms. unfold get_block.
  destruct (String.eqb bt "ResBlock").
  - destruct (ResBlock_same c) as (r & Hr & Hfwd); [ lia | ].
    rewrite Hr. cbn [Py.bind]. eexists. repeat split.
    intros b h w _ Hh Hw. apply Hfwd; assumption.
  - destruct (String.eqb bt "EfficientViTBlock"); [ | discriminate ].
    apply andb_prop in Hok as [Hok Hks]. apply andb_prop in Hok as [Hd Hdc].
    apply Z.ltb_lt in Hd. apply Z.leb_le in Hdc.
    assert (Hodd : Forall (fun k => 0 < k /\ k mod 2 = 1) ms).
    { apply Forall_forall. intros k Hk.
      rewrite forallb_forall in Hks. specialize (Hks k Hk).
      apply andb_prop in Hks as [H1 H2].
      apply Z.ltb_lt in H1. apply Z.eqb_eq in H2. auto. }
    destruct (EfficientViTBlock_same Hd Hdc Hodd) as (e & He & Hfwd).
    rewrite He. cbn [Py.bind]. eexists. repeat split.
    intros b h w Hb Hh Hw. apply Hfwd; assumption.
Qed.

Lemma stages_downsamples_nonneg nb stages : 0 <= stages_downsamples nb stages.
Proof.
  unfold stages_downsamples. induction stages as [|[i [c n]] rest IH].
  - simpl. lia.
  - cbn [map fold_right]. unfold stage_downsamples at 1.
    destruct ((Z.of_nat i <? nb - 1) && (n >? 0)); lia.
Qed.

(** Halving a size that a power of two divides. *)
Lemma halve_divisible {h k} :
  0 <= k -> 0 < h -> h mod 2 ^ (1 + k) = 0 ->
  h mod 2 = 0 /\ 0 < h / 2 /\ (h / 2) mod 2 ^ k = 0 /\
  h / 2 ^ (1 + k) = h / 2 / 2 ^ k.
Proof.
  intros Hk Hh Hmod.
  assert (Hpow : 2 ^ (1 + k) = 2 * 2 ^ k).
  { rewrite Z.pow_add_r by lia. reflexivity. }
  assert (Hpos : 0 < 2 ^ k) by (apply Z.pow_pos_nonneg; lia).
  rewrite Hpow in *.
  apply Z.mod_divide in Hmod; [ | lia ]. destruct Hmod as [q Hq].
  assert (Hh2 : h / 2 = q * 2 ^ k).
  { subst h. replace (q * (2 * 2 ^ k)) with (q * 2 ^ k * 2) by ring.
    apply Z_div_mult. lia. }
  assert (Hqpos : 0 < q) by nia.
  split; [ | split; [ | split ] ].
  - subst h. replace (q * (2 * 2 ^ k)) with (q * 2 ^ k * 2) by ring.
    apply Z_mod_mult.
  - rewrite Hh2. apply Z.mul_pos_pos; assumption.
  - rewrite Hh2. apply Z_mod_mult.
  - rewrite Z.div_div by lia. reflexivity.
Qed.

Lemma size_divided_positive {h k} :
  0 <= k -> 0 < h -> h mod 2 ^ k = 0 -> 0 < h / 2 ^ k.
Proof.
  intros Hk Hh Hmod.
  assert (Hpos : 0 < 2 ^ k) by (apply Z.pow_pos_nonneg; lia).
  apply Z.mod_divide in Hmod; [ | lia ]. destruct Hmod as [q Hq].
  subst h. rewrite Z_div_mult by lia. nia.
Qed.

Lemma stages_downsamples_cons nb stage rest :
  stages_downsamples nb (stage :: rest)
  = stage_downsamples nb stage + stages_downsamples nb rest.
Proof. reflexivity. Qed.

Lemma stage_layers_built cfg i {c} n {bt ms blk} :
  nth_error (block_types_of cfg) i = Some bt ->
  nth_error (qkv_multiscales cfg) i = Some ms ->
  get_block bt c c (cfg_attention_head_dim cfg) "rms_norm" "silu" ms = Ok blk ->
  comprehension
    (fun _ : nat =>
       bt <- getitem (block_types_of cfg) i ;;
       ms <- getitem (qkv_multiscales cfg) i ;;
       get_block bt c c (cfg_attention_head_dim cfg) "rms_norm" "silu" ms)
    (range n)
  = Ok (map (fun _ => blk) (range n)).
Proof.
  intros Hbt Hms Hblk. apply comprehension_Ok. intros k _. cbv beta.
  rewrite (getitem_Some Hbt). cbn [Py.bind].
  rewrite (getitem_Some Hms). cbn [Py.bind]. exact Hblk.
Qed.

(** The stages of a configuration that passes the static check are built,
    and take a feature map on [cur] channels to one on the last channel
    count, halving the resolution once per down-sampling block. *)
Lemma stages_forward cfg b stages :
  0 < b ->
  forall cur h w,
    stages_ok cfg cur stages = true ->
    0 < cur -> 0 < h -> 0 < w ->
    h mod 2 ^ stages_downsamples
               (Z.of_nat (length (block_out_channels cfg))) stages = 0 ->
    w mod 2 ^ stages_downsamples
               (Z.of_nat (length (block_out_channels cfg))) stages = 0 ->
    0 < last (block_out_channels cfg) 0 /\
    exists blocks,
      comprehension
        (Encoder_stage cfg (block_types_of cfg)
           (Z.of_nat (length (block_out_channels cfg))))
        stages
      = Ok blocks /\
      down_blocks_forward blocks [b; cur; h; w]
      = Ok [b; last (block_out_channels cfg) 0;
            h / 2 ^ stages_downsamples
                      (Z.of_nat (length (block_out_channels cfg))) stages;
            w / 2 ^ stages_downsamples
                      (Z.of_nat (length (block_out_channels cfg))) stages].
Proof.
  intros Hb.
  set (nb := Z.of_nat (length (block_out_channels cfg))).
  induction stages as [|[i [c n]] rest IH]; intros cur h w Hok Hcur Hh Hw Hdh Hdw.
  - cbn [stages_ok] in Hok. apply Z.eqb_eq in Hok.
    split; [ rewrite <- Hok; exact Hcur | ].
    exists []. split; [ reflexivity | ].
    unfold stages_downsamples. cbn [map fold_right down_blocks_forward].
    rewrite Z.pow_0_r, !Z.div_1_r, Hok. reflexivity.
  - rewrite stages_downsamples_cons in *.
    pose proof (stages_downsamples_nonneg nb rest) as Hnonneg.
    cbn [stages_ok] in Hok. cbn [comprehension].
    unfold Encoder_stage at 1. unfold stage_downsamples in *.
    destruct (n >? 0) eqn:En.
    + apply andb_prop in Hok as [Hok Hrest].
      apply andb_prop in Hok as [Hc Hblocks].
      apply Z.eqb_eq in Hc. subst c.
      destruct (get_block_same cfg i Hblocks Hcur)
        as (bt & ms & blk & Hbt & Hms & Hblk & Hfwd).
      rewrite (stage_layers_built cfg i n Hbt Hms Hblk). cbn [Py.bind].
      fold nb in Hrest |- *.
      destruct (Z.of_nat i <? nb - 1) eqn:Ei; cbn [andb] in *.
      * destruct (nth_error (block_out_channels cfg) (i + 1)) as [next|] eqn:En1;
          [ | discriminate ].
        apply andb_prop in Hrest as [Hdown Hrest].
        unfold downsample_ok in Hdown.
        apply andb_prop in Hdown as [Hdown Hmod4].
        apply andb_prop in Hdown as [Hnext Hdiv].
        apply Z.ltb_lt in Hnext. apply Z.eqb_eq in Hdiv.
        destruct (halve_divisible Hnonneg Hh Hdh) as (Eh & Hh2 & Hdh2 & Ehq).
        destruct (halve_divisible Hnonneg Hw Hdw) as (Ew & Hw2 & Hdw2 & Ewq).
        destruct (IH next (h / 2) (w / 2) Hrest Hnext Hh2 Hw2 Hdh2 Hdw2)
          as (Hlast & blocks & Hbuilt & Hforward).
        split; [ exact Hlast | ].
        rewrite (getitem_Some En1). cbn [Py.bind].
        rewrite (DCDownBlock2d_init_cases cur next (is_pixel_unshuffle cfg) true
                   Hcur Hnext).
        assert (Hassert :
          is_pixel_unshuffle cfg && negb (next mod 4 =? 0) = false).
        { destruct (is_pixel_unshuffle cfg); [ | reflexivity ].
          rewrite Hmod4. reflexivity. }
        rewrite Hassert. cbn [Py.bind]. rewrite Hbuilt. cbn [Py.bind].
        eexists. split; [ reflexivity | ].
        cbn [down_blocks_forward]. rewrite Sequential_forward_app.
        rewrite (Sequential_forward_copies blk (range n) [b; cur; h; w])
          by (apply Hfwd; assumption).
        cbn [Py.bind Sequential_forward Layer_forward].
        rewrite DCDownBlock2d_forward_halves; try assumption.
        -- cbn [Py.bind]. rewrite Hforward, Ehq, Ewq. reflexivity.
        -- intros _. exact Hdiv.
        -- intros Hpu. rewrite Hpu in Hmod4. apply Z.eqb_eq. exact Hmod4.
      * rewrite Z.add_0_l in *.
        destruct (IH cur h w Hrest Hcur Hh Hw Hdh Hdw)
          as (Hlast & blocks & Hbuilt & Hforward).
        split; [ exact Hlast | ].
        rewrite Hbuilt. cbn [Py.bind].
        eexists. split; [ reflexivity | ].
        cbn [down_blocks_forward].
        rewrite (Sequential_forward_copies blk (range n) [b; cur; h; w])
          by (apply Hfwd; assumption).
        cbn [Py.bind]. exact Hforward.
    + rewrite andb_false_r in *. rewrite Z.add_0_l in *.
      assert (Hrange : range n = []).
      { unfold range. rewrite Z.gtb_ltb in En. apply Z.ltb_ge in En.
        replace (Z.to_nat n) with 0%nat by lia. reflexivity. }
      rewrite Hrange. cbn [comprehension Py.bind].
      destruct (IH cur h w Hok Hcur Hh Hw Hdh Hdw)
        as (Hlast & blocks & Hbuilt & Hforward).
      split; [ exact Hlast | ].
      rewrite Hbuilt. cbn [Py.bind].
      eexists. split; [ reflexivity | ].
      cbn [down_blocks_forward Sequential_forward Py.bind]. exact Hforward.
Qed.

(** When every stage has a layer, every stage but the last is followed by
    a down-sampling block. *)
Lemma stages_downsamples_all_layers nb (l : list (Z * Z)) k :
  Z.of_nat k + Z.of_nat (length l) = nb ->
  Forall (fun stage => 0 < snd stage) l ->
  stages_downsamples nb (enumerate_from k l)
  = Z.max 0 (Z.of_nat (length l) - 1).
Proof.
  revert k. induction l as [|[c n] l IH]; intros k Hlen Hall.
  - reflexivity.
  - cbn [enumerate_from]. rewrite stages_downsamples_cons.
    apply Forall_cons_iff in Hall as [Hn Hall']. cbn [snd] in Hn.
    rewrite (IH (S k)); [ | cbn [length] in Hlen; lia | exact Hall' ].
    unfold stage_downsamples.
    replace (n >? 0) with true by (symmetry; rewrite Z.gtb_ltb; apply Z.ltb_lt; lia).
    rewrite andb_true_r. cbn [length] in *.
    destruct (Z.ltb_spec (Z.of_nat k) (nb - 1)); lia.
Qed.

(** The input projection of a configuration that passes the static check. *)
Lemma conv_in_forward cfg first {c0} b {h w} :
  0 < in_channels cfg -> 0 < c0 ->
  (first >? 0) || negb (is_pixel_unshuffle cfg) || (c0 mod 4 =? 0) = true ->
  nth_error (block_out_channels cfg) (if first >? 0 then 0 else 1)%nat
  = Some c0 ->
  0 < b -> 0 < h -> 0 < w ->
  h mod 2 ^ (if first >? 0 then 0 else 1) = 0 ->
  w mod 2 ^ (if first >? 0 then 0 else 1) = 0 ->
  exists conv_in,
    (if first >? 0 then
       c0 <- getitem (block_out_channels cfg) 0 ;;
       c <- Conv2d_init (in_channels cfg) c0 3 1 1 1 true ;;
       Ok (LConv2d c)
     else
       c1 <- getitem (block_out_channels cfg) 1 ;;
       d <- DCDownBlock2d_init (in_channels cfg) c1
              (is_pixel_unshuffle cfg) false ;;
       Ok (LDCDownBlock2d d))
    = Ok conv_in /\
    Layer_forward conv_in [b; in_channels cfg; h; w]
    = Ok [b; c0; h / 2 ^ (if first >? 0 then 0 else 1);
          w / 2 ^ (if first >? 0 then 0 else 1)].
Proof.
  intros Hin Hc0 Hmode Hnth Hb Hh Hw Hdh Hdw.
  destruct (first >? 0).
  - rewrite (getitem_Some Hnth). cbn [Py.bind].
    rewrite Conv2d_init_plain by lia. cbn [Py.bind].
    eexists. split; [ reflexivity | ].
    cbn [Layer_forward].
    rewrite (Conv2d_forward_same _ _ 3 1) by lia.
    rewrite Z.pow_0_r, !Z.div_1_r. reflexivity.
  - rewrite (getitem_Some Hnth). cbn [Py.bind].
    rewrite (DCDownBlock2d_init_cases _ _ (is_pixel_unshuffle cfg) false
               Hin Hc0).
    cbn [orb] in Hmode.
    assert (Hassert :
      is_pixel_unshuffle cfg && negb (c0 mod 4 =? 0) = false).
    { destruct (is_pixel_unshuffle cfg); [ | reflexivity ].
      cbn [negb orb] in Hmode. rewrite Hmode. reflexivity. }
    rewrite Hassert. cbn [Py.bind].
    eexists. split; [ reflexivity | ].
    cbn [Layer_forward]. rewrite Z.pow_1_r in *.
    apply DCDownBlock2d_forward_halves; try assumption.
    + discriminate.
    + intros Hpu. rewrite Hpu in Hmode. cbn [negb orb] in Hmode.
      apply Z.eqb_eq. exact Hmode.
Qed.

(** The output projection and its averaged shortcut. *)
Lemma conv_out_forward cfg b {h w} :
  0 < last (block_out_channels cfg) 0 -> 0 < latent_channels cfg ->
  negb (out_shortcut cfg)
  || (last (block_out_channels cfg) 0 mod latent_channels cfg =? 0) = true ->
  0 < h -> 0 < w ->
  (if out_shortcut cfg then
     x <- unflatten_1 [b; last (block_out_channels cfg) 0; h; w]
            (last (block_out_channels cfg) 0 / latent_channels cfg) ;;
     x <- mean_2 x ;;
     c <- Conv2d_forward
            (mkConv2d (last (block_out_channels cfg) 0) (latent_channels cfg)
               3 1 1 1 true)
            [b; last (block_out_channels cfg) 0; h; w] ;;
     broadcast c x
   else
     Conv2d_forward
       (mkConv2d (last (block_out_channels cfg) 0) (latent_channels cfg)
          3 1 1 1 true)
       [b; last (block_out_channels cfg) 0; h; w])
  = Ok [b; latent_channels cfg; h; w].
Proof.
  intros Hlast Hlat Hout Hh Hw.
  set (c := last (block_out_channels cfg) 0) in *.
  set (l := latent_channels cfg) in *.
  destruct (out_shortcut cfg); cbn [negb orb] in Hout.
  - apply Z.eqb_eq in Hout.
    assert (Hq : c = l * (c / l)) by (apply Z.div_exact; lia).
    assert (Hqpos : 0 < c / l).
    { apply Z.div_str_pos. split; [ lia | ].
      apply Z.divide_pos_le; [ lia | ].
      apply Z.mod_divide; [ lia | exact Hout ]. }
    set (g := c / l) in *.
    assert (Hmodg : c mod g = 0) by (rewrite Hq; apply Z_mod_mult).
    assert (Hdivg : c / g = l) by (rewrite Hq; apply Z_div_mult; lia).
    unfold unflatten_1. rewrite Hmodg, Hdivg.
    ztest. cbn [orb negb Py.bind mean_2].
    rewrite (Conv2d_forward_same _ _ 3 1) by lia. cbn [Py.bind].
    apply broadcast_same.
  - apply (Conv2d_forward_same _ _ 3 1); lia.
Qed.

(** Dividing, in two steps, a size that a power of two divides. *)
Lemma split_divisible {h} e k :
  0 <= e -> 0 <= k -> 0 < h -> h mod 2 ^ (e + k) = 0 ->
  h mod 2 ^ e = 0 /\ 0 < h / 2 ^ e /\ (h / 2 ^ e) mod 2 ^ k = 0 /\
  h / 2 ^ (e + k) = h / 2 ^ e / 2 ^ k.
Proof.
  intros He Hk Hh Hmod.
  assert (Hpow : 2 ^ (e + k) = 2 ^ e * 2 ^ k) by (apply Z.pow_add_r; lia).
  assert (Hpe : 0 < 2 ^ e) by (apply Z.pow_pos_nonneg; lia).
  assert (Hpk : 0 < 2 ^ k) by (apply Z.pow_pos_nonneg; lia).
  rewrite Hpow in *.
  apply Z.mod_divide in Hmod; [ | lia ]. destruct Hmod as [q Hq].
  assert (Hhe : h / 2 ^ e = q * 2 ^ k).
  { subst h. replace (q * (2 ^ e * 2 ^ k)) with (q * 2 ^ k * 2 ^ e) by ring.
    apply Z_div_mult. lia. }
  assert (Hqpos : 0 < q) by nia.
  split; [ | split; [ | split ] ].
  - subst h. replace (q * (2 ^ e * 2 ^ k)) with (q * 2 ^ k * 2 ^ e) by ring.
    apply Z_mod_mult.
  - rewrite Hhe. apply Z.mul_pos_pos; assumption.
  - rewrite Hhe. apply Z_mod_mult.
  - rewrite Z.div_div by lia. reflexivity.
Qed.

(** C4, as the code has it.  Let [D] be the number of down-sampling blocks
    the constructor builds: one after every stage but the last that has a
    layer, and the input projection when the first stage has none.  For a
    configuration whose channel counts fit together ([config_ok]) and an
    input of shape [(b, in_channels, h, w)] with [h] and [w] divisible by
    [2^D], the encoder is built and [Encoder.forward] returns a tensor of
    shape [(b, latent_channels, h / 2^D, w / 2^D)].  When every stage has a
    layer, [D] is the number of stages minus one. *)
Theorem Encoder_forward_shape :
  forall (cfg : EncoderConfig) (b h w : Z),
    config_ok cfg = true ->
    0 < b -> 0 < h -> 0 < w ->
    h mod 2 ^ num_downsamples cfg = 0 ->
    w mod 2 ^ num_downsamples cfg = 0 ->
    (exists enc,
       Encoder_init cfg = Ok enc /\
       Encoder_forward enc [b; in_channels cfg; h; w]
       = Ok [b; latent_channels cfg;
             h / 2 ^ num_downsamples cfg; w / 2 ^ num_downsamples cfg]) /\
    (length (layers_per_block cfg) = length (block_out_channels cfg) ->
     Forall (fun n => 0 < n) (layers_per_block cfg) ->
     num_downsamples cfg = Z.of_nat (length (block_out_channels cfg)) - 1).
Proof.
  intros cfg b h w Hok Hb Hh Hw Hdh Hdw.
  unfold config_ok in Hok.
  apply andb_prop in Hok as [Hok Hmatch].
  apply andb_prop in Hok as [Hin Hlat].
  apply Z.ltb_lt in Hin. apply Z.ltb_lt in Hlat.
  destruct (layers_per_block cfg) as [|first lpb'] eqn:Elpb;
    [ discriminate | ].
  destruct (nth_error (block_out_channels cfg)
              (if first >? 0 then 0 else 1)%nat) as [c0|] eqn:Ec0;
    [ | discriminate ].
  apply andb_prop in Hmatch as [Hmatch Hout].
  apply andb_prop in Hmatch as [Hmatch Hstages].
  apply andb_prop in Hmatch as [Hc0 Hmode].
  apply Z.ltb_lt in Hc0.
  assert (Hne : block_out_channels cfg <> []).
  { intros E. rewrite E in Ec0. destruct (first >? 0); discriminate. }
  unfold num_downsamples in *. rewrite Elpb in *. cbn [nth] in *.
  set (nb := Z.of_nat (length (block_out_channels cfg))) in *.
  set (stages :=
         enumerate (combine (block_out_channels cfg) (first :: lpb'))) in *.
  pose proof (stages_downsamples_nonneg nb stages) as Hnonneg.
  split.
  - assert (He : 0 <= (if first >? 0 then 0 else 1))
      by (destruct (first >? 0); lia).
    destruct (split_divisible _ _ He Hnonneg Hh Hdh) as (Eh & Hh' & Hdh' & Ehq).
    destruct (split_divisible _ _ He Hnonneg Hw Hdw) as (Ew & Hw' & Hdw' & Ewq).
    destruct (conv_in_forward cfg first b Hin Hc0 Hmode Ec0 Hb Hh Hw Eh Ew)
      as (conv_in & Hci & Hcf).
    destruct (stages_forward cfg b stages Hb c0 _ _ Hstages Hc0 Hh' Hw'
                Hdh' Hdw') as (Hlast & blocks & Hbuilt & Hfwd).
    fold nb in Hbuilt, Hfwd.
    pose proof (conv_out_forward cfg b Hlast Hlat Hout
                  (size_divided_positive Hnonneg Hh' Hdh')
                  (size_divided_positive Hnonneg Hw' Hdw')) as Hco.
    rewrite Ehq, Ewq.
    unfold Encoder_init. rewrite Elpb.
    change (getitem (first :: lpb') 0) with (Ok first). cbn [Py.bind].
    rewrite Hci. cbn [Py.bind].
    fold nb. fold stages. rewrite Hbuilt. cbn [Py.bind].
    rewrite (getitem_last_ok _ 0 Hne). cbn [Py.bind].
    rewrite Conv2d_init_plain by lia. cbn [Py.bind].
    unfold floordiv.
    rewrite (proj2 (Z.eqb_neq (latent_channels cfg) 0)) by lia.
    destruct (out_shortcut cfg); cbn [Py.bind];
      (eexists; split; [ reflexivity | ]);
      unfold Encoder_forward;
      cbn [enc_conv_in enc_down_blocks enc_conv_out enc_out_shortcut
           enc_out_shortcut_average_group_size];
      rewrite Hcf; cbn [Py.bind]; rewrite Hfwd; cbn [Py.bind]; exact Hco.
  - intros Hlen Hall.
    apply Forall_cons_iff in Hall as [Hfirst Hall].
    replace (first >? 0) with true
      by (symmetry; rewrite Z.gtb_ltb; apply Z.ltb_lt; exact Hfirst).
    rewrite Z.add_0_l. unfold stages, enumerate.
    rewrite (stages_downsamples_all_layers nb _ 0).
    + rewrite length_combine, <- Hlen, Nat.min_id.
      unfold nb. rewrite <- Hlen. cbn [length]. lia.
    + rewrite length_combine, <- Hlen, Nat.min_id.
      unfold nb. rewrite <- Hlen. lia.
    + apply Forall_forall. intros [c n] Hcn. cbn [snd].
      apply in_combine_r in Hcn.
      destruct Hcn as [<-|Hcn]; [ exact Hfirst | ].
      rewrite Forall_forall in Hall. apply Hall. exact Hcn.
Qed.

Lemma Encoder_forward_shape_witness :
  exists enc,
    Encoder_init Samples.encoder_8_16 = Ok enc /\
    Encoder_forward enc [1; 3; 16; 16] = Ok [1; 4; 8; 8].
Proof.
  apply (proj1 (Encoder_forward_shape Samples.encoder_8_16 1 16 16
                  eq_refl eq_refl eq_refl eq_refl eq_refl eq_refl)).
Defined.

(** The published six-stage configuration, with attention in the last three
    stages, compresses the resolution by [2^5 = 32]. *)
Example Encoder_f32_shape :
  exists enc,
    Encoder_init Samples.encoder_f32 = Ok enc /\
    Encoder_forward enc [2; 3; 512; 512] = Ok [2; 32; 16; 16].
Proof.
  eexists. split; vm_compute; reflexivity.
Qed.

(** C4, as stated, fails: with three stages of which the middle one has no
    layer, only one down-sampling block is built, and a [4 x 4] input comes
    out [2 x 2], not [1 x 1]. *)
Lemma Encoder_zero_layer_stage_counterexample :
  length (block_out_channels Samples.encoder_8_8_8) = 3%nat /\
  4 mod 2 ^ (3 - 1) = 0 /\
  exists enc,
    Encoder_init Samples.encoder_8_8_8 = Ok enc /\
    Encoder_forward enc [1; 3; 4; 4] = Ok [1; 8; 2; 2] /\
    [1; 8; 2; 2] <> [1; 8; 4 / 2 ^ (3 - 1); 4 / 2 ^ (3 - 1)].
Proof.
  split; [ reflexivity | split; [ reflexivity | ] ].
  eexists. split; [ vm_compute; reflexivity | ].
  split; [ vm_compute; reflexivity | ].
  vm_compute. intros H. discriminate H.
Qed.

End EncoderFacts.

(* ------------------------------------------------------------------ *)
(** ** [DCUpBlock2d] and [Decoder]: the shape contract *)

Module DecoderFacts.

Import Layers Shape Decoding SelectorFacts BlockFacts ShapeFacts EncoderFacts.
Local Open Scope Z_scope.

Local Arguments Z.mul : simpl never.
Local Arguments Z.add : simpl never.
Local Arguments Z.sub : simpl never.
Local Arguments Z.div : simpl never.
Local Arguments Z.modulo : simpl never.
Local Arguments Z.pow : simpl never.
Local Arguments Z.eqb : simpl never.
Local Arguments Z.ltb : simpl never.
Local Arguments Z.leb : simpl never.
Local Arguments Z.gtb : simpl never.
Local Arguments Z.of_nat : simpl never.
Local Arguments Z.to_nat : simpl never.

(** A residual block with any activation of the table. *)
Lemma ResBlock_init_recognized c af op :
  0 <= c ->
  dict_get ACTIVATION_FUNCTIONS (lower af) = Some op ->
  ResBlock_init c c "rms_norm" (Some af)
  = Ok (mkResBlock "rms_norm" op
          (mkConv2d c c 3 1 1 1 true) (mkConv2d c c 3 1 1 1 false)
          (NRMSNorm
             (mkRMSNorm c default_norm_eps true
                (Some (repeat 1%R (Z.to_nat c)))
                (Some (repeat 0%R (Z.to_nat c)))))).
Proof.
  intros Hc Hop. unfold ResBlock_init, get_activation.
  rewrite Hop. cbn [Py.bind].
  rewrite !Conv2d_init_plain by lia. cbn [Py.bind].
  unfold get_normalization. simpl String.eqb. cbv iota.
  rewrite RMSNorm_init_affine by exact Hc. reflexivity.
Qed.

Lemma ResBlock_forward_any_activation op c b h w :
  0 <= c -> 0 < h -> 0 < w ->
  ResBlock_forward
    (mkResBlock "rms_norm" op
       (mkConv2d c c 3 1 1 1 true) (mkConv2d c c 3 1 1 1 false)
       (NRMSNorm
          (mkRMSNorm c default_norm_eps true
             (Some (repeat 1%R (Z.to_nat c)))
             (Some (repeat 0%R (Z.to_nat c))))))
    [b; c; h; w]
  = Ok [b; c; h; w].
Proof.
  intros Hc Hh Hw. unfold ResBlock_forward.
  cbn [res_conv1 res_conv2 res_norm res_norm_type].
  rewrite (Conv2d_forward_same c c 3 1) by lia. cbn [Py.bind].
  rewrite (Conv2d_forward_same c c 3 1) by lia. cbn [Py.bind].
  simpl String.eqb. cbv iota.
  cbn [movedim_1_last app Py.bind Normalization_forward].
  rewrite RMSNorm_forward_channels_last by exact Hc.
  cbn [Py.bind movedim_last_1 last removelast].
  apply broadcast_same.
Qed.

(** The block [DCUpBlock2d.__init__] builds doubles the resolution, when
    its interpolation mode is one [F.interpolate] has for a feature map. *)
Lemma DCUpBlock2d_forward_doubles cin cout (interp sc : bool) mode b h w :
  0 < cin -> 0 < cout ->
  (sc = true -> (cout * 4) mod cin = 0) ->
  (interp = true -> existsb (String.eqb mode) interpolate_modes = true) ->
  0 < h -> 0 < w ->
  DCUpBlock2d_forward
    (mkDCUpBlock2d interp mode sc 2 (cout * 4 / cin)
       (mkConv2d cin (if negb interp then cout * 4 else cout) 3 1 1 1 true))
    [b; cin; h; w]
  = Ok [b; cout; h * 2; w * 2].
Proof.
  intros Hi Ho Hsc Hmode Hh Hw. unfold DCUpBlock2d_forward.
  cbn [up_interpolate up_interpolation_mode up_factor up_conv up_shortcut
       up_repeats].
  assert (Hx :
    (if interp then
       x <- interpolate [b; cin; h; w] 2 mode ;;
       Conv2d_forward
         (mkConv2d cin (if negb interp then cout * 4 else cout) 3 1 1 1 true) x
     else
       x <- Conv2d_forward
              (mkConv2d cin (if negb interp then cout * 4 else cout) 3 1 1 1
                 true) [b; cin; h; w] ;;
       pixel_shuffle x 2)
    = Ok [b; cout; h * 2; w * 2]).
  { destruct interp; cbn [negb].
    - unfold interpolate. rewrite (Hmode eq_refl). cbn [Py.bind].
      apply (Conv2d_forward_same cin cout 3 1); lia.
    - rewrite (Conv2d_forward_same cin (cout * 4) 3 1) by lia.
      cbn [Py.bind]. unfold pixel_shuffle.
      change (2 * 2) with 4. rewrite Z_mod_mult, Z_div_mult by lia.
      ztest. reflexivity. }
  rewrite Hx. cbn [Py.bind].
  destruct sc; [ | reflexivity ].
  specialize (Hsc eq_refl).
  assert (Hq : cout * 4 = cin * (cout * 4 / cin))
    by (apply Z.div_exact; lia).
  assert (Hqpos : 0 < cout * 4 / cin).
  { apply Z.div_str_pos. split; [ lia | ].
    apply Z.divide_pos_le; [ lia | ].
    apply Z.mod_divide; [ lia | exact Hsc ]. }
  unfold repeat_interleave_1. rewrite <- Hq.
  ztest. cbn [Py.bind]. unfold pixel_shuffle.
  change (2 * 2) with 4. rewrite Z_mod_mult, Z_div_mult by lia.
  ztest. cbn [orb negb Py.bind]. apply broadcast_same.
Qed.

(** With any other mode the interpolation raises, first thing in the
    forward pass. *)
Lemma DCUpBlock2d_forward_unknown_mode u b c h w :
  up_interpolate u = true ->
  existsb (String.eqb (up_interpolation_mode u)) interpolate_modes = false ->
  DCUpBlock2d_forward u [b; c; h; w] = Raise NotImplementedError.
Proof.
  intros Hi Hm. unfold DCUpBlock2d_forward, interpolate.
  rewrite Hi, Hm. reflexivity.
Qed.

Lemma UpSequential_forward_app l1 l2 s :
  UpSequential_forward (l1 ++ l2) s
  = (s' <- UpSequential_forward l1 s ;; UpSequential_forward l2 s').
Proof.
  revert s. induction l1 as [|l l1 IH]; intros s; [ reflexivity | ].
  simpl. destruct (UpLayer_forward l s) as [s'|e]; simpl;
    [ apply IH | reflexivity ].
Qed.

Lemma UpSequential_forward_copies {A} blk (l : list A) s :
  Layer_forward blk s = Ok s ->
  UpSequential_forward (map UBlock (map (fun _ => blk) l)) s = Ok s.
Proof.
  intros H. induction l as [|a l IH]; [ reflexivity | ].
  simpl. rewrite H. simpl. exact IH.
Qed.

(** The blocks of a decoder stage that passes the static check can be
    built, and keep the shape of a feature map on [c] channels. *)
Lemma dec_get_block_same cfg i {c} :
  dec_stage_blocks_ok cfg i c = true -> 0 < c ->
  exists bt nt af ms blk,
    nth_error (as_tuple (dec_block_type cfg)
                 (length (dec_block_out_channels cfg))) i = Some bt /\
    nth_error (as_tuple (dec_norm_type cfg)
                 (length (dec_block_out_channels cfg))) i = Some nt /\
    nth_error (as_tuple (dec_act_fn cfg)
                 (length (dec_block_out_channels cfg))) i = Some af /\
    nth_error (dec_qkv_multiscales cfg) i = Some ms /\
    get_block bt c c (dec_attention_head_dim cfg) nt af ms = Ok blk /\
    forall b h w, 0 < b -> 0 < h -> 0 < w ->
      Layer_forward blk [b; c; h; w] = Ok [b; c; h; w].
Proof.
  intros Hok Hc. unfold dec_stage_blocks_ok in Hok.
  destruct (nth_error (as_tuple (dec_block_type cfg) _) i) as [bt|];
    [ | discriminate ].
  destruct (nth_error (as_tuple (dec_norm_type cfg) _) i) as [nt|];
    [ | discriminate ].
  destruct (nth_error (as_tuple (dec_act_fn cfg) _) i) as [af|];
    [ | discriminate ].
  destruct (nth_error (dec_qkv_multiscales cfg) i) as [ms|];
    [ | discriminate ].
  apply andb_prop in Hok as [Hnt Hok].
  apply String.eqb_eq in Hnt. subst nt.
  exists bt, "rms_norm"%string, af, ms. unfold get_block.
  destruct (String.eqb bt "ResBlock").
  - destruct (dict_get ACTIVATION_FUNCTIONS (lower af)) as [op|] eqn:Eop;
      [ | discriminate ].
    rewrite (ResBlock_init_recognized c af op) by (lia || exact Eop).
    cbn [Py.bind]. eexists. repeat split.
    intros b h w _ Hh Hw. cbn [Layer_forward].
    apply ResBlock_forward_any_activation; lia.
  - destruct (String.eqb bt "EfficientViTBlock"); [ | discriminate ].
    apply andb_prop in Hok as [Hok Hks]. apply andb_prop in Hok as [Hd Hdc].
    apply Z.ltb_lt in Hd. apply Z.leb_le in Hdc.
    assert (Hodd : Forall (fun k => 0 < k /\ k mod 2 = 1) ms).
    { apply Forall_forall. intros k Hk.
      rewrite forallb_forall in Hks. specialize (Hks k Hk).
      apply andb_prop in Hks as [H1 H2].
      apply Z.ltb_lt in H1. apply Z.eqb_eq in H2. auto. }
    destruct (EfficientViTBlock_same Hd Hdc Hodd) as (e & He & Hfwd).
    rewrite He. cbn [Py.bind]. eexists. repeat split.
    intros b h w Hb Hh Hw. apply Hfwd; assumption.
Qed.

Lemma dec_stage_layers_built cfg i {c} n {bt nt af ms blk} :
  nth_error (as_tuple (dec_block_type cfg)
               (length (dec_block_out_channels cfg))) i = Some bt ->
  nth_error (as_tuple (dec_norm_type cfg)
               (length (dec_block_out_channels cfg))) i = Some nt ->
  nth_error (as_tuple (dec_act_fn cfg)
               (length (dec_block_out_channels cfg))) i = Some af ->
  nth_error (dec_qkv_multiscales cfg) i = Some ms ->
  get_block bt c c (dec_attention_head_dim cfg) nt af ms = Ok blk ->
  comprehension
    (fun _ : nat =>
       bt <- getitem (as_tuple (dec_block_type cfg)
                        (length (dec_block_out_channels cfg))) i ;;
       nt <- getitem (as_tuple (dec_norm_type cfg)
                        (length (dec_block_out_channels cfg))) i ;;
       af <- getitem (as_tuple (dec_act_fn cfg)
                        (length (dec_block_out_channels cfg))) i ;;
       ms <- getitem (dec_qkv_multiscales cfg) i ;;
       get_block bt c c (dec_attention_head_dim cfg) nt af ms)
    (range n)
  = Ok (map (fun _ => blk) (range n)).
Proof.
  intros Hbt Hnt Haf Hms Hblk. apply comprehension_Ok. intros k _. cbv beta.
  rewrite (getitem_Some Hbt). cbn [Py.bind].
  rewrite (getitem_Some Hnt). cbn [Py.bind].
  rewrite (getitem_Some Haf). cbn [Py.bind].
  rewrite (getitem_Some Hms). cbn [Py.bind]. exact Hblk.
Qed.

Lemma range_nonpositive n : (n >? 0) = false -> range n = [].
Proof.
  intros En. unfold range. rewrite Z.gtb_ltb in En. apply Z.ltb_ge in En.
  replace (Z.to_nat n) with 0%nat by lia. reflexivity.
Qed.

(** The stages of a decoder configuration that passes the static check are
    built, and take a feature map on [cur] channels to one on [target]
    channels, doubling the resolution once per up-sampling block. *)
Lemma dec_stages_forward cfg target b stages :
  0 < b ->
  forall cur h w,
    dec_stages_ok cfg target cur stages = true ->
    0 < cur -> 0 < h -> 0 < w ->
    exists blocks,
      comprehension (Decoder_stage cfg) stages = Ok blocks /\
      up_blocks_forward blocks [b; cur; h; w]
      = Ok [b; target;
            h * 2 ^ stages_downsamples
                      (Z.of_nat (length (dec_block_out_channels cfg))) stages;
            w * 2 ^ stages_downsamples
                      (Z.of_nat (length (dec_block_out_channels cfg))) stages].
Proof.
  intros Hb.
  set (nb := Z.of_nat (length (dec_block_out_channels cfg))).
  induction stages as [|[i [c n]] rest IH]; intros cur h w Hok Hcur Hh Hw.
  - cbn [dec_stages_ok] in Hok. apply Z.eqb_eq in Hok.
    exists []. split; [ reflexivity | ].
    unfold stages_downsamples. cbn [map fold_right up_blocks_forward].
    rewrite Z.pow_0_r, !Z.mul_1_r, Hok. reflexivity.
  - rewrite stages_downsamples_cons.
    pose proof (stages_downsamples_nonneg nb rest) as Hnonneg.
    cbn [dec_stages_ok] in Hok. cbn [comprehension].
    unfold Decoder_stage at 1. unfold stage_downsamples.
    fold nb in Hok |- *.
    destruct (n >? 0) eqn:En.
    + apply andb_prop in Hok as [Hok Hrest].
      apply andb_prop in Hok as [Hup Hblocks].
      destruct (Z.of_nat i <? nb - 1) eqn:Ei; cbn [andb].
      * destruct (nth_error (dec_block_out_channels cfg) (i + 1))
          as [next|] eqn:En1; [ | discriminate ].
        apply andb_prop in Hup as [Hc Hup]. apply Z.eqb_eq in Hc. subst next.
        unfold upsample_ok in Hup. apply andb_prop in Hup as [Hcpos Hdiv].
        apply Z.ltb_lt in Hcpos. apply Z.eqb_eq in Hdiv.
        destruct (dec_get_block_same cfg i Hblocks Hcpos)
          as (bt & nt & af & ms & blk & Hbt & Hnt & Haf & Hms & Hblk & Hfwd).
        rewrite (getitem_Some En1). cbn [Py.bind].
        rewrite (DCUpBlock2d_init_cases cur c (is_interpolate cfg) true
                   default_interpolation_mode Hcur Hcpos).
        cbn [Py.bind].
        rewrite (dec_stage_layers_built cfg i n Hbt Hnt Haf Hms Hblk).
        cbn [Py.bind].
        assert (Hh2 : 0 < h * 2) by lia. assert (Hw2 : 0 < w * 2) by lia.
        destruct (IH c (h * 2) (w * 2) Hrest Hcpos Hh2 Hw2)
          as (blocks & Hbuilt & Hforward).
        rewrite Hbuilt. cbn [Py.bind].
        eexists. split; [ reflexivity | ].
        cbn [up_blocks_forward app UpSequential_forward UpLayer_forward].
        rewrite DCUpBlock2d_forward_doubles; try assumption;
          [ | intros _; exact Hdiv | intros _; reflexivity ].
        cbn [Py.bind].
        rewrite (UpSequential_forward_copies blk (range n) [b; c; h * 2; w * 2])
          by (apply Hfwd; assumption).
        cbn [Py.bind]. rewrite Hforward.
        rewrite Z.pow_add_r, Z.pow_1_r by lia.
        rewrite !Z.mul_assoc. reflexivity.
      * apply Z.eqb_eq in Hup. subst c.
        destruct (dec_get_block_same cfg i Hblocks Hcur)
          as (bt & nt & af & ms & blk & Hbt & Hnt & Haf & Hms & Hblk & Hfwd).
        cbn [Py.bind].
        rewrite (dec_stage_layers_built cfg i n Hbt Hnt Haf Hms Hblk).
        cbn [Py.bind].
        destruct (IH cur h w Hrest Hcur Hh Hw) as (blocks & Hbuilt & Hforward).
        rewrite Hbuilt. cbn [Py.bind].
        eexists. split; [ reflexivity | ].
        cbn [up_blocks_forward app].
        rewrite (UpSequential_forward_copies blk (range n) [b; cur; h; w])
          by (apply Hfwd; assumption).
        cbn [Py.bind]. rewrite Z.add_0_l. exact Hforward.
    + rewrite andb_false_r. cbn [Py.bind].
      rewrite (range_nonpositive n En). cbn [comprehension Py.bind map app].
      destruct (IH cur h w Hok Hcur Hh Hw) as (blocks & Hbuilt & Hforward).
      rewrite Hbuilt. cbn [Py.bind].
      eexists. split; [ reflexivity | ].
      cbn [up_blocks_forward UpSequential_forward Py.bind].
      rewrite Z.add_0_l. exact Hforward.
Qed.

Lemma stages_downsamples_app nb l1 l2 :
  stages_downsamples nb (l1 ++ l2)
  = stages_downsamples nb l1 + stages_downsamples nb l2.
Proof.
  unfold stages_downsamples. induction l1 as [|a l1 IH]; [ reflexivity | ].
  cbn [app map fold_right]. rewrite IH. lia.
Qed.

(** The stages are counted alike in either order. *)
Lemma stages_downsamples_rev nb l :
  stages_downsamples nb (rev l) = stages_downsamples nb l.
Proof.
  induction l as [|a l IH]; [ reflexivity | ].
  cbn [rev]. rewrite stages_downsamples_app, IH.
  rewrite (stages_downsamples_cons nb a l).
  unfold stages_downsamples at 2. cbn [map fold_right]. lia.
Qed.

(** The input projection and its repeated shortcut. *)
Lemma dec_conv_in_forward cfg b {h w} :
  0 < last (dec_block_out_channels cfg) 0 -> 0 < dec_latent_channels cfg ->
  negb (in_shortcut cfg)
  || (last (dec_block_out_channels cfg) 0 mod dec_latent_channels cfg =? 0)
  = true ->
  0 < h -> 0 < w ->
  (if in_shortcut cfg then
     x <- repeat_interleave_1 [b; dec_latent_channels cfg; h; w]
            (last (dec_block_out_channels cfg) 0 / dec_latent_channels cfg) ;;
     c <- Conv2d_forward
            (mkConv2d (dec_latent_channels cfg)
               (last (dec_block_out_channels cfg) 0) 3 1 1 1 true)
            [b; dec_latent_channels cfg; h; w] ;;
     broadcast c x
   else
     Conv2d_forward
       (mkConv2d (dec_latent_channels cfg)
          (last (dec_block_out_channels cfg) 0) 3 1 1 1 true)
       [b; dec_latent_channels cfg; h; w])
  = Ok [b; last (dec_block_out_channels cfg) 0; h; w].
Proof.
  intros Hlast Hlat Hin Hh Hw.
  set (c := last (dec_block_out_channels cfg) 0) in *.
  set (l := dec_latent_channels cfg) in *.
  destruct (in_shortcut cfg); cbn [negb orb] in Hin.
  - apply Z.eqb_eq in Hin.
    assert (Hq : c = l * (c / l)) by (apply Z.div_exact; lia).
    assert (Hqpos : 0 <= c / l) by (apply Z.div_pos; lia).
    unfold repeat_interleave_1. rewrite <- Hq. ztest. cbn [Py.bind].
    rewrite (Conv2d_forward_same _ _ 3 1) by lia. cbn [Py.bind].
    apply broadcast_same.
  - apply (Conv2d_forward_same _ _ 3 1); lia.
Qed.

(** The output normalization, on the channel axis moved last and back. *)
Lemma dec_norm_out_forward c b h w :
  0 <= c ->
  (x <- movedim_1_last [b; c; h; w] ;;
   x <- RMSNorm_forward
          (mkRMSNorm c default_norm_eps true (Some (repeat 1%R (Z.to_nat c)))
             (Some (repeat 0%R (Z.to_nat c)))) x ;;
   movedim_last_1 x)
  = Ok [b; c; h; w].
Proof.
  intros Hc. cbn [movedim_1_last app Py.bind].
  rewrite RMSNorm_forward_channels_last by exact Hc.
  reflexivity.
Qed.

(** The decoder of a configuration that passes the static check is built,
    and maps a latent of shape [(b, latent_channels, h, w)] to a sample of
    shape [(b, in_channels, h * 2^U, w * 2^U)], where [U] counts the
    up-sampling blocks the constructor builds. *)
Lemma Decoder_built cfg b h w :
  decoder_config_ok cfg = true ->
  0 < b -> 0 < h -> 0 < w ->
  exists dec,
    Decoder_init cfg = Ok dec /\
    Decoder_forward dec [b; dec_latent_channels cfg; h; w]
    = Ok [b; dec_in_channels cfg;
          h * 2 ^ num_upsamples cfg; w * 2 ^ num_upsamples cfg].
Proof.
  intros Hok Hb Hh Hw. unfold decoder_config_ok in Hok.
  apply andb_prop in Hok as [Hok Hmatch].
  apply andb_prop in Hok as [Hok Hshort].
  apply andb_prop in Hok as [Hok Hlast].
  apply andb_prop in Hok as [Hin Hlat].
  apply Z.ltb_lt in Hin. apply Z.ltb_lt in Hlat. apply Z.ltb_lt in Hlast.
  destruct (dec_layers_per_block cfg) as [|first lpb'] eqn:Elpb;
    [ discriminate | ].
  destruct (nth_error (dec_block_out_channels cfg)
              (if first >? 0 then 0 else 1)%nat) as [target|] eqn:Et;
    [ | discriminate ].
  apply andb_prop in Hmatch as [Htarget Hstages].
  apply Z.ltb_lt in Htarget.
  assert (Hne : dec_block_out_channels cfg <> []).
  { intros E. rewrite E in Et. destruct (first >? 0); discriminate. }
  unfold num_upsamples. rewrite Elpb. cbn [nth].
  set (nb := Z.of_nat (length (dec_block_out_channels cfg))) in *.
  pose proof (stages_downsamples_nonneg nb (dec_stages cfg)) as Hnonneg.
  set (k := stages_downsamples nb (dec_stages cfg)) in *.
  assert (Hpow : 0 < 2 ^ k) by (apply Z.pow_pos_nonneg; lia).
  destruct (dec_stages_forward cfg target b (dec_stages cfg) Hb _ h w
              Hstages Hlast Hh Hw) as (blocks & Hbuilt & Hfwd).
  fold nb in Hfwd. fold k in Hfwd.
  pose proof (dec_conv_in_forward cfg b Hlast Hlat Hshort Hh Hw) as Hci.
  unfold Decoder_init. rewrite Elpb.
  rewrite (getitem_last_ok _ 0 Hne). cbn [Py.bind].
  rewrite Conv2d_init_plain by lia. cbn [Py.bind].
  assert (Hrep :
    (if in_shortcut cfg
     then floordiv (last (dec_block_out_channels cfg) 0)
            (dec_latent_channels cfg)
     else Ok 0)
    = Ok (if in_shortcut cfg
          then last (dec_block_out_channels cfg) 0 / dec_latent_channels cfg
          else 0)).
  { unfold floordiv.
    rewrite (proj2 (Z.eqb_neq (dec_latent_channels cfg) 0)) by lia.
    destruct (in_shortcut cfg); reflexivity. }
  rewrite Hrep. cbn [Py.bind].
  unfold dec_stages in Hbuilt. rewrite Elpb in Hbuilt.
  rewrite Hbuilt. cbn [Py.bind].
  change (getitem (first :: lpb') 0) with (Ok first). cbn [Py.bind].
  assert (Hch :
    (if first >? 0
     then getitem (dec_block_out_channels cfg) 0
     else getitem (dec_block_out_channels cfg) 1)
    = Ok target).
  { destruct (first >? 0); exact (getitem_Some Et). }
  rewrite Hch. cbn [Py.bind].
  rewrite RMSNorm_init_affine by lia. cbn [Py.bind].
  assert (Hh' : 0 < h * 2 ^ k) by (apply Z.mul_pos_pos; assumption).
  assert (Hw' : 0 < w * 2 ^ k) by (apply Z.mul_pos_pos; assumption).
  pose proof (dec_norm_out_forward target b (h * 2 ^ k) (w * 2 ^ k)
                ltac:(lia)) as Hno.
  destruct (first >? 0).
  - rewrite Conv2d_init_plain by lia. cbn [Py.bind].
    eexists. split; [ reflexivity | ].
    unfold Decoder_forward.
    cbn [dec_conv_in dec_in_shortcut dec_in_shortcut_repeats dec_up_blocks
         dec_norm_out dec_conv_out].
    destruct (in_shortcut cfg); rewrite Hci; cbn [Py.bind];
      rewrite rev_involutive, Hfwd; cbn [Py.bind];
      cbn [movedim_1_last app Py.bind] in Hno |- *;
      (destruct (RMSNorm_forward _ _) as [x|e]; [ | discriminate Hno ]);
      cbn [Py.bind] in Hno |- *; rewrite Hno; cbn [Py.bind UpLayer_forward
        Layer_forward];
      rewrite Z.add_0_l;
      apply (Conv2d_forward_same _ _ 3 1); lia.
  - rewrite (DCUpBlock2d_init_cases target (dec_in_channels cfg)
               (is_interpolate cfg) false default_interpolation_mode
               Htarget Hin).
    cbn [Py.bind].
    eexists. split; [ reflexivity | ].
    unfold Decoder_forward.
    cbn [dec_conv_in dec_in_shortcut dec_in_shortcut_repeats dec_up_blocks
         dec_norm_out dec_conv_out].
    destruct (in_shortcut cfg); rewrite Hci; cbn [Py.bind];
      rewrite rev_involutive, Hfwd; cbn [Py.bind];
      cbn [movedim_1_last app Py.bind] in Hno |- *;
      (destruct (RMSNorm_forward _ _) as [x|e]; [ | discriminate Hno ]);
      cbn [Py.bind] in Hno |- *; rewrite Hno; cbn [Py.bind UpLayer_forward];
      (rewrite DCUpBlock2d_forward_doubles;
         [ | assumption | assumption | discriminate
           | intros _; reflexivity | assumption | assumption ]);
      rewrite Z.pow_add_r, Z.pow_1_r by lia;
      apply f_equal;
      replace (h * (2 * 2 ^ k)) with (h * 2 ^ k * 2) by ring;
      replace (w * (2 * 2 ^ k)) with (w * 2 ^ k * 2) by ring;
      reflexivity.
Qed.

(** When every stage has a layer, every stage but the last starts with an
    up-sampling block and the output projection is a plain convolution. *)
Lemma num_upsamples_all_layers cfg :
  dec_layers_per_block cfg <> [] ->
  length (dec_layers_per_block cfg) = length (dec_block_out_channels cfg) ->
  Forall (fun n => 0 < n) (dec_layers_per_block cfg) ->
  num_upsamples cfg = Z.of_nat (length (dec_block_out_channels cfg)) - 1.
Proof.
  intros Hne Hlen Hall. unfold num_upsamples, dec_stages.
  rewrite stages_downsamples_rev. unfold enumerate.
  rewrite (stages_downsamples_all_layers _ _ 0).
  - rewrite length_combine, <- Hlen, Nat.min_id.
    destruct (dec_layers_per_block cfg) as [|first lpb']; [ congruence | ].
    apply Forall_cons_iff in Hall as [Hfirst _]. cbn [nth length].
    replace (first >? 0) with true
      by (symmetry; rewrite Z.gtb_ltb; apply Z.ltb_lt; exact Hfirst).
    lia.
  - rewrite length_combine, <- Hlen, Nat.min_id. lia.
  - apply Forall_forall. intros [c n] Hcn. cbn [snd].
    apply in_combine_r in Hcn.
    rewrite Forall_forall in Hall. apply Hall. exact Hcn.
Qed.

(** The shape contract of [Decoder]: a configuration whose channel counts
    fit together ([decoder_config_ok]) is built, and [Decoder.forward] maps
    a latent of shape [(b, latent_channels, h, w)] to a sample of shape
    [(b, in_channels, h * 2^U, w * 2^U)], [U] the number of up-sampling
    blocks built; when every stage has a layer, [U] is the number of stages
    minus one. *)
Theorem Decoder_forward_shape :
  forall (cfg : DecoderConfig) (b h w : Z),
    decoder_config_ok cfg = true ->
    0 < b -> 0 < h -> 0 < w ->
    (exists dec,
       Decoder_init cfg = Ok dec /\
       Decoder_forward dec [b; dec_latent_channels cfg; h; w]
       = Ok [b; dec_in_channels cfg;
             h * 2 ^ num_upsamples cfg; w * 2 ^ num_upsamples cfg]) /\
    (length (dec_layers_per_block cfg) = length (dec_block_out_channels cfg) ->
     Forall (fun n => 0 < n) (dec_layers_per_block cfg) ->
     num_upsamples cfg = Z.of_nat (length (dec_block_out_channels cfg)) - 1).
Proof.
  intros cfg b h w Hok Hb Hh Hw. split.
  - apply Decoder_built; assumption.
  - intros Hlen Hall. apply num_upsamples_all_layers; try assumption.
    intros E. unfold decoder_config_ok in Hok. rewrite E in Hok.
    rewrite !andb_false_r in Hok. discriminate.
Qed.

Lemma Decoder_forward_shape_witness :
  exists dec,
    Decoder_init DecoderSamples.decoder_0_8_16 = Ok dec /\
    Decoder_forward dec [1; 4; 8; 8] = Ok [1; 3; 32; 32].
Proof.
  apply (proj1 (Decoder_forward_shape DecoderSamples.decoder_0_8_16 1 8 8
                  eq_refl eq_refl eq_refl eq_refl)).
Defined.

(** [DCUpBlock2d]: for positive channel counts, and [4 * out_channels] a
    multiple of [in_channels] when the shortcut is on, the block is built
    whatever its interpolation mode; on a non-empty feature map it doubles
    the height and the width, by pixel-shuffle, or by interpolation in one
    of the modes [F.interpolate] has for a feature map; interpolation in
    any other mode raises [NotImplementedError]. *)
Theorem DCUpBlock2d_doubles_resolution :
  forall (cin cout : Z) (interp sc : bool) (mode : string) (b h w : Z),
    0 < cin -> 0 < cout ->
    (sc = true -> (cout * 4) mod cin = 0) ->
    0 < b -> 0 < h -> 0 < w ->
    exists u,
      DCUpBlock2d_init cin cout interp sc mode = Ok u /\
      DCUpBlock2d_forward u [b; cin; h; w]
      = if interp && negb (existsb (String.eqb mode) interpolate_modes)
        then Raise NotImplementedError
        else Ok [b; cout; h * 2; w * 2].
Proof.
  intros cin cout interp sc mode b h w Hi Ho Hsc Hb Hh Hw.
  rewrite (DCUpBlock2d_init_cases cin cout interp sc mode Hi Ho).
  eexists. split; [ reflexivity | ].
  destruct (existsb (String.eqb mode) interpolate_modes) eqn:Em.
  - rewrite andb_false_r.
    apply DCUpBlock2d_forward_doubles; try assumption.
    intros _. exact Em.
  - destruct interp; cbn [andb negb].
    + apply DCUpBlock2d_forward_unknown_mode; [ reflexivity | exact Em ].
    + apply DCUpBlock2d_forward_doubles; try assumption. discriminate.
Qed.

Lemma DCUpBlock2d_doubles_resolution_witness :
  (exists u,
     DCUpBlock2d_init 16 8 false true "nearest" = Ok u /\
     DCUpBlock2d_forward u [1; 16; 3; 5] = Ok [1; 8; 3 * 2; 5 * 2]) /\
  (exists u,
     DCUpBlock2d_init 16 8 true true "linear" = Ok u /\
     DCUpBlock2d_forward u [1; 16; 3; 5] = Raise NotImplementedError).
Proof.
  split.
  - apply (DCUpBlock2d_doubles_resolution 16 8 false true "nearest" 1 3 5);
      try reflexivity.
  - apply (DCUpBlock2d_doubles_resolution 16 8 true true "linear" 1 3 5);
      try reflexivity.
Defined.

End DecoderFacts.

(* ------------------------------------------------------------------ *)
(** ** [AutoencoderDC]: construction and the round trip of shapes *)

Module AutoencoderFacts.

Import Layers Shape Decoding SelectorFacts BlockFacts ShapeFacts EncoderFacts
  DecoderFacts.
Local Open Scope Z_scope.

Local Arguments Z.mul : simpl never.
Local Arguments Z.add : simpl never.
Local Arguments Z.sub : simpl never.
Local Arguments Z.div : simpl never.
Local Arguments Z.modulo : simpl never.
Local Arguments Z.pow : simpl never.
Local Arguments Z.eqb : simpl never.
Local Arguments Z.ltb : simpl never.
Local Arguments Z.leb : simpl never.
Local Arguments Z.gtb : simpl never.
Local Arguments Z.of_nat : simpl never.
Local Arguments Z.to_nat : simpl never.

(** The encoder of a configuration that passes the static check, on an
    input whose height and width the compression factor divides. *)
Lemma Encoder_built cfg b h w :
  config_ok cfg = true ->
  0 < b -> 0 < h -> 0 < w ->
  h mod 2 ^ num_downsamples cfg = 0 ->
  w mod 2 ^ num_downsamples cfg = 0 ->
  exists enc,
    Encoder_init cfg = Ok enc /\
    Encoder_forward enc [b; in_channels cfg; h; w]
    = Ok [b; latent_channels cfg;
          h / 2 ^ num_downsamples cfg; w / 2 ^ num_downsamples cfg].
Proof.
  intros Hok Hb Hh Hw Hdh Hdw.
  unfold config_ok in Hok.
  apply andb_prop in Hok as [Hok Hmatch].
  apply andb_prop in Hok as [Hin Hlat].
  apply Z.ltb_lt in Hin. apply Z.ltb_lt in Hlat.
  destruct (layers_per_block cfg) as [|first lpb'] eqn:Elpb;
    [ discriminate | ].
  destruct (nth_error (block_out_channels cfg)
              (if first >? 0 then 0 else 1)%nat) as [c0|] eqn:Ec0;
    [ | discriminate ].
  apply andb_prop in Hmatch as [Hmatch Hout].
  apply andb_prop in Hmatch as [Hmatch Hstages].
  apply andb_prop in Hmatch as [Hc0 Hmode].
  apply Z.ltb_lt in Hc0.
  assert (Hne : block_out_channels cfg <> []).
  { intros E. rewrite E in Ec0. destruct (first >? 0); discriminate. }
  unfold num_downsamples in *. rewrite Elpb in *. cbn [nth] in *.
  set (nb := Z.of_nat (length (block_out_channels cfg))) in *.
  set (stages :=
         enumerate (combine (block_out_channels cfg) (first :: lpb'))) in *.
  pose proof (stages_downsamples_nonneg nb stages) as Hnonneg.
  assert (He : 0 <= (if first >? 0 then 0 else 1))
    by (destruct (first >? 0); lia).
  destruct (split_divisible _ _ He Hnonneg Hh Hdh) as (Eh & Hh' & Hdh' & Ehq).
  destruct (split_divisible _ _ He Hnonneg Hw Hdw) as (Ew & Hw' & Hdw' & Ewq).
  destruct (conv_in_forward cfg first b Hin Hc0 Hmode Ec0 Hb Hh Hw Eh Ew)
    as (conv_in & Hci & Hcf).
  destruct (stages_forward cfg b stages Hb c0 _ _ Hstages Hc0 Hh' Hw'
              Hdh' Hdw') as (Hlast & blocks & Hbuilt & Hfwd).
  fold nb in Hbuilt, Hfwd.
  pose proof (conv_out_forward cfg b Hlast Hlat Hout
                (size_divided_positive Hnonneg Hh' Hdh')
                (size_divided_positive Hnonneg Hw' Hdw')) as Hco.
  rewrite Ehq, Ewq.
  unfold Encoder_init. rewrite Elpb.
  change (getitem (first :: lpb') 0) with (Ok first). cbn [Py.bind].
  rewrite Hci. cbn [Py.bind].
  fold nb. fold stages. rewrite Hbuilt. cbn [Py.bind].
  rewrite (getitem_last_ok _ 0 Hne). cbn [Py.bind].
  rewrite Conv2d_init_plain by lia. cbn [Py.bind].
  unfold floordiv.
  rewrite (proj2 (Z.eqb_neq (latent_channels cfg) 0)) by lia.
  destruct (out_shortcut cfg); cbn [Py.bind];
    (eexists; split; [ reflexivity | ]);
    unfold Encoder_forward;
    cbn [enc_conv_in enc_down_blocks enc_conv_out enc_out_shortcut
         enc_out_shortcut_average_group_size];
    rewrite Hcf; cbn [Py.bind]; rewrite Hfwd; cbn [Py.bind]; exact Hco.
Qed.

Lemma num_downsamples_nonneg cfg : 0 <= num_downsamples cfg.
Proof.
  unfold num_downsamples.
  pose proof (stages_downsamples_nonneg
                (Z.of_nat (length (block_out_channels cfg)))
                (enumerate (combine (block_out_channels cfg)
                              (layers_per_block cfg)))).
  destruct (nth 0 (layers_per_block cfg) 0 >? 0); lia.
Qed.

Lemma num_upsamples_nonneg cfg : 0 <= num_upsamples cfg.
Proof.
  unfold num_upsamples.
  pose proof (stages_downsamples_nonneg
                (Z.of_nat (length (dec_block_out_channels cfg)))
                (dec_stages cfg)).
  destruct (nth 0 (dec_layers_per_block cfg) 0 >? 0); lia.
Qed.

Section ShapeCoding.

Variable tiled_encode tiled_decode : shape -> result shape.
Variable tile_latent_min_height tile_latent_min_width : Z.

Local Abbreviation forward :=
  (forward tiled_encode tiled_decode tile_latent_min_height
     tile_latent_min_width).

(** A freshly built model neither slices nor tiles: [forward] is the
    decoder after the encoder. *)
Lemma forward_fresh enc dec r t (sample : shape) :
  length sample = 4%nat ->
  forward (mkAutoencoderModel enc dec r t Autoencoder.AutoencoderDC_init)
    sample
  = (z <- Encoder_forward enc sample ;;
     match z with
     | [_; _; _; _] => Decoder_forward dec z
     | _ => Raise ValueError
     end).
Proof.
  intros Hlen.
  destruct sample as [|b [|c [|h [|w [|x rest]]]]]; try discriminate Hlen.
  unfold Decoding.forward, encode, decode, _encode, _decode.
  cbn [model_flags model_encoder model_decoder Autoencoder.use_slicing
       Autoencoder.use_tiling Autoencoder.AutoencoderDC_init Py.bind andb].
  destruct (Encoder_forward enc [b; c; h; w]) as [z|e]; [ | reflexivity ].
  cbn [Py.bind].
  destruct z as [|z0 [|z1 [|z2 [|z3 [|z4 z']]]]]; reflexivity.
Qed.

(** The round trip of shapes.  When the encoder and the decoder
    configurations both pass their static check, [AutoencoderDC.__init__]
    builds the model, and [forward] on a batch of shape
    [(b, in_channels, h, w)], [h] and [w] multiples of [2^D], returns a
    batch of shape [(b, in_channels, h / 2^D * 2^U, w / 2^D * 2^U)]: the
    shape of the input when the decoder up-samples as often as the encoder
    down-samples ([U = D]). *)
Theorem forward_shape :
  forall (a : AutoencoderArgs) (b h w : Z),
    config_ok (encoder_config a) = true ->
    decoder_config_ok (decoder_config a) = true ->
    0 < b -> 0 < h -> 0 < w ->
    h mod 2 ^ num_downsamples (encoder_config a) = 0 ->
    w mod 2 ^ num_downsamples (encoder_config a) = 0 ->
    exists m,
      AutoencoderDC_new a = Ok m /\
      forward m [b; arg_in_channels a; h; w]
      = Ok [b; arg_in_channels a;
            h / 2 ^ num_downsamples (encoder_config a)
              * 2 ^ num_upsamples (decoder_config a);
            w / 2 ^ num_downsamples (encoder_config a)
              * 2 ^ num_upsamples (decoder_config a)] /\
      (num_upsamples (decoder_config a) = num_downsamples (encoder_config a) ->
       forward m [b; arg_in_channels a; h; w]
       = Ok [b; arg_in_channels a; h; w]).
Proof.
  intros a b h w Henc Hdec Hb Hh Hw Hdh Hdw.
  pose proof (num_downsamples_nonneg (encoder_config a)) as HD.
  destruct (Encoder_built (encoder_config a) b h w Henc Hb Hh Hw Hdh Hdw)
    as (enc & Hei & Hef).
  destruct (Decoder_built (decoder_config a) b
              (h / 2 ^ num_downsamples (encoder_config a))
              (w / 2 ^ num_downsamples (encoder_config a)) Hdec Hb
              (size_divided_positive HD Hh Hdh)
              (size_divided_positive HD Hw Hdw))
    as (dec & Hdi & Hdf).
  cbn [encoder_config in_channels latent_channels] in Hef.
  cbn [decoder_config dec_in_channels dec_latent_channels] in Hdf.
  assert (Hfw :
    forward
      (mkAutoencoderModel enc dec
         (2 ^ (Z.of_nat (length (encoder_block_out_channels a)) - 1)) 1
         Autoencoder.AutoencoderDC_init)
      [b; arg_in_channels a; h; w]
    = Ok [b; arg_in_channels a;
          h / 2 ^ num_downsamples (encoder_config a)
            * 2 ^ num_upsamples (decoder_config a);
          w / 2 ^ num_downsamples (encoder_config a)
            * 2 ^ num_upsamples (decoder_config a)]).
  { rewrite forward_fresh by reflexivity.
    cbn [encoder_config] in *. rewrite Hef. cbn [Py.bind]. exact Hdf. }
  unfold AutoencoderDC_new. rewrite Hei. cbn [Py.bind].
  rewrite Hdi. cbn [Py.bind].
  eexists. split; [ reflexivity | ]. split; [ exact Hfw | ].
  intros HUD. rewrite Hfw, HUD. apply f_equal.
  assert (Hpos : 0 < 2 ^ num_downsamples (encoder_config a))
    by (apply Z.pow_pos_nonneg; lia).
  assert (Eh : h / 2 ^ num_downsamples (encoder_config a)
                 * 2 ^ num_downsamples (encoder_config a) = h).
  { pose proof (Z.div_mod h _ (Z.neq_sym _ _ (Z.lt_neq _ _ Hpos))) as E.
    rewrite Hdh in E. lia. }
  assert (Ew : w / 2 ^ num_downsamples (encoder_config a)
                 * 2 ^ num_downsamples (encoder_config a) = w).
  { pose proof (Z.div_mod w _ (Z.neq_sym _ _ (Z.lt_neq _ _ Hpos))) as E.
    rewrite Hdw in E. lia. }
  rewrite Eh, Ew. reflexivity.
Qed.

End ShapeCoding.

Lemma forward_shape_witness :
  exists m,
    AutoencoderDC_new DecoderSamples.autoencoder_8_16 = Ok m /\
    forward (fun _ => Raise RuntimeError) (fun _ => Raise RuntimeError) 0 0
      m [2; 3; 16; 16]
    = Ok [2; 3; 16 / 2 ^ 1 * 2 ^ 1; 16 / 2 ^ 1 * 2 ^ 1] /\
    (1 = 1 ->
     forward (fun _ => Raise RuntimeError) (fun _ => Raise RuntimeError) 0 0
       m [2; 3; 16; 16]
     = Ok [2; 3; 16; 16]).
Proof.
  apply (forward_shape (fun _ => Raise RuntimeError)
           (fun _ => Raise RuntimeError) 0 0
           DecoderSamples.autoencoder_8_16 2 16 16
           eq_refl eq_refl eq_refl eq_refl eq_refl eq_refl eq_refl).
Defined.

End AutoencoderFacts.

(* ------------------------------------------------------------------ *)
(** ** The blocks one by one: shapes kept, shapes refused *)

Module BlockShapeFacts.

Import Layers Shape Decoding SelectorFacts BlockFacts ShapeFacts EncoderFacts
  DecoderFacts.
Local Open Scope Z_scope.

Local Arguments Z.mul : simpl never.
Local Arguments Z.add : simpl never.
Local Arguments Z.sub : simpl never.
Local Arguments Z.div : simpl never.
Local Arguments Z.modulo : simpl never.
Local Arguments Z.pow : simpl never.
Local Arguments Z.eqb : simpl never.
Local Arguments Z.ltb : simpl never.
Local Arguments Z.leb : simpl never.
Local Arguments Z.gtb : simpl never.
Local Arguments Z.of_nat : simpl never.
Local Arguments Z.to_nat : simpl never.

(** The sum of two feature maps that differ at most in the channel count. *)
Lemma broadcast_channels b x y h w :
  broadcast [b; x; h; w] [b; y; h; w]
  = if x =? y then Ok [b; x; h; w]
    else if x =? 1 then Ok [b; y; h; w]
    else if y =? 1 then Ok [b; x; h; w]
    else Raise RuntimeError.
Proof.
  unfold broadcast. cbn [rev app broadcast_rev Py.bind].
  rewrite !Z.eqb_refl. cbn [Py.bind].
  destruct (x =? y); [ | destruct (x =? 1); [ | destruct (y =? 1) ] ];
    cbn [Py.bind]; rewrite ?Z.eqb_refl; cbn [Py.bind];
    rewrite ?Z.eqb_refl; cbn [Py.bind rev app]; reflexivity.
Qed.

(** [ResBlock]: the residual is added to the output of the second
    convolution, so a block whose two channel counts differ is built but
    its forward pass raises, unless one of the counts is one and the sum
    broadcasts. *)
Theorem ResBlock_residual_needs_equal_channels :
  forall (cin cout : Z) (af : string) (op : Activation) (b h w : Z),
    0 < cin -> 0 < cout -> 0 < h -> 0 < w ->
    dict_get ACTIVATION_FUNCTIONS (lower af) = Some op ->
    exists r,
      ResBlock_init cin cout "rms_norm" (Some af) = Ok r /\
      res_nonlinearity r = op /\
      ResBlock_forward r [b; cin; h; w]
      = if cout =? cin then Ok [b; cin; h; w]
        else if cout =? 1 then Ok [b; cin; h; w]
        else if cin =? 1 then Ok [b; cout; h; w]
        else Raise RuntimeError.
Proof.
  intros cin cout af op b h w Hi Ho Hh Hw Hop.
  unfold ResBlock_init, get_activation. rewrite Hop. cbn [Py.bind].
  rewrite !Conv2d_init_plain by lia. cbn [Py.bind].
  unfold get_normalization. simpl String.eqb. cbv iota.
  rewrite RMSNorm_init_affine by lia. cbn [Py.bind].
  eexists. split; [ reflexivity | ]. split; [ reflexivity | ].
  unfold ResBlock_forward.
  cbn [res_conv1 res_conv2 res_norm res_norm_type].
  rewrite (Conv2d_forward_same cin cin 3 1) by lia. cbn [Py.bind].
  rewrite (Conv2d_forward_same cin cout 3 1) by lia. cbn [Py.bind].
  simpl String.eqb. cbv iota.
  cbn [movedim_1_last app Py.bind Normalization_forward].
  rewrite RMSNorm_forward_channels_last by lia.
  cbn [Py.bind movedim_last_1 last removelast].
  rewrite broadcast_channels.
  destruct (Z.eqb_spec cout cin) as [->|Hne]; reflexivity.
Qed.

Lemma ResBlock_residual_needs_equal_channels_witness :
  exists r,
    ResBlock_init 8 16 "rms_norm" (Some "GELU"%string) = Ok r /\
    res_nonlinearity r = GELU /\
    ResBlock_forward r [1; 8; 4; 4] = Raise RuntimeError.
Proof.
  apply (ResBlock_residual_needs_equal_channels 8 16 "GELU" GELU 1 4 4);
    reflexivity.
Defined.

(** [ResBlock.forward] moves the channel axis last for [rms_norm] only.
    With [batch_norm] the normalization is a [BatchNorm2d] as constructed,
    in training mode: the pass raises [ValueError] on a batch with a single
    value per channel, and keeps the shape otherwise.  With [layer_norm]
    the normalization runs over the width, and the pass raises unless the
    width equals the channel count. *)
Theorem ResBlock_layer_norm_runs_over_width :
  forall (c : Z) (af : string) (op : Activation) (b h w : Z),
    0 < c -> 0 < b -> 0 < h -> 0 < w ->
    dict_get ACTIVATION_FUNCTIONS (lower af) = Some op ->
    (exists r,
       ResBlock_init c c "batch_norm" (Some af) = Ok r /\
       ResBlock_forward r [b; c; h; w]
       = if b * h * w =? 1 then Raise ValueError else Ok [b; c; h; w]) /\
    (exists r,
       ResBlock_init c c "layer_norm" (Some af) = Ok r /\
       ResBlock_forward r [b; c; h; w]
       = if w =? c then Ok [b; c; h; w] else Raise RuntimeError).
Proof.
  intros c af op b h w Hc Hb Hh Hw Hop.
  split; unfold ResBlock_init, get_activation; rewrite Hop; cbn [Py.bind];
    rewrite !Conv2d_init_plain by lia; cbn [Py.bind];
    unfold get_normalization; simpl String.eqb; cbv iota.
  - unfold BatchNorm2d_init. ztest. cbn [Py.bind].
    eexists. split; [ reflexivity | ].
    unfold ResBlock_forward.
    cbn [res_conv1 res_conv2 res_norm res_norm_type].
    rewrite !(Conv2d_forward_same c c 3 1) by lia. cbn [Py.bind].
    rewrite (Conv2d_forward_same c c 3 1) by lia. cbn [Py.bind].
    simpl String.eqb. cbv iota. cbn [Normalization_forward].
    destruct (b * h * w =? 1); [ reflexivity | ].
    rewrite Z.eqb_refl. cbn [Py.bind]. apply broadcast_same.
  - unfold LayerNorm_init. ztest. cbn [andb Py.bind].
    eexists. split; [ reflexivity | ].
    unfold ResBlock_forward.
    cbn [res_conv1 res_conv2 res_norm res_norm_type].
    rewrite !(Conv2d_forward_same c c 3 1) by lia. cbn [Py.bind].
    rewrite (Conv2d_forward_same c c 3 1) by lia. cbn [Py.bind].
    simpl String.eqb. cbv iota. cbn [Normalization_forward rev app].
    destruct (w =? c); cbn [Py.bind]; [ apply broadcast_same | reflexivity ].
Qed.

Lemma ResBlock_layer_norm_runs_over_width_witness :
  ((exists r,
      ResBlock_init 8 8 "batch_norm" (Some "silu"%string) = Ok r /\
      ResBlock_forward r [1; 8; 4; 4] = Ok [1; 8; 4; 4]) /\
   (exists r,
      ResBlock_init 8 8 "layer_norm" (Some "silu"%string) = Ok r /\
      ResBlock_forward r [1; 8; 4; 4] = Raise RuntimeError)) /\
  (exists r,
     ResBlock_init 8 8 "batch_norm" (Some "silu"%string) = Ok r /\
     ResBlock_forward r [1; 8; 1; 1] = Raise ValueError).
Proof.
  split.
  - apply (ResBlock_layer_norm_runs_over_width 8 "silu" SiLU 1 4 4);
      reflexivity.
  - apply (proj1 (ResBlock_layer_norm_runs_over_width 8 "silu" SiLU 1 1 1
                    eq_refl eq_refl eq_refl eq_refl eq_refl)).
Defined.

(** [EfficientViTBlock]: with a positive head dimension no larger than the
    channel count and odd positive multiscale kernels, the block is built
    and keeps the shape of a feature map, whichever attention formula its
    size selects. *)
Theorem EfficientViTBlock_keeps_shape :
  forall (c d : Z) (ks : list Z) (b h w : Z),
    0 < d -> d <= c ->
    Forall (fun k => 0 < k /\ k mod 2 = 1) ks ->
    0 < b -> 0 < h -> 0 < w ->
    exists e,
      EfficientViTBlock_init c 1%Q d ks "rms_norm" = Ok e /\
      EfficientViTBlock_forward e [b; c; h; w] = Ok [b; c; h; w].
Proof.
  intros c d ks b h w Hd Hdc Hks Hb Hh Hw.
  destruct (EfficientViTBlock_same Hd Hdc Hks) as (e & He & Hfwd).
  exists e. split; [ exact He | apply Hfwd; assumption ].
Qed.

Lemma EfficientViTBlock_keeps_shape_witness :
  exists e,
    EfficientViTBlock_init 8 1%Q 4 [5] "rms_norm" = Ok e /\
    EfficientViTBlock_forward e [1; 8; 2; 3] = Ok [1; 8; 2; 3].
Proof.
  apply (EfficientViTBlock_keeps_shape 8 4 [5] 1 2 3); try lia.
  constructor; [ split; [ lia | reflexivity ] | constructor ].
Defined.

(** [GLUMBConv]: the inverted convolution widens to eight times the
    channels, the gate halves them, the point convolution returns to the
    input count: the shape is kept. *)
Theorem GLUMBConv_keeps_shape :
  forall (c b h w : Z),
    0 < c -> 0 < h -> 0 < w ->
    exists g,
      GLUMBConv_init c c = Ok g /\
      conv_out_channels (conv_inverted g) = 8 * c /\
      conv_in_channels (conv_point g) = 4 * c /\
      GLUMBConv_forward g [b; c; h; w] = Ok [b; c; h; w].
Proof.
  intros c b h w Hc Hh Hw.
  pose proof (GLUMBConv_init_ok Hc) as Hinit.
  eexists. split; [ exact Hinit | ].
  cbn [conv_inverted conv_point conv_out_channels conv_in_channels].
  split; [ lia | ]. split; [ reflexivity | ].
  apply (GLUMBConv_forward_same Hc Hh Hw Hinit).
Qed.

Lemma GLUMBConv_keeps_shape_witness :
  exists g,
    GLUMBConv_init 4 4 = Ok g /\
    conv_out_channels (conv_inverted g) = 8 * 4 /\
    conv_in_channels (conv_point g) = 4 * 4 /\
    GLUMBConv_forward g [1; 4; 3; 3] = Ok [1; 4; 3; 3].
Proof.
  apply (GLUMBConv_keeps_shape 4 1 3 3); reflexivity.
Defined.

(** [DCDownBlock2d] on an odd height or width: the pixel-unshuffle of the
    main branch or of the shortcut raises; only the strided convolution
    without shortcut accepts the input, and rounds the halved size up. *)
Theorem DCDownBlock2d_odd_size :
  forall (cin cout : Z) (ds sc : bool) (b h w : Z),
    0 < cin -> 0 < cout ->
    (ds = true -> cout mod 4 = 0) ->
    0 < h -> 0 < w ->
    h mod 2 = 1 \/ w mod 2 = 1 ->
    exists d,
      DCDownBlock2d_init cin cout ds sc = Ok d /\
      DCDownBlock2d_forward d [b; cin; h; w]
      = if ds || sc then Raise RuntimeError
        else Ok [b; cout; (h + 1) / 2; (w + 1) / 2].
Proof.
  intros cin cout ds sc b h w Hi Ho Hds Hh Hw Hodd.
  rewrite (DCDownBlock2d_init_cases cin cout ds sc Hi Ho).
  assert (Hassert : ds && negb (cout mod 4 =? 0) = false).
  { destruct ds; [ | reflexivity ]. rewrite (Hds eq_refl). reflexivity. }
  rewrite Hassert. eexists. split; [ reflexivity | ].
  assert (Hun : forall c,
    pixel_unshuffle [b; c; h; w] 2 = Raise RuntimeError).
  { intros c. unfold pixel_unshuffle.
    destruct Hodd as [E|E]; rewrite E; ztest;
      rewrite ?orb_true_r; reflexivity. }
  unfold DCDownBlock2d_forward.
  cbn [down_conv down_downsample down_factor down_shortcut down_group_size].
  destruct ds; cbn [orb].
  - rewrite (Conv2d_forward_same cin (cout / 4) 3 1) by lia.
    cbn [Py.bind]. rewrite Hun. reflexivity.
  - unfold Conv2d_forward.
    cbn [conv_kernel_size conv_padding conv_in_channels conv_out_channels
         conv_stride].
    ztest. cbn [negb orb Py.bind].
    replace ((h + 2 * 1 - 3) / 2 + 1) with ((h + 1) / 2)
      by (Z.to_euclidean_division_equations; lia).
    replace ((w + 2 * 1 - 3) / 2 + 1) with ((w + 1) / 2)
      by (Z.to_euclidean_division_equations; lia).
    destruct sc; [ | reflexivity ].
    rewrite Hun. reflexivity.
Qed.

Lemma DCDownBlock2d_odd_size_witness :
  exists d,
    DCDownBlock2d_init 8 16 false false = Ok d /\
    DCDownBlock2d_forward d [1; 8; 5; 4] = Ok [1; 16; (5 + 1) / 2; (4 + 1) / 2].
Proof.
  apply (DCDownBlock2d_odd_size 8 16 false false 1 5 4); try reflexivity.
  left. reflexivity.
Defined.

(** [DCDownBlock2d] on a non-empty feature map of even sizes: the block is
    built and halves the height and the width, by pixel-unshuffle or by the
    strided convolution alike. *)
Theorem DCDownBlock2d_halves_resolution :
  forall (cin cout : Z) (ds sc : bool) (b h w : Z),
    0 < cin -> 0 < cout ->
    (sc = true -> (cin * 4) mod cout = 0) ->
    (ds = true -> cout mod 4 = 0) ->
    0 < b -> 0 < h -> 0 < w -> h mod 2 = 0 -> w mod 2 = 0 ->
    exists d,
      DCDownBlock2d_init cin cout ds sc = Ok d /\
      DCDownBlock2d_forward d [b; cin; h; w] = Ok [b; cout; h / 2; w / 2].
Proof.
  intros cin cout ds sc b h w Hi Ho Hsc Hds Hb Hh Hw Eh Ew.
  rewrite (DCDownBlock2d_init_cases cin cout ds sc Hi Ho).
  assert (Hassert : ds && negb (cout mod 4 =? 0) = false).
  { destruct ds; [ | reflexivity ]. rewrite (Hds eq_refl). reflexivity. }
  rewrite Hassert. eexists. split; [ reflexivity | ].
  apply DCDownBlock2d_forward_halves; assumption.
Qed.

Lemma DCDownBlock2d_halves_resolution_witness :
  exists d,
    DCDownBlock2d_init 8 16 true true = Ok d /\
    DCDownBlock2d_forward d [1; 8; 6; 4] = Ok [1; 16; 6 / 2; 4 / 2].
Proof.
  apply (DCDownBlock2d_halves_resolution 8 16 true true 1 6 4);
    reflexivity.
Defined.

End BlockShapeFacts.

(* ------------------------------------------------------------------ *)
(** ** Construction: what the constructors check, and what they raise *)

Module ConstructionFacts.

Import Layers Shape Decoding SelectorFacts BlockFacts ShapeFacts EncoderFacts
  DecoderFacts.
Local Open Scope Z_scope.

Local Arguments Z.mul : simpl never.
Local Arguments Z.add : simpl never.
Local Arguments Z.sub : simpl never.
Local Arguments Z.div : simpl never.
Local Arguments Z.modulo : simpl never.
Local Arguments Z.pow : simpl never.
Local Arguments Z.eqb : simpl never.
Local Arguments Z.ltb : simpl never.
Local Arguments Z.leb : simpl never.
Local Arguments Z.gtb : simpl never.
Local Arguments Z.of_nat : simpl never.
Local Arguments Z.to_nat : simpl never.

(** [get_block] knows two block types and raises [ValueError] on any other
    name; for [EfficientViTBlock] it reads neither [out_channels] nor
    [act_fn], for [ResBlock] neither [attention_head_dim] nor the
    multiscale kernels. *)
Theorem get_block_reads_what_its_block_needs :
  forall (bt : string) (cin cout cout' d d' : Z) (nt af af' : string)
         (ms ms' : list Z),
    (bt <> "ResBlock"%string -> bt <> "EfficientViTBlock"%string ->
     get_block bt cin cout d nt af ms = Raise ValueError) /\
    get_block "EfficientViTBlock" cin cout d nt af ms
    = get_block "EfficientViTBlock" cin cout' d nt af' ms /\
    get_block "ResBlock" cin cout d nt af ms
    = get_block "ResBlock" cin cout d' nt af ms'.
Proof.
  intros bt cin cout cout' d d' nt af af' ms ms'.
  split; [ | split; reflexivity ].
  intros H1 H2. unfold get_block.
  apply String.eqb_neq in H1. apply String.eqb_neq in H2.
  rewrite H1, H2. reflexivity.
Qed.

(** The channel counts that are divisors are divided by before anything is
    checked: a zero raises [ZeroDivisionError], in [DCDownBlock2d] even
    before its assertion, in the attention block when the number of heads
    is derived from the head dimension. *)
Theorem zero_divisors_raise_ZeroDivisionError :
  forall (cin cout : Z) (ds sc interp : bool) (mode nt : string)
         (mult : Q) (ks : list Z) (epsilon : R) (rc : bool),
    DCDownBlock2d_init cin 0 ds sc = Raise ZeroDivisionError /\
    DCUpBlock2d_init 0 cout interp sc mode = Raise ZeroDivisionError /\
    SanaMultiscaleLinearAttention_init cin cout None 0 mult nt ks epsilon rc
    = Raise ZeroDivisionError /\
    EfficientViTBlock_init cin mult 0 ks nt = Raise ZeroDivisionError.
Proof.
  intros cin cout ds sc interp mode nt mult ks epsilon rc.
  repeat split; reflexivity.
Qed.

(** An attention block on fewer channels than one head has no head: with
    a multiscale kernel its grouped convolution is asked for zero groups
    and the construction raises [ValueError]. *)
Theorem attention_needs_one_full_head :
  forall (c d k : Z) (ks : list Z) (nt : string),
    0 <= c -> c < d ->
    EfficientViTBlock_init c 1%Q d (k :: ks) nt = Raise ValueError.
Proof.
  intros c d k ks nt Hc Hcd.
  unfold EfficientViTBlock_init, SanaMultiscaleLinearAttention_init, floordiv.
  rewrite (proj2 (Z.eqb_neq d 0)) by lia. cbn [Py.bind].
  rewrite int_of_Q_one, (Z.div_small c d) by lia.
  unfold Linear_init. ztest. cbn [orb Py.bind comprehension].
  unfold SanaMultiscaleAttentionProjection_init at 1, Conv2d_init at 1.
  ztest. reflexivity.
Qed.

Lemma attention_needs_one_full_head_witness :
  EfficientViTBlock_init 16 1%Q 32 [5] "rms_norm" = Raise ValueError.
Proof.
  apply (attention_needs_one_full_head 16 32 5 [] "rms_norm"); lia.
Defined.

(** A stage without layers builds nothing, neither blocks nor a block that
    changes the resolution; its block type, channel count and kernels are
    never read. *)
Theorem stage_without_layers_is_empty :
  forall (cfg : EncoderConfig) (dcfg : DecoderConfig)
         (block_types : list string) (num_blocks : Z) (i : nat) (c n : Z),
    n <= 0 ->
    Encoder_stage cfg block_types num_blocks (i, (c, n)) = Ok [] /\
    Decoder_stage dcfg (i, (c, n)) = Ok [].
Proof.
  intros cfg dcfg bts nb i c n Hn.
  assert (En : (n >? 0) = false)
    by (rewrite Z.gtb_ltb; apply Z.ltb_ge; exact Hn).
  unfold Encoder_stage, Decoder_stage.
  rewrite En, !andb_false_r, (range_nonpositive n En). split; reflexivity.
Qed.

Lemma stage_without_layers_is_empty_witness :
  Encoder_stage Samples.encoder_8_8_8 ["no such block"%string] 3
    (1%nat, (8, 0)) = Ok [] /\
  Decoder_stage DecoderSamples.decoder_0_8_16 (0%nat, (4, 0)) = Ok [].
Proof.
  apply (stage_without_layers_is_empty Samples.encoder_8_8_8
           DecoderSamples.decoder_0_8_16 ["no such block"%string] 3 1 8 0).
  lia.
Defined.

(** An unknown block type in the first stage: the input projection is
    built, then [get_block] raises [ValueError]. *)
Theorem Encoder_init_unknown_block_type :
  forall (cfg : EncoderConfig) (first c0 : Z) (lpb : list Z) (boc : list Z)
         (bt : string) (ms : list Z),
    layers_per_block cfg = first :: lpb ->
    block_out_channels cfg = c0 :: boc ->
    0 < first -> 0 <= c0 -> 0 <= in_channels cfg ->
    nth_error (block_types_of cfg) 0 = Some bt ->
    nth_error (qkv_multiscales cfg) 0 = Some ms ->
    bt <> "ResBlock"%string -> bt <> "EfficientViTBlock"%string ->
    Encoder_init cfg = Raise ValueError.
Proof.
  intros cfg first c0 lpb boc bt ms Elpb Eboc Hfirst Hc0 Hin Hbt Hms H1 H2.
  unfold Encoder_init. rewrite Elpb, Eboc.
  change (getitem (first :: lpb) 0) with (Ok first). cbn [Py.bind].
  replace (first >? 0) with true
    by (symmetry; rewrite Z.gtb_ltb; apply Z.ltb_lt; exact Hfirst).
  change (getitem (c0 :: boc) 0) with (Ok c0). cbn [Py.bind].
  rewrite Conv2d_init_plain by lia. cbn [Py.bind].
  cbn [combine enumerate enumerate_from comprehension].
  unfold Encoder_stage at 1.
  assert (Hrange : range first = 0%nat :: seq 1 (Z.to_nat first - 1)).
  { unfold range. destruct (Z.to_nat first) as [|k] eqn:E; [ lia | ].
    replace (S k - 1)%nat with k by lia. reflexivity. }
  rewrite Hrange. cbn [comprehension].
  rewrite (getitem_Some Hbt). cbn [Py.bind].
  rewrite (getitem_Some Hms). cbn [Py.bind].
  unfold get_block.
  apply String.eqb_neq in H1. apply String.eqb_neq in H2.
  rewrite H1, H2. reflexivity.
Qed.

Lemma Encoder_init_unknown_block_type_witness :
  Encoder_init DecoderSamples.encoder_unknown_block = Raise ValueError.
Proof.
  apply (Encoder_init_unknown_block_type DecoderSamples.encoder_unknown_block
           1 8 [1] [16] "resblock" []);
    try reflexivity; try lia; discriminate.
Defined.

(** Empty tuples: the constructors index before they iterate, and raise
    [IndexError]. *)
Theorem empty_configuration_raises_IndexError :
  forall (cfg : EncoderConfig) (dcfg : DecoderConfig),
    (layers_per_block cfg = [] -> Encoder_init cfg = Raise IndexError) /\
    (block_out_channels cfg = [] -> Encoder_init cfg = Raise IndexError) /\
    (dec_block_out_channels dcfg = [] ->
     Decoder_init dcfg = Raise IndexError).
Proof.
  intros cfg dcfg. split; [ | split ].
  - intros E. unfold Encoder_init. rewrite E. reflexivity.
  - intros E. unfold Encoder_init. rewrite E.
    unfold getitem at 1.
    destruct (nth_error (layers_per_block cfg) 0) as [first|];
      [ | reflexivity ].
    cbn [Py.bind]. destruct (first >? 0); reflexivity.
  - intros E. unfold Decoder_init. rewrite E. reflexivity.
Qed.

(** [spatial_compression_ratio] is computed from the number of encoder
    stages alone; it is the factor by which the encoder really divides the
    resolution when every stage has a layer. *)
Theorem spatial_compression_ratio_counts_stages :
  forall (a : AutoencoderArgs) (m : AutoencoderModel),
    AutoencoderDC_new a = Ok m ->
    spatial_compression_ratio m
    = 2 ^ (Z.of_nat (length (encoder_block_out_channels a)) - 1) /\
    temporal_compression_ratio m = 1 /\
    model_flags m = Autoencoder.AutoencoderDC_init /\
    (length (encoder_layers_per_block a)
     = length (encoder_block_out_channels a) ->
     Forall (fun n => 0 < n) (encoder_layers_per_block a) ->
     spatial_compression_ratio m = 2 ^ num_downsamples (encoder_config a)).
Proof.
  intros a m Hnew. unfold AutoencoderDC_new in Hnew.
  apply bind_Ok_inv in Hnew as (enc & Henc & Hnew).
  apply bind_Ok_inv in Hnew as (dec & Hdec & Hnew).
  injection Hnew as <-.
  cbn [spatial_compression_ratio temporal_compression_ratio model_flags].
  repeat split.
  intros Hlen Hall. f_equal.
  unfold num_downsamples. cbn [encoder_config layers_per_block
    block_out_channels].
  destruct (encoder_layers_per_block a) as [|first lpb] eqn:Elpb.
  { unfold Encoder_init in Henc. cbn [encoder_config layers_per_block] in Henc.
    rewrite Elpb in Henc. discriminate Henc. }
  apply Forall_cons_iff in Hall as [Hfirst Hall]. cbn [nth].
  replace (first >? 0) with true
    by (symmetry; rewrite Z.gtb_ltb; apply Z.ltb_lt; exact Hfirst).
  unfold enumerate.
  rewrite (stages_downsamples_all_layers _ _ 0).
  - rewrite length_combine, <- Hlen, Nat.min_id. cbn [length]. lia.
  - rewrite length_combine, <- Hlen, Nat.min_id. lia.
  - apply Forall_forall. intros [c n] Hcn. cbn [snd].
    apply in_combine_r in Hcn.
    destruct Hcn as [<-|Hcn]; [ exact Hfirst | ].
    rewrite Forall_forall in Hall. apply Hall. exact Hcn.
Qed.

Lemma spatial_compression_ratio_counts_stages_witness :
  exists m,
    AutoencoderDC_new DecoderSamples.autoencoder_8_16 = Ok m /\
    spatial_compression_ratio m = 2 ^ (2 - 1) /\
    temporal_compression_ratio m = 1 /\
    model_flags m = Autoencoder.AutoencoderDC_init /\
    spatial_compression_ratio m = 2 ^ 1.
Proof.
  destruct (AutoencoderDC_new DecoderSamples.autoencoder_8_16) as [m|e] eqn:E;
    [ | vm_compute in E; discriminate E ].
  exists m. split; [ reflexivity | ].
  destruct (spatial_compression_ratio_counts_stages
              DecoderSamples.autoencoder_8_16 m E) as (H1 & H2 & H3 & H4).
  split; [ exact H1 | ]. split; [ exact H2 | ]. split; [ exact H3 | ].
  apply H4; [ reflexivity | ].
  constructor; [ lia | constructor; [ lia | constructor ] ].
Defined.

(** With a stage without layers the stored ratio overstates the factor:
    four, where the encoder halves the resolution once. *)
Example spatial_compression_ratio_overstated :
  exists m,
    AutoencoderDC_new DecoderSamples.autoencoder_8_8_8 = Ok m /\
    spatial_compression_ratio m = 4 /\
    num_downsamples (encoder_config DecoderSamples.autoencoder_8_8_8) = 1 /\
    Encoder_forward (model_encoder m) [1; 3; 4; 4] = Ok [1; 8; 2; 2].
Proof.
  eexists. split; [ vm_compute; reflexivity | ].
  repeat split; vm_compute; reflexivity.
Qed.

End ConstructionFacts.

(* ------------------------------------------------------------------ *)
(** ** The quadratic attention formula *)

Module QuadraticFacts.

Import Layers Value TabFacts AttentionFacts.
Local Open Scope R_scope.

Lemma dot_nil_l (u : vector) : dot [] u = 0.
Proof. reflexivity. Qed.

Lemma dot_nil_r (u : vector) : dot u [] = 0.
Proof. unfold dot. rewrite combine_nil. reflexivity. Qed.

Lemma dot_cons (a x : R) (u w : vector) :
  dot (a :: u) (x :: w) = a * x + dot u w.
Proof. reflexivity. Qed.

Lemma dot_map_zero {A} (v : vector) (l : list A) :
  dot v (map (fun _ => 0) l) = 0.
Proof.
  revert l. induction v as [|y v IH]; intros l; [ reflexivity | ].
  destruct l as [|a l]; [ apply dot_nil_r | ].
  cbn [map]. rewrite dot_cons, IH. ring.
Qed.

(** The dot product is linear in its second operand. *)
Lemma dot_tabulate_linear (v : vector) n (a b : nat -> R) (x : R) :
  dot v (tabulate n (fun m => a m * x + b m))
  = x * dot v (tabulate n a) + dot v (tabulate n b).
Proof.
  revert n a b. induction v as [|y v IH]; intros n a b.
  - rewrite !dot_nil_l. ring.
  - destruct n as [|n].
    + unfold tabulate. cbn [seq map]. rewrite !dot_nil_r. ring.
    + rewrite !tabulate_S, !dot_cons.
      rewrite (IH n (fun i => a (S i)) (fun i => b (S i))). ring.
Qed.

Lemma dot_map_div (v l : vector) (D : R) :
  dot v (map (fun y => y / D) l) = dot v l / D.
Proof.
  revert l. induction v as [|y v IH]; intros l.
  - rewrite !dot_nil_l. unfold Rdiv. ring.
  - destruct l as [|a l].
    + cbn [map]. rewrite !dot_nil_r. unfold Rdiv. ring.
    + cbn [map]. rewrite !dot_cons, IH. unfold Rdiv. ring.
Qed.

(** Exchanging the two sums of [v (K^T u)]: summing over the positions
    first, or over the rows of the key first. *)
Lemma dot_columns_exchange n (k : matrix) (v u : vector) :
  Forall (fun row => length row = n) k ->
  dot v (tabulate n (fun m => dot (column m k) u))
  = dot (map (dot v) k) u.
Proof.
  intros Hk. revert u. induction k as [|r k IH]; intros u.
  - cbn [map column]. rewrite dot_nil_l.
    unfold tabulate. apply dot_map_zero.
  - apply Forall_cons_iff in Hk as [Hr Hk].
    destruct u as [|x u].
    + rewrite dot_nil_r.
      transitivity (dot v (map (fun _ : nat => 0) (seq 0 n)));
        [ | apply dot_map_zero ].
      reflexivity.
    + cbn [map]. rewrite dot_cons.
      transitivity
        (dot v (tabulate n (fun m => nth m r 0 * x + dot (column m k) u))).
      { reflexivity. }
      rewrite dot_tabulate_linear, (IH Hk).
      rewrite <- Hr, <- (tabulate_eta r 0). ring.
Qed.

Lemma column_tabulate2 n m (f : nat -> nat -> R) c :
  (c < m)%nat -> column c (tabulate2 n m f) = tabulate n (fun i => f i c).
Proof.
  intros Hc. unfold column, tabulate2. rewrite map_tabulate.
  apply tabulate_ext. intros i _. apply nth_tabulate. exact Hc.
Qed.

Lemma ncols_tabulate2 n m (f : nat -> nat -> R) :
  (0 < n)%nat -> ncols (tabulate2 n m f) = m.
Proof.
  intros Hn. destruct n as [|n]; [ lia | ].
  unfold ncols, tabulate2. rewrite tabulate_S. cbn [hd].
  apply tabulate_length.
Qed.

Lemma has_shape2_tabulate2 n m (f : nat -> nat -> R) :
  has_shape2 n m (tabulate2 n m f).
Proof.
  split; [ apply tabulate_length | ].
  apply Forall_forall. intros row Hin. unfold tabulate2, tabulate in Hin.
  apply in_map_iff in Hin. destruct Hin as (i & <- & _).
  apply tabulate_length.
Qed.

(** The scores [K^T Q], entry by entry. *)
Lemma scores_table {d n} {q k : matrix} :
  has_shape2 d n q -> has_shape2 d n k -> (0 < d)%nat ->
  matrix_product (transpose k) q
  = tabulate2 n n (fun m c => dot (column m k) (column c q)).
Proof.
  intros Hq Hk Hd. unfold matrix_product, transpose.
  rewrite (has_shape2_ncols Hq Hd), (has_shape2_ncols Hk Hd).
  unfold tabulate2, tabulate. rewrite map_map. reflexivity.
Qed.

(** The sum of a column of the scores is [1 K^T Q] at that position. *)
Lemma scores_column_sum {d n} (q : matrix) {k : matrix} c :
  has_shape2 d n k ->
  sum (tabulate n (fun m => dot (column m k) (column c q)))
  = ones_KtQ q k c.
Proof.
  intros [_ Hk].
  rewrite <- (dot_ones (tabulate n _)), tabulate_length.
  rewrite (dot_columns_exchange n k (repeat 1 n) (column c q) Hk).
  unfold ones_KtQ. f_equal. apply map_ext_in. intros row Hin.
  rewrite Forall_forall in Hk. rewrite <- (Hk row Hin). apply dot_ones.
Qed.

(** The scores of one [d x n] slice, each column divided by its sum plus
    [eps]. *)
Lemma normalized_scores eps {d n} {q k : matrix} :
  has_shape2 d n q -> has_shape2 d n k -> (0 < d)%nat -> (0 < n)%nat ->
  let scores := matrix_product (transpose k) q in
  broadcast2 (broadcast2 (fun x y => Ok (x / y))) scores
    (map (map (fun x => x + eps))
       [map (fun j => sum (column j scores)) (seq 0 (ncols scores))])
  = Ok (tabulate2 n n
          (fun m c => dot (column m k) (column c q)
                      / (ones_KtQ q k c + eps))).
Proof.
  intros Hq Hk Hd Hn scores. unfold scores.
  rewrite (scores_table Hq Hk Hd), ncols_tabulate2 by exact Hn.
  cbn [map]. rewrite map_map.
  change (map (fun j => sum (column j (tabulate2 n n
                 (fun m c => dot (column m k) (column c q)))) + eps)
            (seq 0 n))
    with (tabulate n
            (fun j => sum (column j (tabulate2 n n
                 (fun m c => dot (column m k) (column c q)))) + eps)).
  unfold tabulate2 at 1 3.
  apply broadcast2_singleton. intros m Hm.
  apply broadcast2_tabulate. intros c Hc.
  rewrite column_tabulate2 by exact Hc.
  rewrite (scores_column_sum q c Hk). reflexivity.
Qed.

(** The value times the normalized scores is the renormalised
    [V K^T Q]. *)
Lemma value_times_normalized_scores eps {d n} {q k v : matrix} :
  has_shape2 d n q -> has_shape2 d n k -> has_shape2 d n v ->
  (0 < d)%nat -> (0 < n)%nat ->
  matmul2 v
    (tabulate2 n n
       (fun m c => dot (column m k) (column c q) / (ones_KtQ q k c + eps)))
  = Ok (renormalized eps q k v).
Proof.
  intros Hq Hk Hv Hd Hn.
  rewrite (matmul2_ok Hv (has_shape2_tabulate2 n n _) Hn).
  apply f_equal. unfold matrix_product.
  rewrite ncols_tabulate2 by exact Hn.
  rewrite (map_as_tabulate _ v []).
  change (renormalized eps q k v)
    with (tabulate (length v)
            (fun i => tabulate (ncols q)
                        (fun c => VKtQ q k v i c / (ones_KtQ q k c + eps)))).
  rewrite (has_shape2_ncols Hq Hd).
  apply tabulate_ext. intros i Hi.
  apply tabulate_ext. intros c Hc.
  rewrite column_tabulate2 by exact Hc.
  rewrite <- (map_tabulate (fun y => y / (ones_KtQ q k c + eps)) n
                (fun m => dot (column m k) (column c q))).
  rewrite dot_map_div. f_equal.
  destruct Hk as [_ Hk].
  apply (dot_columns_exchange n k (nth i v []) (column c q) Hk).
Qed.

Lemma quadratic_renormalized (attn : SanaMultiscaleLinearAttention)
    (query key value : tensor4) (b h d n : nat) :
  (0 < d)%nat -> (0 < n)%nat ->
  has_shape4 b h d n query ->
  has_shape4 b h d n key ->
  has_shape4 b h d n value ->
  apply_quadratic_attention attn query key value
  = Ok (renormalized4 (eps attn) query key value).
Proof.
  intros Hd Hn Hq Hk Hv.
  destruct (has_shape4_tabulate Hq) as (qf & -> & Hqf).
  destruct (has_shape4_tabulate Hk) as (kf & -> & Hkf).
  destruct (has_shape4_tabulate Hv) as (vf & -> & Hvf).
  unfold apply_quadratic_attention, transpose_last2, matmul.
  rewrite !tabulate2_map.
  rewrite tabulate2_broadcast
    with (r := fun i j => matrix_product (transpose (kf i j)) (qf i j)).
  2:{ intros i j Hi Hj.
      apply (matmul2_ok (transpose_shape (Hkf i j Hi Hj) Hd)
               (Hqf i j Hi Hj) Hd). }
  cbn [Py.bind].
  unfold div, broadcast4, add_scalar, map4, sum_2_keepdim.
  rewrite !tabulate2_map.
  rewrite tabulate2_broadcast
    with (r := fun i j =>
                 tabulate2 n n
                   (fun m c => dot (column m (kf i j)) (column c (qf i j))
                               / (ones_KtQ (qf i j) (kf i j) c + eps attn))).
  2:{ intros i j Hi Hj.
      apply (normalized_scores (eps attn) (Hqf i j Hi Hj) (Hkf i j Hi Hj)
               Hd Hn). }
  cbn [Py.bind].
  unfold renormalized4. rewrite tabulate2_zip3.
  apply tabulate2_broadcast. intros i j Hi Hj.
  apply (value_times_normalized_scores (eps attn) (Hqf i j Hi Hj)
           (Hkf i j Hi Hj) (Hvf i j Hi Hj) Hd Hn).
Qed.

Lemma dtype_eqb_refl (t : Typed.dtype) : Typed.dtype_eqb t t = true.
Proof. destruct t; reflexivity. Qed.

(** [apply_quadratic_attention], lines 163 to 168 of the source.  The
    query, the key and the value are pieces of one tensor and share its
    element type.  On [float32] operands of shape [(b, h, d, n)] the
    quadratic path, which divides every column of [K^T Q] by its sum plus
    [eps] before multiplying by the value, returns in exact arithmetic
    [V K^T Q] renormalised, at each position, by [1 K^T Q + eps].  On
    operands of any other element type the scores are cast to [float32]
    and the value is not: the last product raises [RuntimeError]. *)
Theorem quadratic_attention_renormalizes :
  forall (attn : SanaMultiscaleLinearAttention)
         (query key value : Typed.tensor) (t : Typed.dtype)
         (b h d n : nat),
    (0 < d)%nat -> (0 < n)%nat ->
    has_shape4 b h d n (Typed.values query) ->
    has_shape4 b h d n (Typed.values key) ->
    has_shape4 b h d n (Typed.values value) ->
    Typed.dtype_of query = t -> Typed.dtype_of key = t ->
    Typed.dtype_of value = t ->
    Typed.apply_quadratic_attention attn query key value
    = if Typed.dtype_eqb t Typed.float32
      then Ok (Typed.mkTensor Typed.float32
                 (renormalized4 (eps attn) (Typed.values query)
                    (Typed.values key) (Typed.values value)))
      else Raise RuntimeError.
Proof.
  intros attn query key value t b h d n Hd Hn Hq Hk Hv Tq Tk Tv.
  pose proof (quadratic_renormalized attn _ _ _ b h d n Hd Hn Hq Hk Hv)
    as Hval.
  unfold apply_quadratic_attention in Hval.
  unfold Typed.apply_quadratic_attention, Typed.matmul at 1,
    Typed.transpose_last2.
  cbn [Typed.dtype_of Typed.values].
  rewrite Tq, Tk, dtype_eqb_refl.
  destruct (matmul (transpose_last2 (Typed.values key)) (Typed.values query))
    as [scores|e]; [ | discriminate Hval ].
  cbn [Py.bind] in Hval |- *.
  unfold Typed.renormalize_columns, Typed.to.
  cbn [Typed.dtype_of Typed.values].
  destruct (div scores (add_scalar (sum_2_keepdim scores) (eps attn)))
    as [normalized|e]; [ | discriminate Hval ].
  cbn [Py.bind] in Hval |- *.
  unfold Typed.matmul. cbn [Typed.dtype_of Typed.values].
  rewrite Tv.
  destruct t; cbn [Typed.dtype_eqb]; try reflexivity.
  rewrite Hval. reflexivity.
Qed.

Lemma quadratic_attention_renormalizes_witness :
  Typed.apply_quadratic_attention Samples.attn_d4
    (Typed.mkTensor Typed.float32 Samples.query_23)
    (Typed.mkTensor Typed.float32 Samples.key_23)
    (Typed.mkTensor Typed.float32 Samples.value_23)
  = Ok (Typed.mkTensor Typed.float32
          (renormalized4 (eps Samples.attn_d4)
             Samples.query_23 Samples.key_23 Samples.value_23)) /\
  Typed.apply_quadratic_attention Samples.attn_d4
    (Typed.mkTensor Typed.float16 Samples.query_23)
    (Typed.mkTensor Typed.float16 Samples.key_23)
    (Typed.mkTensor Typed.float16 Samples.value_23)
  = Raise RuntimeError.
Proof.
  split.
  - apply (quadratic_attention_renormalizes Samples.attn_d4
             (Typed.mkTensor Typed.float32 Samples.query_23)
             (Typed.mkTensor Typed.float32 Samples.key_23)
             (Typed.mkTensor Typed.float32 Samples.value_23)
             Typed.float32 1%nat 1%nat 2%nat 3%nat);
      first [ lia | reflexivity | repeat (split || constructor) ].
  - apply (quadratic_attention_renormalizes Samples.attn_d4
             (Typed.mkTensor Typed.float16 Samples.query_23)
             (Typed.mkTensor Typed.float16 Samples.key_23)
             (Typed.mkTensor Typed.float16 Samples.value_23)
             Typed.float16 1%nat 1%nat 2%nat 3%nat);
      first [ lia | reflexivity | repeat (split || constructor) ].
Defined.

End QuadraticFacts.

(* ------------------------------------------------------------------ *)
(** ** [RMSNorm]: the freshly built layer *)

Module NormValueFacts.

Import Layers Value NormFacts.
Local Open Scope R_scope.

(** An operand of the same length, constant. *)
Lemma broadcast1_constant (f : R -> R -> R) (a : vector) (c : R) :
  broadcast1 f a (repeat c (length a)) = Ok (map (fun x => f x c) a).
Proof.
  unfold broadcast1, broadcast2. rewrite repeat_length, Nat.eqb_refl.
  induction a as [|x a IH]; [ reflexivity | ].
  cbn [length repeat combine comprehension map Py.bind].
  rewrite IH. reflexivity.
Qed.

(** Two operands of different lengths, neither of length one. *)
Lemma broadcast2_mismatch {A B C} (F : A -> B -> result C)
    (a : list A) (b : list B) :
  length a <> length b -> length a <> 1%nat -> length b <> 1%nat ->
  broadcast2 F a b = Raise RuntimeError.
Proof.
  intros H Ha Hb. unfold broadcast2.
  rewrite (proj2 (Nat.eqb_neq _ _) H).
  destruct a as [|x [|x' a]]; destruct b as [|y [|y' b]];
    cbn [length] in *; first [ reflexivity | exfalso; lia ].
Qed.

Lemma rsqrt_squared (y : R) : 0 < y -> rsqrt y ^ 2 = / y.
Proof.
  intros Hy. unfold rsqrt.
  assert (Hs : sqrt y * sqrt y = y) by (apply sqrt_sqrt; lra).
  assert (Hpos : 0 < sqrt y) by (apply sqrt_lt_R0; exact Hy).
  set (s := sqrt y) in *. rewrite <- Hs. field. lra.
Qed.

(** The mean square of the normalized vector. *)
Lemma rms_normalize_mean_square (eps : R) (x : vector) :
  0 < mean (map (fun a => a ^ 2) x) + eps ->
  mean (map (fun a => a ^ 2) (rms_normalize eps x))
  = mean (map (fun a => a ^ 2) x) / (mean (map (fun a => a ^ 2) x) + eps).
Proof.
  intros Hpos. unfold rms_normalize.
  set (m := mean (map (fun a => a ^ 2) x)) in *.
  replace (map (fun a => a * rsqrt (m + eps)) x)
    with (map (Rmult (rsqrt (m + eps))) x)
    by (apply map_ext; intros a; ring).
  rewrite mean_squares_scale, rsqrt_squared by exact Hpos.
  fold m. unfold Rdiv. ring.
Qed.

(** [RMSNorm] as its constructor leaves it, with weight one and bias zero:
    on a vector of [dim] entries the forward pass is the bare
    normalization [x * rsqrt(mean(x^2) + eps)]; the constructor never
    records a check of the length, and a vector of another length is
    refused only by the broadcast of the weight, unless one of the two
    lengths is one.  The mean square of the normalized vector is
    [m / (m + eps)] for [m] the mean square of the input: below one for a
    positive [eps], exactly one for [eps = 0]. *)
Theorem RMSNorm_fresh_forward :
  forall (dim : Z) (eps : R) (x : vector) (n : RMSNorm),
    RMSNorm_init dim eps true true = Ok n ->
    (length x = Z.to_nat dim ->
     RMSNorm_forward n x = Ok (rms_normalize eps x)) /\
    (length x <> Z.to_nat dim -> length x <> 1%nat ->
     Z.to_nat dim <> 1%nat ->
     RMSNorm_forward n x = Raise RuntimeError) /\
    (0 < mean (map (fun a => a ^ 2) x) + eps ->
     mean (map (fun a => a ^ 2) (rms_normalize eps x))
     = mean (map (fun a => a ^ 2) x)
       / (mean (map (fun a => a ^ 2) x) + eps)) /\
    (0 < mean (map (fun a => a ^ 2) x) -> eps = 0 ->
     mean (map (fun a => a ^ 2) (rms_normalize eps x)) = 1).
Proof.
  intros dim eps x n Hinit. unfold RMSNorm_init in Hinit.
  destruct (dim <? 0)%Z; [ discriminate Hinit | ].
  injection Hinit as <-.
  unfold RMSNorm_forward. cbn [rms_eps rms_weight rms_bias].
  assert (Hlen : length (rms_normalize eps x) = length x)
    by (unfold rms_normalize; apply length_map).
  split; [ | split; [ | split ] ].
  - intros Hx. rewrite <- Hx, <- Hlen.
    rewrite broadcast1_constant. cbn [Py.bind].
    rewrite <- (length_map (fun a => a * 1) (rms_normalize eps x)).
    rewrite broadcast1_constant. apply f_equal.
    rewrite map_map. rewrite <- (map_id (rms_normalize eps x)) at 2.
    apply map_ext. intros a. ring.
  - intros Hx H1 Hd. unfold broadcast1.
    rewrite broadcast2_mismatch;
      rewrite ?repeat_length, ?Hlen; try assumption. reflexivity.
  - apply rms_normalize_mean_square.
  - intros Hm He. subst eps.
    rewrite rms_normalize_mean_square by lra.
    field. lra.
Qed.

Lemma RMSNorm_fresh_forward_witness :
  RMSNorm_forward
    (mkRMSNorm 2 default_norm_eps true (Some (repeat 1 (Z.to_nat 2)))
       (Some (repeat 0 (Z.to_nat 2))))
    [1; 3]
  = Ok (rms_normalize default_norm_eps [1; 3]).
Proof.
  apply (RMSNorm_fresh_forward 2 default_norm_eps [1; 3]
           (mkRMSNorm 2 default_norm_eps true (Some (repeat 1 (Z.to_nat 2)))
              (Some (repeat 0 (Z.to_nat 2))))).
  - reflexivity.
  - reflexivity.
Defined.

End NormValueFacts.

(* ------------------------------------------------------------------ *)
(** ** [forward]: the two paths *)

Module ForwardFacts.

Import Value Autoencoder.

(** Single-sample results joined along the batch axis make a batch of as
    many samples. *)
Lemma comprehension_singletons {A} (f : A -> result tensor4)
    (xs : list A) (ys : list tensor4) :
  (forall x y, In x xs -> f x = Ok y -> length y = 1%nat) ->
  comprehension f xs = Ok ys ->
  length (concat ys) = length xs.
Proof.
  revert ys. induction xs as [|x xs IH]; intros ys Hf H.
  - injection H as <-. reflexivity.
  - cbn [comprehension] in H.
    apply bind_Ok_inv in H as (y & Hy & H).
    apply bind_Ok_inv in H as (ys' & Hys & H).
    injection H as <-. cbn [concat length].
    rewrite length_app, (Hf x y (or_introl eq_refl) Hy).
    rewrite (IH ys' (fun x' y' Hin => Hf x' y' (or_intror Hin)) Hys).
    reflexivity.
Qed.

Lemma split_1_singletons (x s : tensor4) :
  In s (split_1 x) -> length s = 1%nat.
Proof.
  unfold split_1. intros Hin. apply in_map_iff in Hin.
  destruct Hin as (sample & <- & _). reflexivity.
Qed.

Section Forward.

Variable encoder decoder : tensor4 -> result tensor4.
Variable tiled_encode tiled_decode : tensor4 -> result tensor4.
Variable tile_latent_min_height tile_latent_min_width : Z.

Local Abbreviation forward_sample :=
  (Decoding.forward_sample encoder decoder tiled_encode tiled_decode
     tile_latent_min_height tile_latent_min_width).

Hypothesis encoder_keeps_batch :
  forall x y, encoder x = Ok y -> length y = length x.
Hypothesis tiled_encode_keeps_batch :
  forall x y, tiled_encode x = Ok y -> length y = length x.

Lemma _encode_keeps_batch self x y :
  _encode encoder tiled_encode self x = Ok y -> length y = length x.
Proof.
  unfold _encode. destruct (shape4 x) as [[[b c] h] w].
  destruct (_ && _); [ apply tiled_encode_keeps_batch
                     | apply encoder_keeps_batch ].
Qed.

Lemma encode_keeps_batch self x y :
  encode encoder tiled_encode self x = Ok y -> length y = length x.
Proof.
  unfold encode.
  destruct (use_slicing self && (1 <? length x)%nat);
    [ | apply _encode_keeps_batch ].
  intros H. apply bind_Ok_inv in H as (ys & Hys & Hcat).
  unfold cat_0 in Hcat.
  destruct ys as [|t rest]; [ discriminate Hcat | ].
  destruct (forallb _ rest); [ | discriminate Hcat ].
  injection Hcat as <-.
  transitivity (length (split_1 x));
    [ | unfold split_1; apply length_map ].
  apply (comprehension_singletons _ _ _ (fun s y Hin H =>
           eq_trans (_encode_keeps_batch self s y H)
             (split_1_singletons x s Hin)) Hys).
Qed.

(** [forward] under slicing: the batch is encoded sample by sample, and
    the decoding of the first slice then reads the attribute [sample] of a
    tensor; on a batch of more than one sample [forward] never returns. *)
Theorem forward_sliced_never_returns :
  forall (self : AutoencoderDC) (sample : tensor4),
    use_slicing self = true -> (1 < length sample)%nat ->
    exists e, forward_sample self sample = Raise e.
Proof.
  intros self sample Hs Hn. unfold Decoding.forward_sample.
  destruct (encode encoder tiled_encode self sample) as [z|e] eqn:Ez;
    [ | eexists; reflexivity ].
  cbn [Py.bind].
  pose proof (encode_keeps_batch self sample z Ez) as Hlen.
  unfold decode. rewrite Hs.
  assert (Hz : (1 <? length z)%nat = true)
    by (apply Nat.ltb_lt; rewrite Hlen; exact Hn).
  rewrite Hz. cbn [andb].
  destruct z as [|s z']; [ discriminate Hz | ].
  unfold split_1. cbn [map comprehension].
  destruct (_decode decoder tiled_decode tile_latent_min_height
              tile_latent_min_width self [s]) as [d|e];
    cbn [Py.bind getattr_sample]; eexists; reflexivity.
Qed.

(** [forward] on the model as [__init__] leaves it: the decoder after the
    encoder, on the whole batch. *)
Lemma forward_unsliced (sample : tensor4) :
  forward_sample AutoencoderDC_init sample
  = (z <- encoder sample ;; decoder z).
Proof.
  unfold Decoding.forward_sample, encode, decode, _encode, _decode.
  cbn [AutoencoderDC_init use_slicing use_tiling andb].
  destruct (shape4 sample) as [[[b c] h] w].
  destruct (encoder sample) as [z|e]; [ | reflexivity ].
  cbn [Py.bind]. destruct (shape4 z) as [[[b' c'] h'] w']. reflexivity.
Qed.

End Forward.

Lemma forward_sliced_never_returns_witness :
  exists e,
    Decoding.forward_sample (fun x => Ok x) (fun z => Ok z) (fun x => Ok x)
      (fun z => Ok z) 64 64 (enable_slicing AutoencoderDC_init)
      Samples.two_samples
    = Raise e.
Proof.
  apply (forward_sliced_never_returns (fun x => Ok x) (fun z => Ok z)
           (fun x => Ok x) (fun z => Ok z) 64 64).
  - intros x y H. injection H as <-. reflexivity.
  - intros x y H. injection H as <-. reflexivity.
  - reflexivity.
  - cbn [Samples.two_samples length]. lia.
Defined.

End ForwardFacts.
